(** * Hybrid recommendation engine: a shallow embedding and its properties

    The development follows the Python services of the recommendation
    service one by one:

    - [Py]            the few Python primitives the services rely on
                      (string search, [str.lower], [int], exceptions);
    - [Model]         the records exchanged by the services;
    - [Contextual]    [ContextualScoringService];
    - [Learning]      [PreferenceLearningService];
    - [Dict]          insertion-ordered dictionaries and [sorted];
    - [Collaborative] [CollaborativeFilteringService];
    - [Engine]        [RecommendationEngine];
    - [Scenario]      the fixtures of the test suite as concrete inputs;
    - [Spec]          the vocabulary of the statements.

    The properties come after the definitions: first one module of facts
    per service, then further properties of each service (composition,
    malformed input, invariants of the stored state).

    Python floats are modelled by exact rationals ([Q]); the properties
    below only use comparisons, sums, products and quotients, never a
    rounding effect.  Text is modelled by its bytes; [str.lower] and
    [int] are Python's on ASCII text, and the statements that depend on
    them are made of ASCII text.  Mutable service attributes become fields
    of explicit state records that are threaded through the operations.  The numeric
    libraries (matrix factorisation, cosine similarity, trigonometry) and
    the content-based service built on them stay outside the embedding and
    enter it as section variables. *)

From Stdlib Require Import QArith Qabs Qminmax Lqa ZArith String Ascii List.
From stdpp Require Import gmap strings list fin_maps.
From Stdlib Require Import Sorted.
Import ListNotations.

Local Open Scope string_scope.

(** ** Python primitives *)
Module Py.

(** Exceptions that the modelled code can meet. *)
Inductive exn : Type :=
| TypeError | KeyError | ValueError | AttributeError.

(** A computation that either returns or raises. *)
Inductive result (A : Type) : Type :=
| Ok (a : A)
| Raise (e : exn).
Arguments Ok {A} a.
Arguments Raise {A} e.

Definition bind {A B} (m : result A) (k : A -> result B) : result B :=
  match m with
  | Ok a => k a
  | Raise e => Raise e
  end.

(** [try: m  except Exception: h] *)
Definition try_except {A} (m : result A) (h : A) : A :=
  match m with
  | Ok a => a
  | Raise _ => h
  end.

(** Running a loop body over a list, stopping at the first exception. *)
Fixpoint for_each {A B} (f : A -> result B) (l : list A) : result (list B) :=
  match l with
  | [] => Ok []
  | a :: l' =>
      match f a with
      | Raise e => Raise e
      | Ok b =>
          match for_each f l' with
          | Raise e => Raise e
          | Ok bs => Ok (b :: bs)
          end
      end
  end.

(** Values found in the untyped dictionaries (factor payloads). *)
Inductive value : Type :=
| VNone
| VNum (q : Q)
| VStr (s : string)
| VTime (hour minute : Z).

(** Truth value of an object, as tested by [if not x]. *)
Definition truthy (v : value) : bool :=
  match v with
  | VNone => false
  | VNum q => negb (Qeq_bool q 0)
  | VStr s => negb (String.eqb s "")
  | VTime _ _ => true
  end.

(** [d.get(k, default)] *)
Definition get (d : gmap string value) (k : string) (default : value) : value :=
  match d !! k with
  | Some v => v
  | None => default
  end.

(** [d[k]] *)
Definition getitem (d : gmap string value) (k : string) : result value :=
  match d !! k with
  | Some v => Ok v
  | None => Raise KeyError
  end.

Definition Qltb (x y : Q) : bool := negb (Qle_bool y x).

(** [v > q] for a number [q]; ordering a string, [None] or a time
    against a number is a [TypeError]. *)
Definition gt_num (v : value) (q : Q) : result bool :=
  match v with
  | VNum x => Ok (Qltb q x)
  | _ => Raise TypeError
  end.

Definition lt_num (v : value) (q : Q) : result bool :=
  match v with
  | VNum x => Ok (Qltb x q)
  | _ => Raise TypeError
  end.

(** [v == s] for a string literal [s]. *)
Definition eq_str (v : value) (s : string) : bool :=
  match v with
  | VStr x => String.eqb x s
  | _ => false
  end.

(** *** Strings

    A string stands for a Python [str] through its UTF-8 bytes.  Equality,
    concatenation, [in] and [split] act on the bytes as they act on the
    characters.  [lower] and [int] are Python's on ASCII text, the text of
    the catalog and of the test suite; on other text Python also folds
    cased characters and reads decimal digits that lie outside ASCII,
    which is why the further statements about case folding and about the
    reading of numbers are made of ASCII text ([isascii]). *)

(** [s.isascii()] *)
Definition isascii (s : string) : bool :=
  forallb (fun c => Nat.ltb (nat_of_ascii c) 128) (list_ascii_of_string s).

Definition lower_ascii (c : ascii) : ascii :=
  let n := nat_of_ascii c in
  if (Nat.leb 65 n && Nat.leb n 90)%bool then ascii_of_nat (n + 32) else c.

Fixpoint lower (s : string) : string :=
  match s with
  | EmptyString => EmptyString
  | String c s' => String (lower_ascii c) (lower s')
  end.

(** [needle in haystack] *)
Fixpoint contains (needle haystack : string) : bool :=
  (String.prefix needle haystack ||
   match haystack with
   | EmptyString => false
   | String _ h' => contains needle h'
   end)%bool.

(** [sep.join(l)] *)
Fixpoint join (sep : string) (l : list string) : string :=
  match l with
  | [] => ""
  | [x] => x
  | x :: l' => x ++ sep ++ join sep l'
  end.

(** [l[:n]] for a signed [n]: the first [n] elements, and all but the
    last [-n] when [n] is negative. *)
Definition slice_to {A} (n : Z) (l : list A) : list A :=
  if (0 <=? n)%Z then take (Z.to_nat n) l
  else take (length l - Z.to_nat (- n)) l.

(** [x in l] for a list of strings. *)
Definition in_list (x : string) (l : list string) : bool :=
  bool_decide (x ∈ l).

(** [s.split(sep)[0]]: the text before the first separator. *)
Fixpoint split_head (sep : ascii) (s : string) : string :=
  match s with
  | EmptyString => EmptyString
  | String c s' =>
      if Ascii.eqb c sep then EmptyString else String c (split_head sep s')
  end.

Definition is_space (c : ascii) : bool :=
  let n := nat_of_ascii c in
  (Nat.eqb n 32 || (Nat.leb 9 n && Nat.leb n 13))%bool.

Fixpoint lstrip (s : string) : string :=
  match s with
  | String c s' => if is_space c then lstrip s' else s
  | EmptyString => EmptyString
  end.

Definition is_digit (c : ascii) : bool :=
  let n := nat_of_ascii c in (Nat.leb 48 n && Nat.leb n 57)%bool.

(** Digits of [s] read left to right onto the accumulator, with single
    underscores between digits and blanks at the end; [None] on any other
    character. *)
Fixpoint digits (acc : Z) (s : string) : option Z :=
  match s with
  | EmptyString => Some acc
  | String c s' =>
      if is_digit c
      then digits (10 * acc + Z.of_nat (nat_of_ascii c - 48)) s'
      else if Ascii.eqb c "_"
           then match s' with
                | String d _ => if is_digit d then digits acc s' else None
                | EmptyString => None
                end
      else if is_space c
           then (if String.eqb (lstrip s') "" then Some acc else None)
           else None
  end.

(** [int(s)] on ASCII text: surrounding blanks, an optional sign and
    decimal digits; anything else is a [ValueError]. *)
Definition int (s : string) : result Z :=
  let body (t : string) : option Z :=
    match t with
    | EmptyString => None
    | String c _ => if is_digit c then digits 0 t else None
    end in
  let signed :=
    match lstrip s with
    | String "-" t => option_map Z.opp (body t)
    | String "+" t => body t
    | t => body t
    end in
  match signed with
  | Some z => Ok z
  | None => Raise ValueError
  end.

End Py.

#[global] Instance result_ret : MRet Py.result := @Py.Ok.
#[global] Instance result_bind : MBind Py.result := fun A B k m => Py.bind m k.

(** ** Data model

    Modelled from the spec: the module [models/recommendation.py] that
    declares these classes is not part of the sources at hand.  The records
    list the attributes that the services read or write, with the value
    sets that the services and their callers use.  The reasoning text of a
    response, assembled from an unordered set of interests, is left out. *)
Module Model.

Inductive BudgetRange : Type := LOW | MEDIUM | HIGH | LUXURY.

Definition BudgetRange_value (b : BudgetRange) : string :=
  match b with
  | LOW => "low" | MEDIUM => "medium" | HIGH => "high" | LUXURY => "luxury"
  end.

Inductive GroupType : Type := SOLO | COUPLE | FAMILY | FRIENDS.

Inductive ActivityLevel : Type := ACT_LOW | ACT_MODERATE | ACT_HIGH | ACT_EXTREME.

Definition ActivityLevel_value (a : ActivityLevel) : string :=
  match a with
  | ACT_LOW => "low" | ACT_MODERATE => "moderate"
  | ACT_HIGH => "high" | ACT_EXTREME => "extreme"
  end.

Inductive ContextType : Type := WEATHER | CROWD | TIME | LOCATION | SEASON.

Inductive RecommendationType : Type := ATTRACTION | RESTAURANT | ACTIVITY | EVENT.

Definition RecommendationType_value (t : RecommendationType) : string :=
  match t with
  | ATTRACTION => "attraction" | RESTAURANT => "restaurant"
  | ACTIVITY => "activity" | EVENT => "event"
  end.

Record Location : Type := {
  latitude : Q;
  longitude : Q;
  address : string;
  district : string
}.

Record RecommendationItem : Type := {
  item_id : string;
  item_type : string;
  name : string;
  description : string;
  location : Location;
  rating : Q;
  categories : list string;
  estimated_duration : Z;
  estimated_cost : Q;
  weather_dependent : bool;
  crowd_level : string;
  local_authenticity_score : Q
}.

Record UserPreferences : Type := {
  interests : list string;
  budget_range : BudgetRange;
  group_type : GroupType;
  dietary_restrictions : list string;
  activity_level : ActivityLevel;
  weather_preferences : list string
}.

(** An interaction; [context] maps situational keys (weather,
    time_of_day, district, recommendation_id) to text, and is empty when
    the interaction carries none. *)
Record UserInteraction : Type := {
  ui_user_id : string;
  ui_item_id : string;
  interaction_type : string;
  ui_rating : option Q;
  timestamp : Z;
  context : gmap string string
}.

Record UserProfile : Type := {
  user_id : string;
  preferences : UserPreferences;
  interaction_history : list UserInteraction;
  last_updated : Z
}.

Record ContextualFactor : Type := {
  cf_type : ContextType;
  cf_value : gmap string Py.value;
  impact : Q;
  confidence : Q;
  cf_description : string
}.

Record RecommendationResponse : Type := {
  rec_id : string;
  rec_user_id : string;
  item : RecommendationItem;
  personalized_score : Q;
  contextual_factors : list ContextualFactor;
  alternatives : list RecommendationItem;
  generated_at : Z;
  valid_until : Z
}.

Record RecommendationRequest : Type := {
  req_user_id : string;
  req_preferences : UserPreferences;
  req_contextual_factors : list ContextualFactor;
  recommendation_types : list RecommendationType;
  max_results : nat;
  include_alternatives : bool
}.

End Model.
Import Model.

(** ** ContextualScoringService (services/contextual_scoring.py) *)
Module Contextual.
Import Py.
Local Open Scope Q_scope.

Definition weather_impact_weights : gmap string (gmap string Q) :=
  list_to_map
    [ ("sunny",  list_to_map [("outdoor", 1.2); ("indoor", 0.9)]);
      ("cloudy", list_to_map [("outdoor", 1.0); ("indoor", 1.0)]);
      ("rainy",  list_to_map [("outdoor", 0.3); ("indoor", 1.3)]);
      ("stormy", list_to_map [("outdoor", 0.1); ("indoor", 1.4)]);
      ("hot",    list_to_map [("outdoor", 0.8); ("indoor", 1.1)]);
      ("humid",  list_to_map [("outdoor", 0.7); ("indoor", 1.2)]);
      ("cool",   list_to_map [("outdoor", 1.1); ("indoor", 0.95)]);
      ("windy",  list_to_map [("outdoor", 0.9); ("indoor", 1.0)]) ].

Definition crowd_impact_weights : gmap string Q :=
  list_to_map
    [ ("very_low", 1.1); ("low", 1.05); ("moderate", 1.0);
      ("high", 0.8); ("very_high", 0.5) ].

Definition time_preferences : gmap string (gmap string Q) :=
  list_to_map
    [ ("morning",   list_to_map [("cultural", 1.2); ("outdoor", 1.3); ("shopping", 0.8)]);
      ("afternoon", list_to_map [("cultural", 1.0); ("outdoor", 1.1); ("shopping", 1.2)]);
      ("evening",   list_to_map [("cultural", 0.9); ("outdoor", 0.8); ("shopping", 1.1);
                                 ("dining", 1.3)]);
      ("night",     list_to_map [("cultural", 0.7); ("outdoor", 0.5); ("shopping", 0.6);
                                 ("dining", 1.2); ("nightlife", 1.4)]) ].

Definition seasonal_weights : gmap string (gmap string Q) :=
  list_to_map
    [ ("spring", list_to_map [("outdoor", 1.1); ("flowers", 1.3); ("hiking", 1.2)]);
      ("summer", list_to_map [("beach", 1.3); ("water", 1.2); ("indoor", 1.1);
                              ("outdoor", 0.9)]);
      ("autumn", list_to_map [("hiking", 1.2); ("outdoor", 1.1); ("cultural", 1.1)]);
      ("winter", list_to_map [("indoor", 1.2); ("hot springs", 1.3); ("cultural", 1.1);
                              ("outdoor", 0.8)]) ].

(** [d.get(k, 1.0)] on a table of multipliers. *)
Definition weight_or_one (d : gmap string Q) (k : string) : Q :=
  match d !! k with
  | Some w => w
  | None => 1.0
  end.

(** [sum(1 for keyword in keywords if keyword in text)] *)
Definition keyword_score (keywords : list string) (text : string) : nat :=
  length (List.filter (fun k => contains k text) keywords).

Definition _classify_item_environment (it : RecommendationItem) : string :=
  let outdoor_keywords :=
    ["outdoor"; "hiking"; "beach"; "park"; "garden"; "mountain"; "trail"] in
  let indoor_keywords :=
    ["indoor"; "museum"; "mall"; "restaurant"; "theater"; "gallery"] in
  let item_text :=
    lower (name it ++ " " ++ description it ++ " " ++ join " " (categories it)) in
  let outdoor_score := keyword_score outdoor_keywords item_text in
  let indoor_score := keyword_score indoor_keywords item_text in
  if (indoor_score <? outdoor_score)%nat then "outdoor"
  else if (outdoor_score <? indoor_score)%nat then "indoor"
  else "mixed".

(** Confidence weighting shared by the five factor kinds:
    [score * (1.0 + (adjustment_factor - 1.0) * confidence)]. *)
Definition weighted (score adjustment_factor conf : Q) : Q :=
  score * (1.0 + (adjustment_factor - 1.0) * conf).

(** Body of the loop of [_apply_weather_context] for one item. *)
Definition weather_adjustment
    (weather_condition temperature humidity : value)
    (user_preferences : UserPreferences) (it : RecommendationItem) : result Q :=
  let a0 := 1.0 in
  let a1 :=
    if weather_dependent it then
      match weather_condition with
      | VStr c =>
          match weather_impact_weights !! c with
          | Some weather_weights =>
              a0 * weight_or_one weather_weights (_classify_item_environment it)
          | None => a0
          end
      | _ => a0
      end
    else a0 in
  hot ← gt_num temperature 30;
  a2 ← (if hot : bool then
          Ok (if (in_list "outdoor" (categories it) || in_list "hiking" (categories it))%bool
              then a1 * 0.7
              else if (in_list "indoor" (categories it) || in_list "mall" (categories it))%bool
                   then a1 * 1.2 else a1)
        else
          cool ← lt_num temperature 15;
          Ok (if cool : bool then
                if in_list "outdoor" (categories it) then a1 * 0.9
                else if (in_list "hot springs" (categories it)
                         || in_list "indoor" (categories it))%bool
                     then a1 * 1.1 else a1
              else a1));
  humid ← gt_num humidity 80;
  let a3 :=
    if humid : bool then
      if in_list "outdoor" (categories it) then a2 * 0.8
      else if in_list "air-conditioned" (categories it) then a2 * 1.1 else a2
    else a2 in
  let a4 :=
    if in_list "indoor_preferred" (weather_preferences user_preferences) then
      if String.eqb (_classify_item_environment it) "indoor" then a3 * 1.1 else a3
    else if in_list "outdoor_preferred" (weather_preferences user_preferences) then
      if String.eqb (_classify_item_environment it) "outdoor" then a3 * 1.1 else a3
    else a3 in
  Ok a4.

Definition _apply_weather_context
    (items : list RecommendationItem) (scores : list Q)
    (weather_factor : ContextualFactor) (user_preferences : UserPreferences)
  : list Q :=
  try_except
    (let weather_condition := get (cf_value weather_factor) "condition" (VStr "cloudy") in
     let temperature := get (cf_value weather_factor) "temperature" (VNum 25) in
     let humidity := get (cf_value weather_factor) "humidity" (VNum 70) in
     for_each
       (fun '(it, score) =>
          adjustment_factor ←
            weather_adjustment weather_condition temperature humidity user_preferences it;
          Ok (weighted score adjustment_factor (confidence weather_factor)))
       (zip items scores))
    scores.

Definition crowd_adjustment (payload : gmap string value) (it : RecommendationItem) : Q :=
  let a0 := weight_or_one crowd_impact_weights (crowd_level it) in
  match payload !! "overall_crowd_level" with
  | Some overall_crowd =>
      if eq_str overall_crowd "high" then
        if in_list (crowd_level it) ["very_low"; "low"] then a0 * 1.2 else a0
      else a0
  | None => a0
  end.

Definition _apply_crowd_context
    (items : list RecommendationItem) (scores : list Q)
    (crowd_factor : ContextualFactor) : list Q :=
  try_except
    (for_each
       (fun '(it, score) =>
          Ok (weighted score (crowd_adjustment (cf_value crowd_factor) it)
                       (confidence crowd_factor)))
       (zip items scores))
    scores.

Definition _get_time_period (hour : Z) : string :=
  if ((6 <=? hour) && (hour <? 12))%Z%bool then "morning"
  else if ((12 <=? hour) && (hour <? 18))%Z%bool then "afternoon"
  else if ((18 <=? hour) && (hour <? 22))%Z%bool then "evening"
  else "night".

(** The loop over the categories with its [break]: the first category
    (lower-cased) found in the table multiplies the factor. *)
Fixpoint first_category_weight (weights : gmap string Q) (cats : list string) (a : Q) : Q :=
  match cats with
  | [] => a
  | category :: cats' =>
      match weights !! lower category with
      | Some w => a * w
      | None => first_category_weight weights cats' a
      end
  end.

Definition time_adjustment (time_period : string) (it : RecommendationItem) : Q :=
  let time_weights := default ∅ (time_preferences !! time_period) in
  let a1 := first_category_weight time_weights (categories it) 1.0 in
  if String.eqb time_period "morning" then
    if (in_list "breakfast" (categories it) || in_list "dim sum" (categories it))%bool
    then a1 * 1.3 else a1
  else if String.eqb time_period "evening" then
    if (in_list "sunset" (categories it) || in_list "night view" (categories it))%bool
    then a1 * 1.2 else a1
  else if String.eqb time_period "night" then
    if (in_list "night market" (categories it) || in_list "bar" (categories it))%bool
    then a1 * 1.3 else a1
  else a1.

Definition _apply_time_context
    (items : list RecommendationItem) (scores : list Q)
    (time_factor : ContextualFactor) : list Q :=
  try_except
    (let current_time := get (cf_value time_factor) "current_time" VNone in
     if negb (truthy current_time) then Ok scores
     else
       hour ← match current_time with
              | VStr s => int (split_head ":" s)
              | VTime h _ => Ok h
              | _ => Raise AttributeError
              end;
       let time_period := _get_time_period hour in
       for_each
         (fun '(it, score) =>
            Ok (weighted score (time_adjustment time_period it) (confidence time_factor)))
         (zip items scores))
    scores.

(** [math.radians] and the other functions of [math] accept numbers only. *)
Definition as_float (v : value) : result Q :=
  match v with
  | VNum q => Ok q
  | _ => Raise TypeError
  end.

Definition distance_band (distance : Q) : Q :=
  if Qltb distance 1 then 1.2
  else if Qltb distance 5 then 1.1
  else if Qltb distance 10 then 1.0
  else if Qltb distance 20 then 0.9
  else 0.8.

Definition seasonal_adjustment (season : value) (it : RecommendationItem) : Q :=
  let season_weights :=
    match season with
    | VStr s => default ∅ (seasonal_weights !! s)
    | _ => ∅
    end in
  first_category_weight season_weights (categories it) 1.0.

Definition _apply_seasonal_context
    (items : list RecommendationItem) (scores : list Q)
    (season_factor : ContextualFactor) : list Q :=
  try_except
    (let season := get (cf_value season_factor) "season" (VStr "spring") in
     for_each
       (fun '(it, score) =>
          Ok (weighted score (seasonal_adjustment season it) (confidence season_factor)))
       (zip items scores))
    scores.

Section WithDistance.

(** The great-circle distance in kilometres (haversine formula over
    [math.sin], [math.cos], [math.asin] and [math.sqrt]) is taken as
    given: from two latitude/longitude pairs to a distance. *)
Variable _calculate_distance : Q -> Q -> Q -> Q -> Q.

Definition _apply_location_context
    (items : list RecommendationItem) (scores : list Q)
    (location_factor : ContextualFactor) : list Q :=
  try_except
    (let user_location := cf_value location_factor in
     match user_location !! "latitude" with
     | None => Ok scores
     | Some user_lat =>
         user_lon ← getitem user_location "longitude";
         for_each
           (fun '(it, score) =>
              lat1 ← as_float user_lat;
              lon1 ← as_float user_lon;
              let distance :=
                _calculate_distance lat1 lon1
                  (latitude (location it)) (longitude (location it)) in
              Ok (weighted score (distance_band distance) (confidence location_factor)))
           (zip items scores)
     end)
    scores.

(** One turn of the loop over the factors of [apply_contextual_scoring]. *)
Definition apply_factor
    (items : list RecommendationItem) (user_preferences : UserPreferences)
    (contextual_scores : list Q) (factor : ContextualFactor) : list Q :=
  match cf_type factor with
  | WEATHER => _apply_weather_context items contextual_scores factor user_preferences
  | CROWD => _apply_crowd_context items contextual_scores factor
  | TIME => _apply_time_context items contextual_scores factor
  | LOCATION => _apply_location_context items contextual_scores factor
  | SEASON => _apply_seasonal_context items contextual_scores factor
  end.

Definition apply_contextual_scoring
    (items : list RecommendationItem) (base_scores : list Q)
    (contextual_factors : list ContextualFactor)
    (user_preferences : UserPreferences) : list Q :=
  try_except
    (if negb (length items =? length base_scores)%nat then Raise ValueError
     else Ok (fold_left (apply_factor items user_preferences)
                        contextual_factors base_scores))
    base_scores.

End WithDistance.

Section WithText.

(** [str(v)] of a payload value that is not text, as an f-string renders
    it (Python's formatting of floats, times and [None]). *)
Variable str_value : value -> string.

Definition fstring (v : value) : string :=
  match v with
  | VStr s => s
  | _ => str_value v
  end.

(** Body of the loop of [generate_contextual_explanations]: the
    explanations that one factor contributes. *)
Definition factor_explanations (it : RecommendationItem) (score_change : Q)
    (factor : ContextualFactor) : result (list string) :=
  match cf_type factor with
  | WEATHER =>
      let weather_condition := get (cf_value factor) "condition" (VStr "unknown") in
      if Qltb 0.1 score_change
      then Ok ["Great choice for " ++ fstring weather_condition ++ " weather!"]
      else if Qltb score_change (-0.1)
           then Ok ["Consider indoor alternatives due to "
                    ++ fstring weather_condition ++ " conditions"]
           else Ok []
  | CROWD =>
      if (in_list (crowd_level it) ["very_low"; "low"] && Qltb 0 score_change)%bool
      then Ok ["Perfect timing - low crowds expected!"]
      else if in_list (crowd_level it) ["high"; "very_high"]
           then Ok ["Popular spot - consider visiting during off-peak hours"]
           else Ok []
  | TIME =>
      let current_time := get (cf_value factor) "current_time" VNone in
      if truthy current_time then
        hour ← match current_time with
               | VStr s => int (split_head ":" s)
               | VTime h _ => Ok h
               | _ => Raise AttributeError
               end;
        let time_period := _get_time_period hour in
        Ok (if Qltb 0.1 score_change
            then ["Ideal for " ++ time_period ++ " visits"] else [])
      else Ok []
  | LOCATION =>
      if Qltb 0.1 score_change then Ok ["Conveniently located near you"]
      else if Qltb score_change (-0.1)
           then Ok ["A bit further away, but worth the journey"]
           else Ok []
  | SEASON => Ok []
  end.

Definition generate_contextual_explanations (it : RecommendationItem)
    (contextual_factors : list ContextualFactor) (score_change : Q) : list string :=
  try_except
    (per_factor ← for_each (factor_explanations it score_change) contextual_factors;
     Ok (concat per_factor))
    [].

End WithText.

End Contextual.

(** ** PreferenceLearningService (services/preference_learning.py) *)
Module Learning.
Import Py.
Local Open Scope Q_scope.

(** The attributes of the service; [user_learned_preferences] maps a user
    id to that user's signals, a [defaultdict(float)]. *)
Record PreferenceLearningService : Type := {
  learning_rate : Q;
  decay_factor : Q;
  user_learned_preferences : gmap string (gmap string Q)
}.

(** [PreferenceLearningService()] with the default arguments. *)
Definition init : PreferenceLearningService :=
  {| learning_rate := 0.1; decay_factor := 0.95; user_learned_preferences := ∅ |}.

Definition set_prefs (svc : PreferenceLearningService) (user : string)
    (prefs : gmap string Q) : PreferenceLearningService :=
  {| learning_rate := learning_rate svc;
     decay_factor := decay_factor svc;
     user_learned_preferences := <[user := prefs]> (user_learned_preferences svc) |}.

Definition interaction_weights : gmap string Q :=
  list_to_map
    [ ("view", 0.1); ("like", 0.3); ("visit", 0.7);
      ("rate", 1.0); ("share", 0.4); ("save", 0.5) ].

(** [learned_prefs[key] += delta] on a [defaultdict(float)]. *)
Definition add_signal (key : string) (delta : Q) (prefs : gmap string Q) : gmap string Q :=
  <[key := default 0 (prefs !! key) + delta]> prefs.

Definition _get_interaction_weight (interaction : UserInteraction) : Q :=
  let base_weight := default 0.1 (interaction_weights !! interaction_type interaction) in
  match ui_rating interaction with
  | Some r => base_weight * (r / 5.0)
  | None => base_weight
  end.

Definition budget_key (cost : Q) : string :=
  if Qltb cost 100 then "budget_low"
  else if Qltb cost 300 then "budget_medium"
  else if Qltb cost 800 then "budget_high"
  else "budget_luxury".

Definition duration_key (minutes : Z) : string :=
  if (minutes <? 120)%Z then "duration_short"
  else if (minutes <? 240)%Z then "duration_medium"
  else "duration_long".

Definition quality_key (r : Q) : string :=
  if Qle_bool 4.5 r then "quality_high"
  else if Qle_bool 3.5 r then "quality_medium"
  else "quality_low".

Definition authenticity_key (a : Q) : string :=
  if Qle_bool 0.8 a then "authenticity_high"
  else if Qle_bool 0.5 a then "authenticity_medium"
  else "authenticity_low".

Definition learn_categories (delta : Q) (cats : list string)
    (prefs : gmap string Q) : gmap string Q :=
  fold_left (fun p category => add_signal ("category_" ++ lower category) delta p)
            cats prefs.

Definition _learn_from_item_attributes (lr : Q) (learned_prefs : gmap string Q)
    (it : RecommendationItem) (weight : Q) : gmap string Q :=
  let p1 := add_signal (budget_key (estimated_cost it)) (weight * lr) learned_prefs in
  let p2 := add_signal (duration_key (estimated_duration it)) (weight * lr) p1 in
  let p3 := add_signal (quality_key (rating it)) (weight * lr) p2 in
  let p4 := add_signal (authenticity_key (local_authenticity_score it)) (weight * lr) p3 in
  add_signal ("crowd_" ++ crowd_level it) (weight * lr) p4.

Definition learn_context_key (lr weight : Q) (ctx : gmap string string)
    (key prefix : string) (prefs : gmap string Q) : gmap string Q :=
  match ctx !! key with
  | Some v => add_signal (prefix ++ lower v) (weight * lr) prefs
  | None => prefs
  end.

Definition _learn_from_context (lr : Q) (learned_prefs : gmap string Q)
    (ctx : gmap string string) (weight : Q) : gmap string Q :=
  let p1 := learn_context_key lr weight ctx "weather" "weather_" learned_prefs in
  let p2 := learn_context_key lr weight ctx "time_of_day" "time_" p1 in
  learn_context_key lr weight ctx "district" "district_" p2.

(** [{item.id: item for item in items}]: a later item replaces an
    earlier one with the same id. *)
Definition item_lookup (items : list RecommendationItem) : gmap string RecommendationItem :=
  fold_left (fun m it => <[item_id it := it]> m) items ∅.

(** Body of the loop over the interactions. *)
Definition learn_interaction (lr : Q) (lookup : gmap string RecommendationItem)
    (learned_prefs : gmap string Q) (interaction : UserInteraction) : gmap string Q :=
  match lookup !! ui_item_id interaction with
  | None => learned_prefs
  | Some it =>
      let weight := _get_interaction_weight interaction in
      let p1 := learn_categories (weight * lr) (categories it) learned_prefs in
      let p2 := _learn_from_item_attributes lr p1 it weight in
      if bool_decide (context interaction = ∅) then p2
      else _learn_from_context lr p2 (context interaction) weight
  end.

(** One signal through the decay loop: multiplied by the decay factor,
    then set to [0.0] when the product is below [0.01]. *)
Definition decay_signal (df v : Q) : Q :=
  let v' := v * df in
  if Qltb v' 0.01 then 0.0 else v'.

Definition _apply_temporal_decay (svc : PreferenceLearningService) (user : string)
    (interactions : list UserInteraction) : PreferenceLearningService :=
  match interactions with
  | [] => svc
  | _ :: _ =>
      match user_learned_preferences svc !! user with
      | None => svc              (* KeyError, logged *)
      | Some learned_prefs =>
          set_prefs svc user (decay_signal (decay_factor svc) <$> learned_prefs)
      end
  end.

(** [learn_from_interactions]: the service afterwards and the returned
    copy of the user's signals. *)
Definition learn_from_interactions (svc : PreferenceLearningService) (user : string)
    (interactions : list UserInteraction) (items : list RecommendationItem)
  : PreferenceLearningService * gmap string Q :=
  let learned_prefs := default ∅ (user_learned_preferences svc !! user) in
  let lookup := item_lookup items in
  let learned := fold_left (learn_interaction (learning_rate svc) lookup)
                           interactions learned_prefs in
  let svc' := _apply_temporal_decay (set_prefs svc user learned) user interactions in
  (svc', default ∅ (user_learned_preferences svc' !! user)).

Definition _update_attribute_preferences (lr : Q) (learned_prefs : gmap string Q)
    (it : RecommendationItem) (feedback_weight : Q) : gmap string Q :=
  let p1 := add_signal (budget_key (estimated_cost it)) (feedback_weight * lr) learned_prefs in
  let p2 := add_signal (duration_key (estimated_duration it)) (feedback_weight * lr) p1 in
  add_signal ("crowd_" ++ crowd_level it) (feedback_weight * lr) p2.

Definition positive_keywords : list (string * string) :=
  [ ("authentic", "authenticity_high"); ("local", "authenticity_high");
    ("quiet", "crowd_low"); ("peaceful", "crowd_low");
    ("affordable", "budget_low"); ("cheap", "budget_low");
    ("quick", "duration_short"); ("fast", "duration_short");
    ("beautiful", "quality_high"); ("amazing", "quality_high");
    ("excellent", "quality_high") ].

Definition negative_keywords : list (string * string) :=
  [ ("crowded", "crowd_high"); ("busy", "crowd_high");
    ("expensive", "budget_high"); ("costly", "budget_high");
    ("long", "duration_long"); ("slow", "duration_long");
    ("touristy", "authenticity_low"); ("fake", "authenticity_low");
    ("poor", "quality_low"); ("bad", "quality_low") ].

Definition scan_keywords (text : string) (delta : Q) (keywords : list (string * string))
    (prefs : gmap string Q) : gmap string Q :=
  fold_left
    (fun p '(keyword, pref_key) =>
       if contains keyword text then add_signal pref_key delta p else p)
    keywords prefs.

Definition _process_text_feedback (lr : Q) (learned_prefs : gmap string Q)
    (feedback : string) (feedback_weight : Q) : gmap string Q :=
  let feedback_lower := lower feedback in
  let p1 := scan_keywords feedback_lower (Qabs feedback_weight * lr)
                          positive_keywords learned_prefs in
  scan_keywords feedback_lower (- (Qabs feedback_weight * lr)) negative_keywords p1.

Definition update_preferences_from_feedback (svc : PreferenceLearningService)
    (user recommendation_id : string) (rating : Q) (feedback : option string)
    (recommended_item : RecommendationItem) : PreferenceLearningService :=
  let learned_prefs := default ∅ (user_learned_preferences svc !! user) in
  let feedback_weight := (rating - 3.0) / 2.0 in
  let p1 := learn_categories (feedback_weight * learning_rate svc)
                             (categories recommended_item) learned_prefs in
  let p2 := _update_attribute_preferences (learning_rate svc) p1
                                          recommended_item feedback_weight in
  let p3 :=
    match feedback with
    | Some text =>
        if String.eqb text "" then p2
        else _process_text_feedback (learning_rate svc) p2 text feedback_weight
    | None => p2
    end in
  set_prefs svc user p3.

(** [max(abs(v) for v in values)] over a non-empty collection; every
    [abs(v)] is at least [0], the value of the empty fold. *)
Definition max_abs (values : list Q) : Q :=
  foldr (fun v acc => Qmax (Qabs v) acc) 0 values.

(** The normalisation of [get_learned_preferences] on a copy of the
    stored signals. *)
Definition normalize (prefs : gmap string Q) : gmap string Q :=
  let max_val :=
    if bool_decide (prefs = ∅) then 1.0 else max_abs (map_to_list prefs).*2 in
  if Qltb 1.0 max_val then (fun v => v / max_val) <$> prefs else prefs.

Definition get_learned_preferences (svc : PreferenceLearningService) (user : string)
  : gmap string Q :=
  match user_learned_preferences svc !! user with
  | None => ∅
  | Some prefs => normalize prefs
  end.

(** [merged_prefs[key] = merged_prefs.get(key, 0) + explicit_weight] *)
Definition add_explicit (key : string) (merged : gmap string Q) : gmap string Q :=
  <[key := default 0 (merged !! key) + 1.5]> merged.

Definition activity_mapping (a : ActivityLevel) : string :=
  match a with
  | ACT_LOW => "duration_short"
  | ACT_MODERATE => "duration_medium"
  | ACT_HIGH | ACT_EXTREME => "duration_long"
  end.

Definition merge_explicit_and_learned_preferences (explicit_prefs : UserPreferences)
    (learned_prefs : gmap string Q) : gmap string Q :=
  let m1 := fold_left (fun m interest => add_explicit ("category_" ++ lower interest) m)
                      (interests explicit_prefs) learned_prefs in
  let m2 := add_explicit ("budget_" ++ BudgetRange_value (budget_range explicit_prefs)) m1 in
  add_explicit (activity_mapping (activity_level explicit_prefs)) m2.

(** The loop over the categories of [predict_user_rating]:
    [(predicted_score, total_weight)] after the categories. *)
Definition category_votes (merged : gmap string Q) (cats : list string) (acc : Q * Q)
  : Q * Q :=
  fold_left
    (fun '(predicted, total) category =>
       match merged !! ("category_" ++ lower category) with
       | Some w => (predicted + w, total + Qabs w)
       | None => (predicted, total)
       end)
    cats acc.

Definition has (merged : gmap string Q) (key : string) : bool :=
  bool_decide (is_Some (merged !! key)).

Definition signal (merged : gmap string Q) (key : string) : Q :=
  default 0 (merged !! key).

Definition budget_scores (merged : gmap string Q) (cost : Q) : list Q :=
  if (Qltb cost 100 && has merged "budget_low")%bool then [signal merged "budget_low"]
  else if (Qltb cost 300 && has merged "budget_medium")%bool
       then [signal merged "budget_medium"]
  else if (Qltb cost 800 && has merged "budget_high")%bool
       then [signal merged "budget_high"]
  else if has merged "budget_luxury" then [signal merged "budget_luxury"]
  else [].

Definition duration_scores (merged : gmap string Q) (minutes : Z) : list Q :=
  if ((minutes <? 120)%Z && has merged "duration_short")%bool
  then [signal merged "duration_short"]
  else if ((minutes <? 240)%Z && has merged "duration_medium")%bool
       then [signal merged "duration_medium"]
  else if has merged "duration_long" then [signal merged "duration_long"]
  else [].

Definition crowd_scores (merged : gmap string Q) (level : string) : list Q :=
  if has merged ("crowd_" ++ level) then [signal merged ("crowd_" ++ level)] else [].

(** [np.mean] of a non-empty list. *)
Definition mean (l : list Q) : Q :=
  fold_left Qplus l 0 / inject_Z (Z.of_nat (length l)).

Definition predict_user_rating (svc : PreferenceLearningService) (user : string)
    (it : RecommendationItem) (explicit_prefs : UserPreferences) : Q :=
  let learned_prefs := get_learned_preferences svc user in
  let merged_prefs := merge_explicit_and_learned_preferences explicit_prefs learned_prefs in
  if bool_decide (merged_prefs = ∅) then 3.0
  else
    let '(predicted1, total1) := category_votes merged_prefs (categories it) (3.0, 0.0) in
    let attribute_scores :=
      (budget_scores merged_prefs (estimated_cost it)
       ++ duration_scores merged_prefs (estimated_duration it)
       ++ crowd_scores merged_prefs (crowd_level it))%list in
    let '(predicted2, total2) :=
      match attribute_scores with
      | [] => (predicted1, total1)
      | _ :: _ => (predicted1 + mean attribute_scores, total1 + 1.0)
      end in
    if Qltb 0 total2 then Qmax 1.0 (Qmin 5.0 predicted2) else 3.0.

End Learning.

(** ** Insertion-ordered dictionaries and the stable descending sort *)
Module Dict.

Section Ops.
Context {V : Type}.

Fixpoint get (k : string) (d : list (string * V)) : option V :=
  match d with
  | [] => None
  | (k', v) :: d' => if String.eqb k' k then Some v else get k d'
  end.

(** [d[k] = v]: an existing key keeps its position. *)
Fixpoint set (k : string) (v : V) (d : list (string * V)) : list (string * V) :=
  match d with
  | [] => [(k, v)]
  | (k', v') :: d' =>
      if String.eqb k' k then (k, v) :: d' else (k', v') :: set k v d'
  end.
End Ops.

Section Sort.
Context {A : Type} (key : A -> Q).

Fixpoint insert_desc (x : A) (l : list A) : list A :=
  match l with
  | [] => [x]
  | y :: l' => if Py.Qltb (key x) (key y) then y :: insert_desc x l' else x :: l
  end.

(** [sorted(l, key=key, reverse=True)]: descending, and elements with
    equal keys stay in their original order. *)
Definition sorted_desc (l : list A) : list A := foldr insert_desc [] l.
End Sort.

End Dict.

(** ** CollaborativeFilteringService (services/collaborative_filtering.py) *)
Module Collaborative.
Import Py.
Local Open Scope Q_scope.

(** The attributes read by the recommendation path.  Both dictionaries
    keep their insertion order, which decides ties in the sorts. *)
Record CollaborativeFilteringService : Type := {
  min_interactions : nat;
  user_similarities : list (string * list (string * Q));
  user_profiles : list (string * UserProfile)
}.

(** [CollaborativeFilteringService()] with the default arguments. *)
Definition init : CollaborativeFilteringService :=
  {| min_interactions := 5; user_similarities := []; user_profiles := [] |}.

Definition weights : gmap string Q :=
  list_to_map [ ("view", 1.0); ("like", 2.0); ("visit", 3.0); ("rate", 4.0) ].

Definition _get_interaction_weight (interaction : UserInteraction) : Q :=
  let base_weight := default 1.0 (weights !! interaction_type interaction) in
  match ui_rating interaction with
  | Some r => base_weight * (r / 5.0)
  | None => base_weight
  end.

Definition find_similar_users (svc : CollaborativeFilteringService) (user : string)
    (top_k : nat) : list (string * Q) :=
  match Dict.get user (user_similarities svc) with
  | None => []
  | Some similarities => take top_k (Dict.sorted_desc snd similarities)
  end.

(** The first interaction of a history with the given item, the one the
    inner loop reaches before its [break]. *)
Definition first_interaction_with (item : string) (history : list UserInteraction)
  : option UserInteraction :=
  List.find (fun interaction => String.eqb (ui_item_id interaction) item) history.

(** The loop over the similar users for one item:
    [(score, total_weight)] after the neighbours. *)
Definition neighbour_votes (profiles : list (string * UserProfile))
    (similar_users : list (string * Q)) (item : string) : Q * Q :=
  fold_left
    (fun '(score, total_weight) '(similar_user_id, similarity) =>
       match Dict.get similar_user_id profiles with
       | None => (score, total_weight)
       | Some similar_profile =>
           match first_interaction_with item (interaction_history similar_profile) with
           | Some interaction =>
               (score + similarity * _get_interaction_weight interaction,
                total_weight + similarity)
           | None => (score, total_weight)
           end
       end)
    similar_users (0.0, 0.0).

(** The loop over the available items that fills [item_scores]. *)
Definition score_items (profiles : list (string * UserProfile))
    (similar_users : list (string * Q)) (user_interacted_items : list string)
    (available_items : list RecommendationItem) : list (string * Q) :=
  fold_left
    (fun item_scores it =>
       if in_list (item_id it) user_interacted_items then item_scores
       else
         let '(score, total_weight) := neighbour_votes profiles similar_users (item_id it) in
         if Qltb 0 total_weight
         then Dict.set (item_id it) (score / total_weight) item_scores
         else item_scores)
    available_items [].

(** The closing loop: each scored id is turned back into the first
    available item that carries it. *)
Definition resolve_items (available_items : list RecommendationItem)
    (scored : list (string * Q)) : list (RecommendationItem * Q) :=
  flat_map
    (fun '(id, score) =>
       match List.find (fun it => String.eqb (item_id it) id) available_items with
       | Some it => [(it, score)]
       | None => []
       end)
    scored.

Definition generate_collaborative_recommendations (svc : CollaborativeFilteringService)
    (user : string) (available_items : list RecommendationItem) (top_k : nat)
  : list (RecommendationItem * Q) :=
  match find_similar_users svc user 10 with
  | [] => []
  | similar_users =>
      match Dict.get user (user_profiles svc) with
      | None => []
      | Some user_profile =>
          let user_interacted_items :=
            map ui_item_id (interaction_history user_profile) in
          let item_scores :=
            score_items (user_profiles svc) similar_users user_interacted_items
                        available_items in
          let sorted_items := Dict.sorted_desc snd item_scores in
          resolve_items available_items (take top_k sorted_items)
      end
  end.

Definition default_preferences : UserPreferences :=
  {| interests := []; budget_range := MEDIUM; group_type := SOLO;
     dietary_restrictions := []; activity_level := ACT_MODERATE;
     weather_preferences := [] |}.

Definition extend_history (p : UserProfile) (interactions : list UserInteraction)
  : UserProfile :=
  {| user_id := user_id p; preferences := preferences p;
     interaction_history := interaction_history p ++ interactions;
     last_updated := last_updated p |}.

Section WithSimilarity.

(** [build_user_item_matrix] followed by [compute_user_similarities]
    (matrix factorisation and cosine similarity of the numeric
    libraries) is taken as given: from the profiles, in dictionary
    order, to the new similarity table, or an exception. *)
Variable recompute_similarities :
  list UserProfile -> result (list (string * list (string * Q))).

Definition _incremental_update (svc : CollaborativeFilteringService)
  : CollaborativeFilteringService * result unit :=
  if (min_interactions svc <=? length (user_profiles svc))%nat then
    match recompute_similarities (map snd (user_profiles svc)) with
    | Ok table =>
        ({| min_interactions := min_interactions svc;
            user_similarities := table;
            user_profiles := user_profiles svc |}, Ok tt)
    | Raise e => (svc, Raise e)
    end
  else (svc, Ok tt).

Definition update_user_interactions (svc : CollaborativeFilteringService)
    (user : string) (interactions : list UserInteraction) (now : Z)
  : CollaborativeFilteringService * result unit :=
  let profile' :=
    match Dict.get user (user_profiles svc) with
    | Some p => extend_history p interactions
    | None =>
        {| user_id := user; preferences := default_preferences;
           interaction_history := interactions; last_updated := now |}
    end in
  let svc' :=
    {| min_interactions := min_interactions svc;
       user_similarities := user_similarities svc;
       user_profiles := Dict.set user profile' (user_profiles svc) |} in
  if (min_interactions svc <=? length interactions)%nat
  then _incremental_update svc'
  else (svc', Ok tt).

End WithSimilarity.

End Collaborative.

(** ** RecommendationEngine (services/recommendation_engine.py) *)
Module Engine.
Import Py.
Local Open Scope Q_scope.

Inductive LogLevel : Type := WARNING | ERROR.

(** The attributes of the engine, and the records written to the
    module's logger by the engine's own methods.

    The profiles of the engine and those of its collaborative service are
    separate values, as they are separate objects when the services are
    driven through the engine alone: the collaborative service builds its
    own profile in [update_user_interactions].  A caller that hands the
    engine's profile objects to [build_user_item_matrix] makes the two
    services share them, and a write to a profile then shows in both.  The
    further properties of [generate_recommendations],
    [update_user_preferences] and [process_feedback] are stated of what
    does not depend on which of the two holds. *)
Record RecommendationEngine : Type := {
  collaborative_service : Collaborative.CollaborativeFilteringService;
  preference_service : Learning.PreferenceLearningService;
  user_profiles : gmap string UserProfile;
  available_items : list RecommendationItem;
  recommendation_history : gmap string (list RecommendationResponse);
  log : list (LogLevel * string)
}.

(** The weights set by the constructor, in the order of the dictionary;
    no method of the engine changes them. *)
Definition algorithm_weights : list (string * Q) :=
  [ ("collaborative", 0.3); ("content_based", 0.4);
    ("contextual", 0.2); ("preference_learning", 0.1) ].

Definition budget_ranges : gmap string (Q * option Q) :=
  list_to_map
    [ ("low", (0, Some 100)); ("medium", (0, Some 300));
      ("high", (0, Some 800)); ("luxury", (0, None)) ].

(** [lo <= cost <= hi], where no upper bound stands for [float('inf')]. *)
Definition within (range : Q * option Q) (cost : Q) : bool :=
  (Qle_bool (fst range) cost &&
   match snd range with
   | Some hi => Qle_bool cost hi
   | None => true
   end)%bool.

Definition _filter_candidate_items (e : RecommendationEngine)
    (request : RecommendationRequest) : list RecommendationItem :=
  let candidates := available_items e in
  let candidates1 :=
    match recommendation_types request with
    | [] => candidates
    | types =>
        let type_strings := map RecommendationType_value types in
        List.filter (fun it => in_list (item_type it) type_strings) candidates
    end in
  let budget_range :=
    default (0, None)
      (budget_ranges !! BudgetRange_value (budget_range (req_preferences request))) in
  let candidates2 :=
    List.filter (fun it => within budget_range (estimated_cost it)) candidates1 in
  match dietary_restrictions (req_preferences request) with
  | [] => candidates2
  | restrictions =>
      List.filter
        (fun it =>
           (negb (String.eqb (item_type it) "restaurant")
            || negb (existsb (fun restriction =>
                                contains restriction (lower (description it)))
                             restrictions))%bool)
        candidates2
  end.

Definition with_preferences (p : UserProfile) (prefs : UserPreferences) (updated : Z)
  : UserProfile :=
  {| user_id := user_id p; preferences := prefs;
     interaction_history := interaction_history p; last_updated := updated |}.

Definition set_profiles (e : RecommendationEngine) (profiles : gmap string UserProfile)
  : RecommendationEngine :=
  {| collaborative_service := collaborative_service e;
     preference_service := preference_service e;
     user_profiles := profiles;
     available_items := available_items e;
     recommendation_history := recommendation_history e;
     log := log e |}.

Definition set_preference_service (e : RecommendationEngine)
    (svc : Learning.PreferenceLearningService) : RecommendationEngine :=
  {| collaborative_service := collaborative_service e;
     preference_service := svc;
     user_profiles := user_profiles e;
     available_items := available_items e;
     recommendation_history := recommendation_history e;
     log := log e |}.

Definition set_collaborative_service (e : RecommendationEngine)
    (svc : Collaborative.CollaborativeFilteringService) : RecommendationEngine :=
  {| collaborative_service := svc;
     preference_service := preference_service e;
     user_profiles := user_profiles e;
     available_items := available_items e;
     recommendation_history := recommendation_history e;
     log := log e |}.

Definition set_history (e : RecommendationEngine)
    (h : gmap string (list RecommendationResponse)) : RecommendationEngine :=
  {| collaborative_service := collaborative_service e;
     preference_service := preference_service e;
     user_profiles := user_profiles e;
     available_items := available_items e;
     recommendation_history := h;
     log := log e |}.

Definition logged (e : RecommendationEngine) (level : LogLevel) (message : string)
  : RecommendationEngine :=
  {| collaborative_service := collaborative_service e;
     preference_service := preference_service e;
     user_profiles := user_profiles e;
     available_items := available_items e;
     recommendation_history := recommendation_history e;
     log := (log e ++ [(level, message)])%list |}.

Definition _get_or_create_user_profile (e : RecommendationEngine) (user : string)
    (prefs : UserPreferences) (now : Z) : RecommendationEngine * UserProfile :=
  let profile :=
    match user_profiles e !! user with
    | None =>
        {| user_id := user; preferences := prefs;
           interaction_history := []; last_updated := now |}
    | Some p => with_preferences p prefs (last_updated p)
    end in
  (set_profiles e (<[user := profile]> (user_profiles e)), profile).

(** [scores.get(approach, 0.5) * weight], summed over [algorithm_weights]. *)
Definition combine (scores : gmap string Q) : Q :=
  fold_left (fun acc '(approach, weight) => acc + default 0.5 (scores !! approach) * weight)
            algorithm_weights 0.

(** [recs[0][1] if recs else 0.5] *)
Definition first_score_or_default (recs : list (RecommendationItem * Q)) : Q :=
  match recs with
  | (_, score) :: _ => score
  | [] => 0.5
  end.

(** [recommendations[-100:]] *)
Definition last_100 {A} (l : list A) : list A := drop (length l - 100) l.

Definition _store_recommendations (e : RecommendationEngine) (user : string)
    (recommendations : list RecommendationResponse) : RecommendationEngine :=
  let old := default [] (recommendation_history e !! user) in
  set_history e (<[user := last_100 (old ++ recommendations)%list]> (recommendation_history e)).

Definition set_score (r : RecommendationResponse) (score : Q) : RecommendationResponse :=
  {| rec_id := rec_id r; rec_user_id := rec_user_id r; item := item r;
     personalized_score := score; contextual_factors := contextual_factors r;
     alternatives := alternatives r; generated_at := generated_at r;
     valid_until := valid_until r |}.

(** The loop [rec.personalized_score = adjusted_scores[i]]; were the
    adjusted scores to run out, the remaining responses keep theirs. *)
Fixpoint update_scores (recommendations : list RecommendationResponse)
    (adjusted_scores : list Q) : list RecommendationResponse :=
  match recommendations, adjusted_scores with
  | r :: rs, a :: adjusted => set_score r a :: update_scores rs adjusted
  | rs, _ => rs
  end.

(** [get_user_recommendations]: the stored responses of the user that
    have not expired at the reading [now] of the clock, most recent first,
    cut by [active_recs[:limit]]; the limit is a signed integer that
    reaches the slice unchecked. *)
Definition get_user_recommendations (e : RecommendationEngine) (user : string)
    (limit : Z) (now : Z) : list RecommendationResponse :=
  let user_recs := default [] (recommendation_history e !! user) in
  let active_recs := List.filter (fun r => (now <? valid_until r)%Z) user_recs in
  slice_to limit (Dict.sorted_desc (fun r => inject_Z (generated_at r)) active_recs).

Section WithCollaborators.

(** Collaborators outside the embedding: the haversine distance, the
    recomputation of the similarity table, the content-based service
    (term weighting and cosine similarity over the item features) and
    the rendering of a clock reading inside a recommendation id. *)
Variable _calculate_distance : Q -> Q -> Q -> Q -> Q.
Variable recompute_similarities :
  list UserProfile -> result (list (string * list (string * Q))).
Variable generate_content_based_recommendations :
  UserProfile -> list RecommendationItem -> nat -> list (RecommendationItem * Q).
Variable get_item_similarities : string -> nat -> list (string * Q).
Variable format_timestamp : Z -> string.

Definition _find_alternatives (it : RecommendationItem)
    (candidate_items : list RecommendationItem) : list RecommendationItem :=
  let similar_items := get_item_similarities (item_id it) 3 in
  let found :=
    flat_map
      (fun '(similar_item_id, similarity) =>
         match List.find (fun i => String.eqb (item_id i) similar_item_id)
                         candidate_items with
         | Some similar_item => if Qltb 0.5 similarity then [similar_item] else []
         | None => []
         end)
      similar_items in
  take 2 found.

(** The three scores gathered for one candidate. *)
Definition approach_scores (e : RecommendationEngine) (user_profile : UserProfile)
    (request : RecommendationRequest) (it : RecommendationItem) : gmap string Q :=
  let content_recs := generate_content_based_recommendations user_profile [it] 1%nat in
  let s1 : gmap string Q := {[ "content_based" := first_score_or_default content_recs ]} in
  let collab_recs :=
    Collaborative.generate_collaborative_recommendations
      (collaborative_service e) (req_user_id request) [it] 1%nat in
  let s2 := <["collaborative" := first_score_or_default collab_recs]> s1 in
  let predicted_rating :=
    Learning.predict_user_rating (preference_service e) (req_user_id request) it
                                 (req_preferences request) in
  <["preference_learning" := (predicted_rating - 1) / 4]> s2.

(** Body of the loop of [_generate_hybrid_recommendations].  The code
    reads the clock once for the id, once for [valid_until] and once more
    when the response object fills in [generated_at]; the model has the
    single reading [now] for the three, so that the distance between the
    two time stamps of a response is the model's, not the code's, and no
    statement below relies on it. *)
Definition hybrid_response (e : RecommendationEngine) (user_profile : UserProfile)
    (candidate_items : list RecommendationItem) (request : RecommendationRequest)
    (now : Z) (it : RecommendationItem) : RecommendationResponse :=
  let scores := approach_scores e user_profile request it in
  {| rec_id := "rec_" ++ item_id it ++ "_" ++ format_timestamp now;
     rec_user_id := req_user_id request;
     item := it;
     personalized_score := combine scores;
     contextual_factors := req_contextual_factors request;
     alternatives :=
       if include_alternatives request then _find_alternatives it candidate_items else [];
     generated_at := now;
     valid_until := (now + 24 * 3600)%Z |}.

Definition _generate_hybrid_recommendations (e : RecommendationEngine)
    (user_profile : UserProfile) (candidate_items : list RecommendationItem)
    (request : RecommendationRequest) (now : Z) : list RecommendationResponse :=
  map (hybrid_response e user_profile candidate_items request now) candidate_items.

Definition _apply_contextual_adjustments
    (recommendations : list RecommendationResponse)
    (factors : list ContextualFactor) (prefs : UserPreferences)
  : list RecommendationResponse :=
  let items := map item recommendations in
  let base_scores := map personalized_score recommendations in
  let adjusted_scores :=
    Contextual.apply_contextual_scoring _calculate_distance
      items base_scores factors prefs in
  update_scores recommendations adjusted_scores.

(** [generate_recommendations]: the engine afterwards and the returned
    responses; [now] is the reading of the clock (seconds). *)
Definition generate_recommendations (e : RecommendationEngine)
    (request : RecommendationRequest) (now : Z)
  : RecommendationEngine * list RecommendationResponse :=
  let '(e1, user_profile) :=
    _get_or_create_user_profile e (req_user_id request) (req_preferences request) now in
  let '(svc, _) :=
    Learning.learn_from_interactions (preference_service e1) (req_user_id request)
      (interaction_history user_profile) (available_items e1) in
  let e2 := set_preference_service e1 svc in
  match _filter_candidate_items e2 request with
  | [] => (e2, [])
  | candidate_items =>
      let recommendations :=
        _generate_hybrid_recommendations e2 user_profile candidate_items request now in
      let adjusted :=
        match req_contextual_factors request with
        | [] => recommendations
        | factors =>
            _apply_contextual_adjustments recommendations factors
                                          (req_preferences request)
        end in
      let sorted := Dict.sorted_desc personalized_score adjusted in
      let final_recommendations := take (max_results request) sorted in
      (_store_recommendations e2 (req_user_id request) final_recommendations,
       final_recommendations)
  end.

(** [process_feedback]: the engine afterwards, and whether the call
    returned or raised. *)
Definition process_feedback (e : RecommendationEngine)
    (user recommendation_id : string) (rating : Q) (feedback : option string) (now : Z)
  : RecommendationEngine * result unit :=
  let user_recs := default [] (recommendation_history e !! user) in
  match List.find (fun r => String.eqb (rec_id r) recommendation_id) user_recs with
  | None =>
      (logged e WARNING
         ("Recommendation " ++ recommendation_id ++ " not found for user " ++ user),
       Ok tt)
  | Some recommendation =>
      let svc :=
        Learning.update_preferences_from_feedback (preference_service e) user
          recommendation_id rating feedback (item recommendation) in
      let interaction :=
        {| ui_user_id := user;
           ui_item_id := item_id (item recommendation);
           interaction_type := "rate";
           ui_rating := Some rating;
           timestamp := now;
           context := {[ "recommendation_id" := recommendation_id ]} |} in
      let profiles :=
        match user_profiles e !! user with
        | Some p =>
            <[user := Collaborative.extend_history p [interaction]]> (user_profiles e)
        | None => user_profiles e
        end in
      let '(collab, outcome) :=
        Collaborative.update_user_interactions recompute_similarities
          (collaborative_service e) user [interaction] now in
      let e' :=
        set_collaborative_service
          (set_profiles (set_preference_service e svc) profiles) collab in
      match outcome with
      | Ok _ => (e', Ok tt)
      | Raise ex => (logged e' ERROR "Error processing feedback", Raise ex)
      end
  end.

(** The keyword arguments of [update_user_preferences], each possibly
    absent from the dictionary. *)
Record PreferenceFields : Type := {
  pf_interests : option (list string);
  pf_budget_range : option string;
  pf_group_type : option string;
  pf_dietary_restrictions : option (list string);
  pf_activity_level : option string;
  pf_weather_preferences : option (list string)
}.

(** The enumeration constructors raise [ValueError] on a text that is
    not one of their values. *)
Definition BudgetRange_of (s : string) : result BudgetRange :=
  if String.eqb s "low" then Ok LOW
  else if String.eqb s "medium" then Ok MEDIUM
  else if String.eqb s "high" then Ok HIGH
  else if String.eqb s "luxury" then Ok LUXURY
  else Raise ValueError.

Definition GroupType_of (s : string) : result GroupType :=
  if String.eqb s "solo" then Ok SOLO
  else if String.eqb s "couple" then Ok COUPLE
  else if String.eqb s "family" then Ok FAMILY
  else if String.eqb s "friends" then Ok FRIENDS
  else Raise ValueError.

Definition ActivityLevel_of (s : string) : result ActivityLevel :=
  if String.eqb s "low" then Ok ACT_LOW
  else if String.eqb s "moderate" then Ok ACT_MODERATE
  else if String.eqb s "high" then Ok ACT_HIGH
  else if String.eqb s "extreme" then Ok ACT_EXTREME
  else Raise ValueError.

Definition preferences_of_fields (f : PreferenceFields) : result UserPreferences :=
  b ← BudgetRange_of (default "medium" (pf_budget_range f));
  g ← GroupType_of (default "solo" (pf_group_type f));
  a ← ActivityLevel_of (default "moderate" (pf_activity_level f));
  Ok {| interests := default [] (pf_interests f);
        budget_range := b;
        group_type := g;
        dietary_restrictions := default [] (pf_dietary_restrictions f);
        activity_level := a;
        weather_preferences := default [] (pf_weather_preferences f) |}.

Definition update_user_preferences (e : RecommendationEngine) (user : string)
    (fields : PreferenceFields) (now : Z) : RecommendationEngine * result unit :=
  match user_profiles e !! user with
  | None => (e, Ok tt)
  | Some profile =>
      match preferences_of_fields fields with
      | Raise ex => (logged e ERROR "Error updating user preferences", Raise ex)
      | Ok user_prefs =>
          let profile' := with_preferences profile user_prefs now in
          let '(svc, _) :=
            Learning.learn_from_interactions (preference_service e) user
              (interaction_history profile') (available_items e) in
          (set_preference_service
             (set_profiles e (<[user := profile']> (user_profiles e))) svc,
           Ok tt)
      end
  end.

End WithCollaborators.

End Engine.

(** ** Concrete scenarios

    The catalog items and requests of the repository's test fixtures, used
    to run the embedding on concrete inputs. *)
Module Scenario.
Import Py.
Local Open Scope Q_scope.

Definition central : Location :=
  {| latitude := 22.2783; longitude := 114.1747;
     address := "Victoria Peak, Hong Kong"; district := "Central" |}.

Definition outdoor_item : RecommendationItem :=
  {| item_id := "outdoor_item"; item_type := "attraction"; name := "Victoria Peak";
     description := "Mountain peak with outdoor hiking trails"; location := central;
     rating := 4.5; categories := ["outdoor"; "hiking"; "scenic"];
     estimated_duration := 180; estimated_cost := 65;
     weather_dependent := true; crowd_level := "high";
     local_authenticity_score := 0.6 |}.

Definition indoor_item : RecommendationItem :=
  {| item_id := "indoor_item"; item_type := "attraction"; name := "Hong Kong Museum";
     description := "Indoor museum with air conditioning"; location := central;
     rating := 4.2; categories := ["indoor"; "cultural"; "museum"];
     estimated_duration := 120; estimated_cost := 10;
     weather_dependent := false; crowd_level := "moderate";
     local_authenticity_score := 0.7 |}.

Definition expensive_restaurant : RecommendationItem :=
  {| item_id := "expensive_restaurant"; item_type := "restaurant";
     name := "Luxury Restaurant"; description := "High-end dining experience";
     location := central; rating := 4.8;
     categories := ["dining"; "luxury"; "fine-dining"];
     estimated_duration := 120; estimated_cost := 800;
     weather_dependent := false; crowd_level := "low";
     local_authenticity_score := 0.6 |}.

Definition couple_preferences : UserPreferences :=
  {| interests := ["outdoor"; "scenic"]; budget_range := MEDIUM; group_type := COUPLE;
     dietary_restrictions := []; activity_level := ACT_MODERATE;
     weather_preferences := ["outdoor_preferred"] |}.

Definition low_budget_preferences : UserPreferences :=
  {| interests := ["dining"]; budget_range := LOW; group_type := SOLO;
     dietary_restrictions := []; activity_level := ACT_MODERATE;
     weather_preferences := [] |}.

Definition factor (t : ContextType) (payload : gmap string value) : ContextualFactor :=
  {| cf_type := t; cf_value := payload; impact := 0.8; confidence := 1.0;
     cf_description := "" |}.

Definition sunny_25 : ContextualFactor :=
  factor WEATHER (<["temperature" := VNum 25]> {[ "condition" := VStr "sunny" ]}).

(** A weather payload without its [condition], on a hot day. *)
Definition hot_without_condition : ContextualFactor :=
  factor WEATHER {[ "temperature" := VNum 35 ]}.

(** Factors whose payload lacks the expected key. *)
Definition crowd_without_level : ContextualFactor := factor CROWD ∅.
Definition time_without_clock : ContextualFactor := factor TIME ∅.

(** Stand-ins for the collaborators in scenarios that do not reach them:
    no location factor, no recomputation of the similarity table, and a
    content service whose feature store holds no item. *)
Definition no_distance : Q -> Q -> Q -> Q -> Q := fun _ _ _ _ => 0.
Definition no_recompute
  : list UserProfile -> result (list (string * list (string * Q))) :=
  fun _ => Ok [].
Definition no_content
  : UserProfile -> list RecommendationItem -> nat -> list (RecommendationItem * Q) :=
  fun _ _ _ => [].
Definition no_similar_items : string -> nat -> list (string * Q) := fun _ _ => [].
Definition seconds : Z -> string := fun _ => "0".

Definition request (user : string) (prefs : UserPreferences) : RecommendationRequest :=
  {| req_user_id := user; req_preferences := prefs; req_contextual_factors := [];
     recommendation_types := []; max_results := 10; include_alternatives := false |}.

(** A freshly constructed engine over a two-item catalog. *)
Definition fresh_engine : Engine.RecommendationEngine :=
  {| Engine.collaborative_service := Collaborative.init;
     Engine.preference_service := Learning.init;
     Engine.user_profiles := ∅;
     Engine.available_items := [outdoor_item; expensive_restaurant];
     Engine.recommendation_history := ∅;
     Engine.log := [] |}.

Definition interaction (user item kind : string) (r : option Q) : UserInteraction :=
  {| ui_user_id := user; ui_item_id := item; interaction_type := kind;
     ui_rating := r; timestamp := 0; context := ∅ |}.

Definition profile_of (user : string) (history : list UserInteraction) : UserProfile :=
  {| user_id := user; preferences := Collaborative.default_preferences;
     interaction_history := history; last_updated := 0 |}.

(** Two users of the collaborative service: ann viewed the peak; bob
    visited the peak (rated 5) and rated the restaurant 5.  Their rows
    over (peak, restaurant) are (1, 0) and (3, 4), of cosine 3/5. *)
Definition two_users : Collaborative.CollaborativeFilteringService :=
  {| Collaborative.min_interactions := 5;
     Collaborative.user_similarities :=
       [ ("ann", [("bob", 0.6)]); ("bob", [("ann", 0.6)]) ];
     Collaborative.user_profiles :=
       [ ("ann", profile_of "ann" [interaction "ann" "outdoor_item" "view" None]);
         ("bob", profile_of "bob"
                   [interaction "bob" "outdoor_item" "visit" (Some 5);
                    interaction "bob" "expensive_restaurant" "rate" (Some 5)]) ] |}.

Definition engine_with_neighbours : Engine.RecommendationEngine :=
  Engine.set_collaborative_service fresh_engine two_users.

(** The learner after a one-star feedback of the user on the restaurant. *)
Definition after_bad_feedback : Learning.PreferenceLearningService :=
  Learning.update_preferences_from_feedback Learning.init "test_user" "rec_123" 1.0
    (Some "Too expensive and not authentic") expensive_restaurant.

Definition stored_response : RecommendationResponse :=
  {| rec_id := "rec_outdoor_item_0"; rec_user_id := "test_user"; item := outdoor_item;
     personalized_score := 0.5; contextual_factors := []; alternatives := [];
     generated_at := 0; valid_until := 86400 |}.

(** An engine that knows the user and has served one recommendation. *)
Definition engine_with_user : Engine.RecommendationEngine :=
  Engine.set_history
    (Engine.set_profiles fresh_engine {[ "test_user" := profile_of "test_user" [] ]})
    {[ "test_user" := [stored_response] ]}.

Definition luxury_preferences : UserPreferences :=
  {| interests := ["dining"]; budget_range := LUXURY; group_type := SOLO;
     dietary_restrictions := []; activity_level := ACT_MODERATE;
     weather_preferences := [] |}.

(** Further factors: a storm of no confidence, a clock that cannot be
    read, the user's position near the peak, and a position without its
    longitude. *)
Definition doubtful_storm : ContextualFactor :=
  {| cf_type := WEATHER;
     cf_value := <["temperature" := VNum 35]> {[ "condition" := VStr "stormy" ]};
     impact := 0.8; confidence := 0.0; cf_description := "" |}.

Definition garbled_time : ContextualFactor :=
  factor TIME {[ "current_time" := VStr "noon" ]}.

Definition morning : ContextualFactor :=
  factor TIME {[ "current_time" := VStr "09:00" ]}.

Definition near_peak : ContextualFactor :=
  factor LOCATION (<["longitude" := VNum 114.1750]> {[ "latitude" := VNum 22.2780 ]}).

Definition latitude_only : ContextualFactor :=
  factor LOCATION {[ "latitude" := VNum 22.2780 ]}.

(** A stand-in for the haversine distance in scenarios with a location
    factor: the sum of the gaps in latitude and longitude, scaled to
    kilometres per degree. *)
Definition grid_distance : Q -> Q -> Q -> Q -> Q :=
  fun lat1 lon1 lat2 lon2 => 111 * (Qabs (lat2 - lat1) + Qabs (lon2 - lon1)).

Definition far_item : RecommendationItem :=
  {| item_id := "far_item"; item_type := "attraction"; name := "Lantau Peak";
     description := "Remote summit";
     location := {| latitude := 22.25; longitude := 113.92;
                    address := "Lantau"; district := "Islands" |};
     rating := 4.4; categories := ["outdoor"; "hiking"];
     estimated_duration := 300; estimated_cost := 0;
     weather_dependent := true; crowd_level := "low";
     local_authenticity_score := 0.7 |}.

(** Rendering of non-text payload values in scenarios whose payloads hold
    text only. *)
Definition no_rendering : value -> string := fun _ => "".

(** A user who prefers the indoors, and a sunny day of 25 degrees that
    is humid. *)
Definition indoor_preferences : UserPreferences :=
  {| interests := ["cultural"]; budget_range := MEDIUM; group_type := SOLO;
     dietary_restrictions := []; activity_level := ACT_MODERATE;
     weather_preferences := ["indoor_preferred"] |}.

Definition sunny_25_humid : ContextualFactor :=
  factor WEATHER
    (<["humidity" := VNum 85]>
       (<["temperature" := VNum 25]> {[ "condition" := VStr "sunny" ]})).

(** A similarity table already ranked, with a tie between bob and cat. *)
Definition tied_neighbours : Collaborative.CollaborativeFilteringService :=
  {| Collaborative.min_interactions := 5;
     Collaborative.user_similarities :=
       [ ("ann", [("bob", 0.6); ("cat", 0.6); ("dan", 0.2)]) ];
     Collaborative.user_profiles := [] |}.

End Scenario.

(** ** Vocabulary of the statements *)
Module Spec.
Import Py.
Local Open Scope Q_scope.

(** The key that each kind of factor expects in its payload. *)
Definition expected_key (t : ContextType) : string :=
  match t with
  | WEATHER => "condition"
  | CROWD => "overall_crowd_level"
  | TIME => "current_time"
  | LOCATION => "latitude"
  | SEASON => "season"
  end.

(** The factor with one more entry in its payload. *)
Definition with_entry (f : ContextualFactor) (k : string) (v : value) : ContextualFactor :=
  {| cf_type := cf_type f; cf_value := <[k := v]> (cf_value f);
     impact := impact f; confidence := confidence f;
     cf_description := cf_description f |}.

(** The humidity of a payload is absent, or a number that does not
    exceed 80. *)
Definition mild_humidity (payload : gmap string value) : Prop :=
  match payload !! "humidity" with
  | None => True
  | Some (VNum h) => h <= 80
  | Some _ => False
  end.

(** The text that the classifier of environments reads from an item
    (name, description and categories) is ASCII. *)
Definition ascii_item (it : RecommendationItem) : Prop :=
  isascii (name it ++ " " ++ description it ++ " " ++ join " " (categories it)) = true.

(** The three scores of a candidate combined with the weights 0.4, 0.3
    and 0.1 alone. *)
Definition three_weight_combination (scores : gmap string Q) : Q :=
  0.4 * default 0.5 (scores !! "content_based")
  + 0.3 * default 0.5 (scores !! "collaborative")
  + 0.1 * default 0.5 (scores !! "preference_learning").

(** The ids of the items found in the history that the collaborative
    service holds for a user. *)
Definition history_ids (svc : Collaborative.CollaborativeFilteringService)
    (user : string) : list string :=
  match Dict.get user (Collaborative.user_profiles svc) with
  | Some profile => map ui_item_id (interaction_history profile)
  | None => []
  end.

(** Score and total similarity weight that the neighbours of a user
    contribute to an item. *)
Definition votes (svc : Collaborative.CollaborativeFilteringService)
    (user item : string) : Q * Q :=
  Collaborative.neighbour_votes (Collaborative.user_profiles svc)
    (Collaborative.find_similar_users svc user 10) item.

(** The neighbours that vote on an item for a user: among the ten most
    similar users, those whose profile the service holds and whose history
    names the item, each with its similarity and the weight of its first
    interaction with the item. *)
Definition voters (svc : Collaborative.CollaborativeFilteringService)
    (user item : string) : list (Q * Q) :=
  omap
    (fun neighbour : string * Q =>
       match Dict.get (fst neighbour) (Collaborative.user_profiles svc) with
       | Some profile =>
           match Collaborative.first_interaction_with item (interaction_history profile) with
           | Some interaction =>
               Some (snd neighbour, Collaborative._get_interaction_weight interaction)
           | None => None
           end
       | None => None
       end)
    (Collaborative.find_similar_users svc user 10).

(** The mean of the weights of a list of (similarity, weight) pairs, each
    weight counting in proportion to its similarity. *)
Definition weighted_mean (l : list (Q * Q)) : Q :=
  fold_right (fun p acc => fst p * snd p + acc) 0 l
  / fold_right (fun p acc => fst p + acc) 0 l.

(** Every similarity recorded for the user is non-negative. *)
Definition similarities_nonneg (svc : Collaborative.CollaborativeFilteringService)
    (user : string) : Prop :=
  forall similarities,
    Dict.get user (Collaborative.user_similarities svc) = Some similarities ->
    Forall (fun p => 0 <= snd p) similarities.

Definition rating_in_range (interaction : UserInteraction) : Prop :=
  match ui_rating interaction with
  | Some r => 0 <= r /\ r <= 5
  | None => True
  end.

(** Every rating held by the collaborative service lies between 0 and 5. *)
Definition ratings_in_range (svc : Collaborative.CollaborativeFilteringService) : Prop :=
  Forall (fun p => Forall rating_in_range (interaction_history (snd p)))
         (Collaborative.user_profiles svc).

(** What the loop over the available items stores: only ids outside the
    user's history, with a positive total weight, at the quotient of the
    neighbours' score by that weight. *)
Definition scored_entry (profiles : list (string * UserProfile))
    (similar_users : list (string * Q)) (interacted : list string)
    (entry : string * Q) : Prop :=
  (fst entry ∉ interacted) /\
  0 < snd (Collaborative.neighbour_votes profiles similar_users (fst entry)) /\
  snd entry = fst (Collaborative.neighbour_votes profiles similar_users (fst entry))
              / snd (Collaborative.neighbour_votes profiles similar_users (fst entry)).

(** A list in descending order of a key: every element is followed only
    by elements whose key is not larger. *)
Definition descending {A : Type} (key : A -> Q) (l : list A) : Prop :=
  StronglySorted (fun a b => key b <= key a) l.

(** Two maps of signals hold the same numbers, a missing key counting as
    the [0.0] of a [defaultdict(float)]. *)
Definition same_signals (p q : gmap string Q) : Prop :=
  forall k, default 0 (p !! k) == default 0 (q !! k).

(** A [current_time] entry from which no hour can be read: absent, [None],
    a number, or text whose part before the colon is ASCII and is not an
    integer. *)
Definition unreadable_time (payload : gmap string value) : Prop :=
  match payload !! "current_time" with
  | None | Some VNone | Some (VNum _) => True
  | Some (VStr s) =>
      isascii (split_head ":" s) = true /\ int (split_head ":" s) = Raise ValueError
  | Some (VTime _ _) => False
  end.

(** The history that the collaborative service holds for a user, empty
    for a user it does not know. *)
Definition history_of (svc : Collaborative.CollaborativeFilteringService)
    (user : string) : list UserInteraction :=
  match Dict.get user (Collaborative.user_profiles svc) with
  | Some profile => interaction_history profile
  | None => []
  end.

(** The upper end of the cost band of a budget tier; none for luxury. *)
Definition budget_ceiling (b : BudgetRange) : option Q :=
  match b with
  | LOW => Some 100
  | MEDIUM => Some 300
  | HIGH => Some 800
  | LUXURY => None
  end.

Definition within_tier (b : BudgetRange) (cost : Q) : Prop :=
  0 <= cost /\
  match budget_ceiling b with
  | Some ceiling => cost <= ceiling
  | None => True
  end.

(** The tiers from the tightest to the widest. *)
Definition tier_rank (b : BudgetRange) : nat :=
  match b with
  | LOW => 0
  | MEDIUM => 1
  | HIGH => 2
  | LUXURY => 3
  end.

(** The request with another budget tier and everything else the same. *)
Definition with_budget (request : RecommendationRequest) (b : BudgetRange)
  : RecommendationRequest :=
  {| req_user_id := req_user_id request;
     req_preferences :=
       {| interests := interests (req_preferences request);
          budget_range := b;
          group_type := group_type (req_preferences request);
          dietary_restrictions := dietary_restrictions (req_preferences request);
          activity_level := activity_level (req_preferences request);
          weather_preferences := weather_preferences (req_preferences request) |};
     req_contextual_factors := req_contextual_factors request;
     recommendation_types := recommendation_types request;
     max_results := max_results request;
     include_alternatives := include_alternatives request |}.

(** An item passes the dietary filter: it is not a restaurant, or its
    description (lower-cased) mentions none of the restrictions. *)
Definition dietary_ok (restrictions : list string) (it : RecommendationItem) : Prop :=
  item_type it <> "restaurant" \/
  Forall (fun restriction => contains restriction (lower (description it)) = false)
         restrictions.

(** An item passes the type filter: no type is requested, or its type is
    the value of a requested type. *)
Definition type_ok (types : list RecommendationType) (it : RecommendationItem) : Prop :=
  types = [] \/ item_type it ∈ map RecommendationType_value types.

End Spec.

(** * Properties *)

(** ** Comparisons on rationals *)
Section Comparisons.
Local Open Scope Q_scope.

Lemma Qltb_lt (x y : Q) : Py.Qltb x y = true <-> x < y.
Proof.
  unfold Py.Qltb. rewrite negb_true_iff.
  destruct (Qle_bool y x) eqn:E.
  - apply Qle_bool_iff in E. split; [discriminate | intros H; lra].
  - split; [intros _ | reflexivity].
    destruct (Qlt_le_dec x y) as [H | H]; [exact H |].
    apply Qle_bool_iff in H. congruence.
Qed.

Lemma Qltb_ge (x y : Q) : Py.Qltb x y = false <-> y <= x.
Proof.
  destruct (Py.Qltb x y) eqn:E.
  - apply Qltb_lt in E. split; [discriminate | intros H; lra].
  - split; [intros _ | reflexivity].
    destruct (Qlt_le_dec x y) as [H | H]; [| exact H].
    apply Qltb_lt in H. congruence.
Qed.

End Comparisons.

(** ** The preference learner *)
Module LearningFacts.
Import Py Learning.
Local Open Scope Q_scope.

Lemma max_abs_upper (l : list Q) (v : Q) : In v l -> Qabs v <= max_abs l.
Proof.
  induction l as [| w l IH]; simpl; [tauto |].
  intros [-> | Hin].
  - apply Q.le_max_l.
  - eapply Qle_trans; [apply IH, Hin | apply Q.le_max_r].
Qed.

Lemma max_abs_bounded (l : list Q) (b : Q) :
  0 <= b -> (forall v, In v l -> Qabs v <= b) -> max_abs l <= b.
Proof.
  intros Hb. induction l as [| w l IH]; simpl; intros H; [exact Hb |].
  apply Q.max_lub; [apply H; now left | apply IH; intros v Hv; apply H; now right].
Qed.

(** The largest magnitude over the signals of a map dominates each of
    them. *)
Lemma max_abs_lookup (m : gmap string Q) (k : string) (v : Q) :
  m !! k = Some v -> Qabs v <= max_abs (map_to_list m).*2.
Proof.
  intros Hk. apply max_abs_upper.
  apply list_elem_of_In, list_elem_of_fmap. exists (k, v). split; [reflexivity |].
  now apply elem_of_map_to_list.
Qed.

Lemma max_abs_map_bounded (m : gmap string Q) (b : Q) :
  0 <= b -> (forall k v, m !! k = Some v -> Qabs v <= b) ->
  max_abs (map_to_list m).*2 <= b.
Proof.
  intros Hb H. apply max_abs_bounded; [exact Hb |].
  intros v Hv. apply list_elem_of_In, list_elem_of_fmap in Hv.
  destruct Hv as [[k w] [-> Hkw]]. apply elem_of_map_to_list in Hkw.
  now apply (H k).
Qed.

Lemma Qabs_div_le_one (v M : Q) : 0 < M -> Qabs v <= M -> Qabs (v / M) <= 1.
Proof.
  intros HM Hv. unfold Qdiv.
  rewrite Qabs_Qmult, Qabs_Qinv, (Qabs_pos M) by lra.
  apply Qle_shift_div_r; [exact HM | lra].
Qed.

(** What [normalize] returns has every magnitude within 1. *)
Lemma normalize_bounded (m : gmap string Q) (k : string) (v : Q) :
  normalize m !! k = Some v -> Qabs v <= 1.
Proof.
  unfold normalize.
  destruct (Qltb 1.0 _) eqn:E.
  - apply Qltb_lt in E. rewrite lookup_fmap.
    destruct (m !! k) as [w |] eqn:Hk; simpl; [| discriminate].
    intros [= <-].
    case_bool_decide as Hm; [lra |].
    apply Qabs_div_le_one; [lra | now apply (max_abs_lookup m k)].
  - apply Qltb_ge in E. intros Hk.
    case_bool_decide as Hm; [subst m; now rewrite lookup_empty in Hk |].
    eapply Qle_trans; [apply (max_abs_lookup m k), Hk | lra].
Qed.

(** A map whose magnitudes are within 1 is returned as it is. *)
Lemma normalize_within (m : gmap string Q) :
  (forall k v, m !! k = Some v -> Qabs v <= 1) -> normalize m = m.
Proof.
  intros H. unfold normalize.
  destruct (Qltb 1.0 _) eqn:E; [| reflexivity].
  apply Qltb_lt in E. exfalso.
  case_bool_decide as Hm; [lra |].
  assert (max_abs (map_to_list m).*2 <= 1) by (apply max_abs_map_bounded; [lra | exact H]).
  lra.
Qed.

(** The decay step sends every negative signal to zero, whatever its
    magnitude. *)
Lemma decay_signal_negative (df v : Q) : 0 <= df -> v <= 0 -> decay_signal df v = 0.0.
Proof.
  intros Hdf Hv. unfold decay_signal.
  assert (H : v * df < 0.01) by nra.
  apply Qltb_lt in H. now rewrite H.
Qed.

Lemma decay_signal_large (df v : Q) : 0.01 <= v * df -> decay_signal df v = v * df.
Proof.
  intros H. unfold decay_signal. apply Qltb_ge in H. now rewrite H.
Qed.

(** After a non-empty batch, the signals returned (and stored) are the
    learned ones passed through the decay step, every one of them. *)
Lemma learn_from_interactions_decay (svc : PreferenceLearningService) (user : string)
    (i : UserInteraction) (rest : list UserInteraction)
    (items : list RecommendationItem) :
  let learned :=
    fold_left (learn_interaction (learning_rate svc) (item_lookup items)) (i :: rest)
              (default ∅ (user_learned_preferences svc !! user)) in
  snd (learn_from_interactions svc user (i :: rest) items)
  = decay_signal (decay_factor svc) <$> learned /\
  user_learned_preferences (fst (learn_from_interactions svc user (i :: rest) items))
    !! user
  = Some (decay_signal (decay_factor svc) <$> learned).
Proof.
  unfold learn_from_interactions, _apply_temporal_decay. simpl.
  rewrite lookup_insert_eq. simpl. rewrite lookup_insert_eq. split; reflexivity.
Qed.

(** C9.  The normalisation performed by [get_learned_preferences] is
    idempotent: normalising a map that the normalisation produced returns
    that same map; and reading the signals of a user whose stored map is
    the outcome of a previous reading returns that outcome again. *)
Theorem normalize_idempotent :
  (forall m : gmap string Q, normalize (normalize m) = normalize m) /\
  (forall (svc : PreferenceLearningService) (user : string),
      get_learned_preferences
        (set_prefs svc user (get_learned_preferences svc user)) user
      = get_learned_preferences svc user).
Proof.
  assert (Hn : forall m : gmap string Q, normalize (normalize m) = normalize m).
  { intros m. apply normalize_within. intros k v. apply normalize_bounded. }
  split; [exact Hn |].
  intros svc user. unfold get_learned_preferences at 1. simpl.
  rewrite lookup_insert_eq.
  unfold get_learned_preferences.
  destruct (user_learned_preferences svc !! user) as [prefs |]; [apply Hn |].
  apply normalize_within. intros k v. now rewrite lookup_empty.
Qed.

(** C3, evaluated where the code departs from it.  The user gave one star
    to the restaurant, which left the signal [category_luxury] at -0.1;
    learning from a batch of one rated interaction raises it to -0.06 and
    decays it to -0.057, of magnitude above 0.01; the signal kept by the
    service and returned by [learn_from_interactions] is 0. *)
Theorem decay_resets_negative_signal :
  let interactions :=
    [Scenario.interaction "test_user" "expensive_restaurant" "rate" (Some 2)] in
  let items := [Scenario.expensive_restaurant] in
  let before :=
    default ∅ (user_learned_preferences Scenario.after_bad_feedback !! "test_user") in
  let learned :=
    fold_left (learn_interaction (learning_rate Scenario.after_bad_feedback)
                                 (item_lookup items))
              interactions before in
  let '(svc, returned) :=
    learn_from_interactions Scenario.after_bad_feedback "test_user" interactions items in
  exists v w w',
    learned !! "category_luxury" = Some v /\
    v * 0.95 == -0.057 /\ 0.01 <= Qabs (v * 0.95) /\
    returned !! "category_luxury" = Some w /\ w == 0 /\
    get_learned_preferences svc "test_user" !! "category_luxury" = Some w' /\ w' == 0.
Proof.
  vm_compute.
  eexists _, _, _.
  repeat split; try reflexivity; discriminate.
Qed.

End LearningFacts.

(** ** The context adjuster *)
Module ContextualFacts.
Import Py Contextual Spec.
Local Open Scope Q_scope.

Lemma for_each_pure {A B} (g : A -> B) (l : list A) :
  for_each (fun x => Ok (g x)) l = Ok (map g l).
Proof. induction l as [| a l IH]; simpl; [reflexivity | now rewrite IH]. Qed.

Lemma for_each_length {A B} (f : A -> result B) (l : list A) (r : list B) :
  for_each f l = Ok r -> length r = length l.
Proof.
  revert r. induction l as [| a l IH]; simpl; intros r.
  - now intros [= <-].
  - destruct (f a); [| discriminate].
    destruct (for_each f l); [| discriminate].
    intros [= <-]. simpl. f_equal. now apply IH.
Qed.

(** A guarded loop over the paired items and scores returns one score
    per input score. *)
Lemma guarded_loop_length {A} (f : A * Q -> result Q)
    (items : list A) (scores : list Q) :
  length items = length scores ->
  length (try_except (for_each f (zip items scores)) scores) = length scores.
Proof.
  intros Hlen. destruct (for_each f (zip items scores)) as [r | e] eqn:E; simpl.
  - apply for_each_length in E. rewrite E, length_zip. lia.
  - reflexivity.
Qed.

Lemma for_each_ext {A B} (f g : A -> result B) (l : list A) :
  (forall x, f x = g x) -> for_each f l = for_each g l.
Proof.
  intros H. induction l as [| a l IH]; simpl; [reflexivity | now rewrite H, IH].
Qed.

(** A loop whose body cannot raise is a [map]. *)
Lemma for_each_pairs {A} (g : A -> Q -> Q) (l : list (A * Q)) :
  for_each (fun '(it, score) => Ok (g it score)) l
  = Ok (map (fun '(it, score) => g it score) l).
Proof.
  rewrite <- for_each_pure. apply for_each_ext. now intros [it score].
Qed.

Lemma crowd_context_map items scores f :
  _apply_crowd_context items scores f =
  map (fun '(it, score) =>
         weighted score (crowd_adjustment (cf_value f) it) (confidence f))
      (zip items scores).
Proof.
  unfold _apply_crowd_context.
  now rewrite (for_each_pairs
                 (fun it score =>
                    weighted score (crowd_adjustment (cf_value f) it) (confidence f))).
Qed.

Lemma get_default (payload : gmap string value) (k : string) (d : value) :
  payload !! k = None -> get payload k d = d.
Proof. intros H. unfold get. now rewrite H. Qed.

Lemma get_entry_eq (f : ContextualFactor) (k : string) (v d : value) :
  get (cf_value (with_entry f k v)) k d = v.
Proof. unfold get, with_entry. simpl. now rewrite lookup_insert_eq. Qed.

Lemma get_entry_ne (f : ContextualFactor) (k k' : string) (v d : value) :
  k <> k' -> get (cf_value (with_entry f k v)) k' d = get (cf_value f) k' d.
Proof. intros H. unfold get, with_entry. simpl. now rewrite lookup_insert_ne. Qed.

(** A weather factor without [condition] is scored as a cloudy one. *)
Lemma weather_without_condition items scores f prefs :
  cf_value f !! "condition" = None ->
  _apply_weather_context items scores f prefs
  = _apply_weather_context items scores (with_entry f "condition" (VStr "cloudy")) prefs.
Proof.
  intros H. unfold _apply_weather_context.
  rewrite get_entry_eq, !get_entry_ne by discriminate.
  now rewrite (get_default _ _ _ H).
Qed.

(** A season factor without [season] is scored as spring. *)
Lemma season_without_season items scores f :
  cf_value f !! "season" = None ->
  _apply_seasonal_context items scores f
  = _apply_seasonal_context items scores (with_entry f "season" (VStr "spring")).
Proof.
  intros H. unfold _apply_seasonal_context.
  now rewrite get_entry_eq, (get_default _ _ _ H).
Qed.

Lemma time_without_clock items scores f :
  cf_value f !! "current_time" = None -> _apply_time_context items scores f = scores.
Proof.
  intros H. unfold _apply_time_context. now rewrite (get_default _ _ _ H).
Qed.

Lemma location_without_latitude dist items scores f :
  cf_value f !! "latitude" = None -> _apply_location_context dist items scores f = scores.
Proof. intros H. unfold _apply_location_context. now rewrite H. Qed.

Lemma crowd_without_overall payload it :
  payload !! "overall_crowd_level" = None ->
  crowd_adjustment payload it = weight_or_one crowd_impact_weights (crowd_level it).
Proof. intros H. unfold crowd_adjustment. now rewrite H. Qed.

(** Each factor returns one score per input score. *)
Lemma apply_factor_length dist items prefs scores f :
  length items = length scores ->
  length (apply_factor dist items prefs scores f) = length scores.
Proof.
  intros Hlen. unfold apply_factor.
  destruct (cf_type f).
  - now apply guarded_loop_length.
  - now apply guarded_loop_length.
  - unfold _apply_time_context.
    destruct (negb (truthy _)); [reflexivity |].
    destruct (match get (cf_value f) "current_time" VNone with
              | VStr s => int (split_head ":" s)
              | VTime h _ => Ok h
              | _ => Raise AttributeError
              end) as [hour | e]; [| reflexivity].
    simpl. now apply guarded_loop_length.
  - unfold _apply_location_context.
    destruct (cf_value f !! "latitude"); [| reflexivity].
    destruct (getitem (cf_value f) "longitude"); [| reflexivity].
    simpl. now apply guarded_loop_length.
  - now apply guarded_loop_length.
Qed.

Lemma fold_factors_length dist items prefs fs scores :
  length items = length scores ->
  length (fold_left (apply_factor dist items prefs) fs scores) = length scores.
Proof.
  revert scores. induction fs as [| f fs IH]; simpl; intros scores Hlen; [reflexivity |].
  rewrite IH; rewrite apply_factor_length; auto.
Qed.

Lemma apply_contextual_scoring_fold dist items scores fs prefs :
  length items = length scores ->
  apply_contextual_scoring dist items scores fs prefs
  = fold_left (apply_factor dist items prefs) fs scores.
Proof.
  intros Hlen. unfold apply_contextual_scoring.
  rewrite Hlen, Nat.eqb_refl. reflexivity.
Qed.

Lemma apply_contextual_scoring_length dist items scores fs prefs :
  length (apply_contextual_scoring dist items scores fs prefs) = length scores.
Proof.
  unfold apply_contextual_scoring.
  destruct (length items =? length scores)%nat eqn:E; simpl; [| reflexivity].
  apply Nat.eqb_eq in E. now apply fold_factors_length.
Qed.

Lemma in_list_false (x : string) (l : list string) : x ∉ l -> in_list x l = false.
Proof. intros H. unfold in_list. now apply bool_decide_eq_false. Qed.

(** Under a sunny sky at 25 degrees and mild humidity, only the weather
    table and the user's weather preference act on an item. *)
Lemma weather_adjustment_sunny (t h : Q) prefs it :
  t == 25 -> h <= 80 ->
  "indoor_preferred" ∉ weather_preferences prefs ->
  exists a,
    weather_adjustment (VStr "sunny") (VNum t) (VNum h) prefs it = Ok a /\
    (weather_dependent it = true -> _classify_item_environment it = "outdoor" -> 1.2 <= a) /\
    (weather_dependent it = false -> _classify_item_environment it = "indoor" -> a == 1).
Proof.
  intros Ht Hh Hpref.
  assert (Hhot : Qltb 30 t = false) by (apply Qltb_ge; lra).
  assert (Hcool : Qltb t 15 = false) by (apply Qltb_ge; lra).
  assert (Hhumid : Qltb 80 h = false) by (apply Qltb_ge; lra).
  unfold weather_adjustment. simpl.
  rewrite Hhot. simpl. rewrite Hcool. simpl. rewrite Hhumid.
  rewrite (in_list_false _ _ Hpref).
  eexists. split; [reflexivity |].
  split; intros Hdep Hclass; rewrite Hdep, Hclass; simpl.
  - change (weather_impact_weights !! "sunny")
      with (Some (list_to_map [("outdoor", 1.2); ("indoor", 0.9)] : gmap string Q)).
    destruct (in_list "outdoor_preferred" (weather_preferences prefs));
      vm_compute; discriminate.
  - destruct (in_list "outdoor_preferred" (weather_preferences prefs)); reflexivity.
Qed.

(** C6 as stated fails, on the two items of the scenario under a factor
    of condition sunny, temperature 25 and confidence 1: for a user who
    carries the indoor_preferred tag the indoor score moves from 0.5 to
    0.55, and when the factor also reports a humidity of 85 the outdoor
    score drops from 0.5 to 0.48. *)
Lemma sunny_day_depends_on_user_and_humidity :
  (weather_dependent Scenario.outdoor_item = true /\
   _classify_item_environment Scenario.outdoor_item = "outdoor") /\
  (weather_dependent Scenario.indoor_item = false /\
   _classify_item_environment Scenario.indoor_item = "indoor") /\
  (exists so si,
      apply_contextual_scoring Scenario.no_distance
        [Scenario.outdoor_item; Scenario.indoor_item] [0.5; 0.5]
        [Scenario.sunny_25] Scenario.indoor_preferences = [so; si] /\
      si == 0.55 /\ ~ si == 0.5) /\
  (exists so si,
      apply_contextual_scoring Scenario.no_distance
        [Scenario.outdoor_item; Scenario.indoor_item] [0.5; 0.5]
        [Scenario.sunny_25_humid] Collaborative.default_preferences = [so; si] /\
      so == 0.48 /\ ~ 0.5 < so).
Proof.
  split; [split; reflexivity |].
  split; [split; reflexivity |].
  split.
  - eexists _, _. split; [vm_compute; reflexivity |].
    split; [reflexivity | discriminate].
  - eexists _, _. split; [vm_compute; reflexivity |].
    split; [reflexivity | intros H; vm_compute in H; discriminate].
Qed.

(** C6, amended.  A weather-dependent item classified as outdoor and a
    non-weather-dependent item classified as indoor (the text of both
    being ASCII), both at 0.5, under a weather factor of condition sunny,
    temperature 25 and confidence 1 whose humidity is absent or at most
    80, for a user who does not carry the indoor_preferred tag: the
    outdoor score strictly increases and the indoor score keeps the value
    0.5. *)
Theorem sunny_day_boosts_outdoor_only dist (o i : RecommendationItem)
    (f : ContextualFactor) (prefs : UserPreferences) (t : Q) :
  ascii_item o -> ascii_item i ->
  weather_dependent o = true -> _classify_item_environment o = "outdoor" ->
  weather_dependent i = false -> _classify_item_environment i = "indoor" ->
  cf_type f = WEATHER ->
  cf_value f !! "condition" = Some (VStr "sunny") ->
  cf_value f !! "temperature" = Some (VNum t) -> t == 25 ->
  mild_humidity (cf_value f) ->
  confidence f == 1 ->
  "indoor_preferred" ∉ weather_preferences prefs ->
  exists so si,
    apply_contextual_scoring dist [o; i] [0.5; 0.5] [f] prefs = [so; si] /\
    0.5 < so /\ si == 0.5.
Proof.
  intros _ _ Ho Hoc Hi Hic Htype Hcond Htemp Ht Hhum Hconf Hpref.
  rewrite apply_contextual_scoring_fold by reflexivity.
  simpl. unfold apply_factor. rewrite Htype.
  unfold _apply_weather_context, get. rewrite Hcond, Htemp.
  assert (Hh : exists h, match cf_value f !! "humidity" with
                         | Some v => v | None => VNum 70 end = VNum h /\ h <= 80).
  { unfold mild_humidity in Hhum.
    destruct (cf_value f !! "humidity") as [[| h | |] |]; try contradiction.
    - now exists h.
    - exists 70. split; [reflexivity | lra]. }
  destruct Hh as [h [-> Hh]].
  destruct (weather_adjustment_sunny t h prefs o Ht Hh Hpref) as [ao [Eo [Hao _]]].
  destruct (weather_adjustment_sunny t h prefs i Ht Hh Hpref) as [ai [Ei [_ Hai]]].
  simpl. rewrite Eo, Ei. simpl.
  eexists _, _. split; [reflexivity |].
  specialize (Hao Ho Hoc). specialize (Hai Hi Hic).
  unfold weighted. split.
  - assert ((ao - 1.0) * confidence f == ao - 1) by (rewrite Hconf; ring). lra.
  - rewrite Hai, Hconf. ring.
Qed.

(** The scenario of the test suite: Victoria Peak and the museum, a
    sunny factor and a user who prefers the outdoors. *)
Lemma sunny_day_boosts_outdoor_only_witness :
  exists so si,
    apply_contextual_scoring Scenario.no_distance
      [Scenario.outdoor_item; Scenario.indoor_item] [0.5; 0.5]
      [Scenario.sunny_25] Scenario.couple_preferences = [so; si] /\
    0.5 < so /\ si == 0.5.
Proof.
  apply (sunny_day_boosts_outdoor_only Scenario.no_distance
           Scenario.outdoor_item Scenario.indoor_item
           Scenario.sunny_25 Scenario.couple_preferences 25).
  - reflexivity.
  - reflexivity.
  - reflexivity.
  - vm_compute; reflexivity.
  - reflexivity.
  - vm_compute; reflexivity.
  - reflexivity.
  - vm_compute; reflexivity.
  - vm_compute; reflexivity.
  - reflexivity.
  - vm_compute. exact I.
  - reflexivity.
  - vm_compute. intros H. inversion H as [| ? ? ? H']; subst. inversion H'.
Defined.

(** C2 as stated fails: a crowd factor without [overall_crowd_level]
    lowers the score of a busy item from 0.5 to 0.4, and a weather factor
    without [condition] on a hot day takes the same item to 0.385. *)
Lemma missing_key_still_adjusts :
  cf_value Scenario.crowd_without_level !! expected_key CROWD = None /\
  cf_value Scenario.hot_without_condition !! expected_key WEATHER = None /\
  exists s s',
    apply_contextual_scoring Scenario.no_distance [Scenario.outdoor_item] [0.5]
      [Scenario.crowd_without_level] Scenario.couple_preferences = [s] /\
    s == 0.4 /\ ~ s == 0.5 /\
    apply_contextual_scoring Scenario.no_distance [Scenario.outdoor_item] [0.5]
      [Scenario.hot_without_condition] Scenario.couple_preferences = [s'] /\
    s' == 0.385 /\ ~ s' == 0.5.
Proof.
  split; [reflexivity |]. split; [reflexivity |].
  eexists _, _.
  split; [vm_compute; reflexivity |].
  split; [reflexivity |].
  split; [discriminate |].
  split; [vm_compute; reflexivity |].
  split; [reflexivity | discriminate].
Qed.

(** C2, amended.  [apply_contextual_scoring] returns one score per input
    score whatever the payloads hold.  When the payload of the last
    factor lacks the key expected for its kind: a time factor and a
    location factor leave the scores as they were; a weather factor is
    scored as if its condition were cloudy and a season factor as if the
    season were spring; a crowd factor still applies the multiplier of
    each item's own crowd level. *)
Theorem missing_key_behaviour dist (items : list RecommendationItem) (scores : list Q)
    (fs : list ContextualFactor) (f : ContextualFactor) (prefs : UserPreferences) :
  length items = length scores ->
  cf_value f !! expected_key (cf_type f) = None ->
  let previous := apply_contextual_scoring dist items scores fs prefs in
  let result := apply_contextual_scoring dist items scores (fs ++ [f]) prefs in
  length result = length scores /\
  result =
    match cf_type f with
    | TIME | LOCATION => previous
    | WEATHER =>
        _apply_weather_context items previous
          (with_entry f "condition" (VStr "cloudy")) prefs
    | SEASON =>
        _apply_seasonal_context items previous (with_entry f "season" (VStr "spring"))
    | CROWD =>
        map (fun '(it, score) =>
               weighted score (weight_or_one crowd_impact_weights (crowd_level it))
                        (confidence f))
            (zip items previous)
    end.
Proof.
  intros Hlen Hkey previous result. subst previous result.
  split; [apply apply_contextual_scoring_length |].
  rewrite !apply_contextual_scoring_fold by exact Hlen.
  rewrite fold_left_app. simpl.
  set (previous := fold_left (apply_factor dist items prefs) fs scores).
  unfold apply_factor. destruct (cf_type f); simpl in Hkey.
  - now apply weather_without_condition.
  - rewrite crowd_context_map. apply map_ext. intros [it score].
    now rewrite crowd_without_overall.
  - now apply time_without_clock.
  - now apply location_without_latitude.
  - now apply season_without_season.
Qed.

Lemma missing_key_behaviour_witness :
  length [Scenario.outdoor_item; Scenario.indoor_item] = length [0.5; 0.5] /\
  cf_value Scenario.time_without_clock
    !! expected_key (cf_type Scenario.time_without_clock) = None /\
  apply_contextual_scoring Scenario.no_distance
    [Scenario.outdoor_item; Scenario.indoor_item] [0.5; 0.5]
    ([Scenario.sunny_25] ++ [Scenario.time_without_clock]) Scenario.couple_preferences
  = apply_contextual_scoring Scenario.no_distance
      [Scenario.outdoor_item; Scenario.indoor_item] [0.5; 0.5]
      [Scenario.sunny_25] Scenario.couple_preferences.
Proof.
  split; [reflexivity |]. split; [reflexivity |].
  apply (missing_key_behaviour Scenario.no_distance
           [Scenario.outdoor_item; Scenario.indoor_item] [0.5; 0.5]
           [Scenario.sunny_25] Scenario.time_without_clock Scenario.couple_preferences);
    reflexivity.
Defined.

End ContextualFacts.

(** ** Ordered dictionaries and sorting *)
Module DictFacts.

Lemma get_In {V} (k : string) (v : V) (d : list (string * V)) :
  Dict.get k d = Some v -> In (k, v) d.
Proof.
  induction d as [| [k' v'] d IH]; simpl; [discriminate |].
  destruct (String.eqb_spec k' k) as [-> | _].
  - intros [= ->]. now left.
  - intros H. right. now apply IH.
Qed.

Lemma set_In {V} (k : string) (v : V) (d : list (string * V)) (x : string * V) :
  In x (Dict.set k v d) -> x = (k, v) \/ In x d.
Proof.
  induction d as [| [k' v'] d IH]; simpl.
  - intros [<- | []]. now left.
  - destruct (String.eqb k' k); simpl.
    + intros [<- | H]; [now left | right; now right].
    + intros [<- | H]; [right; now left |].
      destruct (IH H) as [-> | H']; [now left | right; now right].
Qed.

Lemma insert_desc_In {A} (key : A -> Q) (x y : A) (l : list A) :
  In x (Dict.insert_desc key y l) <-> x = y \/ In x l.
Proof.
  induction l as [| z l IH]; simpl.
  - intuition congruence.
  - destruct (Py.Qltb (key y) (key z)); simpl; [rewrite IH |]; intuition congruence.
Qed.

(** Sorting keeps exactly the elements of the list. *)
Lemma sorted_desc_In {A} (key : A -> Q) (x : A) (l : list A) :
  In x (Dict.sorted_desc key l) <-> In x l.
Proof.
  induction l as [| y l IH]; simpl; [tauto |].
  rewrite insert_desc_In, IH. intuition congruence.
Qed.

Lemma take_In {A} (x : A) (n : nat) (l : list A) : In x (take n l) -> In x l.
Proof.
  revert n. induction l as [| y l IH]; intros [| n]; simpl; try tauto.
  intros [-> | H]; [now left | right; now apply (IH n)].
Qed.

End DictFacts.

(** ** The collaborative model *)
Module CollaborativeFacts.
Import Py Collaborative Spec.
Local Open Scope Q_scope.

Lemma score_items_entries profiles similar_users interacted items entry :
  In entry (score_items profiles similar_users interacted items) ->
  scored_entry profiles similar_users interacted entry.
Proof.
  unfold score_items.
  assert (H : forall acc,
             (forall x, In x acc -> scored_entry profiles similar_users interacted x) ->
             forall x,
               In x (fold_left
                       (fun item_scores it =>
                          if in_list (item_id it) interacted then item_scores
                          else
                            let '(score, total_weight) :=
                              neighbour_votes profiles similar_users (item_id it) in
                            if Qltb 0 total_weight
                            then Dict.set (item_id it) (score / total_weight) item_scores
                            else item_scores)
                       items acc) ->
               scored_entry profiles similar_users interacted x).
  { induction items as [| it items IH]; simpl; intros acc Hacc; [exact Hacc |].
    apply IH.
    unfold in_list. case_bool_decide as Hin; [exact Hacc |].
    destruct (neighbour_votes profiles similar_users (item_id it))
      as [score total] eqn:Ev.
    destruct (Qltb 0 total) eqn:Et; [| exact Hacc].
    apply Qltb_lt in Et.
    intros x Hx. apply DictFacts.set_In in Hx. destruct Hx as [-> | Hx]; [| now apply Hacc].
    unfold scored_entry. simpl. rewrite Ev. simpl. auto. }
  apply H. intros x [].
Qed.

Lemma resolve_items_In items scored it score :
  In (it, score) (resolve_items items scored) -> In (item_id it, score) scored.
Proof.
  unfold resolve_items. rewrite in_flat_map.
  intros [[id s] [Hin Hx]].
  destruct (List.find _ items) as [it' |] eqn:Ef; [| destruct Hx].
  destruct Hx as [[= -> ->] | []].
  apply find_some in Ef. destruct Ef as [_ Heq].
  apply String.eqb_eq in Heq. now subst id.
Qed.

(** Every recommendation comes from an entry of the scoring loop. *)
Lemma recommendation_entries svc user items top_k it score :
  In (it, score) (generate_collaborative_recommendations svc user items top_k) ->
  (item_id it ∉ history_ids svc user) /\
  0 < snd (votes svc user (item_id it)) /\
  score = fst (votes svc user (item_id it)) / snd (votes svc user (item_id it)).
Proof.
  unfold generate_collaborative_recommendations, history_ids, votes.
  destruct (find_similar_users svc user 10) as [| n ns] eqn:Es; [intros [] |].
  destruct (Dict.get user (user_profiles svc)) as [profile |]; [| intros []].
  intros H. apply resolve_items_In, DictFacts.take_In in H.
  apply DictFacts.sorted_desc_In in H.
  apply score_items_entries in H. exact H.
Qed.

(** C5.  No recommended item carries an id found in the target user's
    interaction history, and every recommended item received a positive
    total similarity weight from the neighbours (its score being the
    neighbours' score divided by that weight): a candidate without such
    weight is absent from the result. *)
Theorem collaborative_recommendations_are_new svc user items top_k :
  Forall (fun rec : RecommendationItem * Q =>
            (item_id (fst rec) ∉ history_ids svc user) /\
            0 < snd (votes svc user (item_id (fst rec))) /\
            snd rec = fst (votes svc user (item_id (fst rec)))
                      / snd (votes svc user (item_id (fst rec))))
         (generate_collaborative_recommendations svc user items top_k).
Proof.
  apply List.Forall_forall. intros [it score] H. simpl.
  now apply recommendation_entries in H.
Qed.

(** For ann, whose neighbour bob also visited the peak that she viewed,
    the peak is left out and the restaurant is recommended. *)
Example ann_is_offered_the_restaurant :
  map (fun rec => item_id (fst rec))
      (generate_collaborative_recommendations Scenario.two_users "ann"
         [Scenario.outdoor_item; Scenario.expensive_restaurant] 5)
  = ["expensive_restaurant"].
Proof. reflexivity. Qed.

Lemma base_weight_bounds (kind : string) :
  1 <= default 1.0 (weights !! kind) /\ default 1.0 (weights !! kind) <= 4.
Proof.
  destruct (weights !! kind) as [w |] eqn:E; simpl; [| split; lra].
  apply elem_of_list_to_map_2 in E.
  repeat (apply elem_of_cons in E; destruct E as [[= _ ->] | E]; [split; lra |]).
  now apply elem_of_nil in E.
Qed.

(** An interaction weighs between 0 and 4 when its rating, if any, lies
    between 0 and 5. *)
Lemma interaction_weight_bounds (interaction : UserInteraction) :
  rating_in_range interaction ->
  0 <= _get_interaction_weight interaction /\ _get_interaction_weight interaction <= 4.
Proof.
  unfold rating_in_range, _get_interaction_weight.
  pose proof (base_weight_bounds (interaction_type interaction)) as [Hlo Hhi].
  set (b := default 1.0 (weights !! interaction_type interaction)) in *.
  destruct (ui_rating interaction) as [r |]; [| intros _; split; lra].
  intros [Hr0 Hr5].
  assert (Hq : 0 <= r / 5.0 /\ r / 5.0 <= 1).
  { split; [apply Qle_shift_div_l | apply Qle_shift_div_r]; lra. }
  destruct Hq as [Hq0 Hq1]. set (q := r / 5.0) in *. split; nra.
Qed.

(** The neighbours' score stays between 0 and 4 times their total
    weight when similarities are non-negative and ratings in range. *)
Lemma neighbour_votes_bounds profiles similar_users item :
  Forall (fun p => Forall rating_in_range (interaction_history (snd p))) profiles ->
  Forall (fun p => 0 <= snd p) similar_users ->
  let '(score, total) := neighbour_votes profiles similar_users item in
  0 <= total /\ 0 <= score /\ score <= 4 * total.
Proof.
  intros Hratings. unfold neighbour_votes.
  assert (H : forall acc : Q * Q,
             (0 <= snd acc /\ 0 <= fst acc /\ fst acc <= 4 * snd acc) ->
             Forall (fun p => 0 <= snd p) similar_users ->
             let '(score, total) :=
               fold_left
                 (fun '(score, total_weight) '(similar_user_id, similarity) =>
                    match Dict.get similar_user_id profiles with
                    | None => (score, total_weight)
                    | Some similar_profile =>
                        match first_interaction_with item
                                (interaction_history similar_profile) with
                        | Some interaction =>
                            (score + similarity * _get_interaction_weight interaction,
                             total_weight + similarity)
                        | None => (score, total_weight)
                        end
                    end)
                 similar_users acc in
             0 <= total /\ 0 <= score /\ score <= 4 * total).
  { induction similar_users as [| [uid sim] rest IH]; simpl.
    - intros [score total]. simpl. tauto.
    - intros [score total] Hacc Hsims. simpl in Hacc.
      apply List.Forall_cons_iff in Hsims. destruct Hsims as [Hsim Hrest]. simpl in Hsim.
      apply IH; [| exact Hrest].
      destruct (Dict.get uid profiles) as [p |] eqn:Ep; [| exact Hacc].
      destruct (first_interaction_with item (interaction_history p))
        as [i |] eqn:Ei; [| exact Hacc].
      apply DictFacts.get_In in Ep.
      rewrite List.Forall_forall in Hratings. specialize (Hratings _ Ep). simpl in Hratings.
      apply find_some in Ei. destruct Ei as [Hi _].
      rewrite List.Forall_forall in Hratings. specialize (Hratings _ Hi).
      destruct (interaction_weight_bounds i Hratings) as [Hw0 Hw4].
      simpl. repeat split; nra. }
  apply H. simpl. repeat split; lra.
Qed.

Lemma similar_users_nonneg svc user top_k :
  similarities_nonneg svc user ->
  Forall (fun p => 0 <= snd p) (find_similar_users svc user top_k).
Proof.
  intros H. unfold find_similar_users.
  destruct (Dict.get user (user_similarities svc)) as [sims |] eqn:E; [| constructor].
  specialize (H sims E). rewrite List.Forall_forall in *.
  intros x Hx. apply H. apply DictFacts.take_In in Hx.
  now apply DictFacts.sorted_desc_In in Hx.
Qed.

(** Under those assumptions every collaborative score lies in [0, 4]. *)
Lemma collaborative_scores_bounded svc user items top_k it score :
  similarities_nonneg svc user -> ratings_in_range svc ->
  In (it, score) (generate_collaborative_recommendations svc user items top_k) ->
  0 <= score /\ score <= 4.
Proof.
  intros Hsim Hrat H. apply recommendation_entries in H.
  destruct H as [_ [Hpos ->]]. unfold votes in *.
  pose proof (neighbour_votes_bounds (user_profiles svc)
                (find_similar_users svc user 10) (item_id it) Hrat
                (similar_users_nonneg svc user 10 Hsim)) as Hb.
  destruct (neighbour_votes _ _ _) as [sc total]. simpl in *.
  destruct Hb as [_ [H0 H4]].
  split; [apply Qle_shift_div_l | apply Qle_shift_div_r]; lra.
Qed.

(** A recommendation names an item of the list it was asked about. *)
Lemma resolve_items_from items scored it score :
  In (it, score) (resolve_items items scored) -> In it items.
Proof.
  unfold resolve_items. rewrite in_flat_map.
  intros [[id s] [_ Hx]].
  destruct (List.find _ items) as [it' |] eqn:Ef; [| destruct Hx].
  destruct Hx as [[= -> _] | []].
  now apply find_some in Ef.
Qed.

Lemma recommendation_from svc user items top_k it score :
  In (it, score) (generate_collaborative_recommendations svc user items top_k) ->
  In it items.
Proof.
  unfold generate_collaborative_recommendations.
  destruct (find_similar_users svc user 10) as [| n ns]; [intros [] |].
  destruct (Dict.get user (user_profiles svc)) as [profile |]; [| intros []].
  apply resolve_items_from.
Qed.

(** The loop over the neighbours adds up, over the voters, the products
    of similarity and weight on one side and the similarities on the
    other. *)
Lemma neighbour_votes_sums svc user item :
  fst (votes svc user item)
  == fold_right (fun p acc => fst p * snd p + acc) 0 (voters svc user item) /\
  snd (votes svc user item)
  == fold_right (fun p acc => fst p + acc) 0 (voters svc user item).
Proof.
  unfold votes, voters, neighbour_votes.
  set (profiles := user_profiles svc).
  assert (H : forall (l : list (string * Q)) (acc : Q * Q),
             let r :=
               fold_left
                 (fun '(score, total_weight) '(similar_user_id, similarity) =>
                    match Dict.get similar_user_id profiles with
                    | None => (score, total_weight)
                    | Some similar_profile =>
                        match first_interaction_with item
                                (interaction_history similar_profile) with
                        | Some interaction =>
                            (score + similarity * _get_interaction_weight interaction,
                             total_weight + similarity)
                        | None => (score, total_weight)
                        end
                    end)
                 l acc in
             let vs :=
               omap
                 (fun neighbour : string * Q =>
                    match Dict.get (fst neighbour) profiles with
                    | Some profile =>
                        match first_interaction_with item (interaction_history profile) with
                        | Some interaction =>
                            Some (snd neighbour, _get_interaction_weight interaction)
                        | None => None
                        end
                    | None => None
                    end)
                 l in
             fst r == fst acc + fold_right (fun p a => fst p * snd p + a) 0 vs /\
             snd r == snd acc + fold_right (fun p a => fst p + a) 0 vs).
  { induction l as [| [uid sim] l IH]; intros [score total]; cbn.
    - split; ring.
    - destruct (Dict.get uid profiles) as [p |]; [| apply IH].
      destruct (first_interaction_with item (interaction_history p)) as [i |];
        [| apply IH].
      destruct (IH (score + sim * _get_interaction_weight i, total + sim)) as [H1 H2].
      cbn in *. split; [rewrite H1 | rewrite H2]; ring. }
  destruct (H (find_similar_users svc user 10) (0.0, 0.0)) as [H1 H2].
  cbn in *. split; [rewrite H1 | rewrite H2]; ring.
Qed.

(** The score of a recommendation returned for a single item is the
    similarity-weighted mean of the weights of its voters. *)
Lemma single_item_score svc user it top_k it' score rest :
  generate_collaborative_recommendations svc user [it] top_k = (it', score) :: rest ->
  score == weighted_mean (voters svc user (item_id it)).
Proof.
  intros E.
  assert (Hin : In (it', score)
                   (generate_collaborative_recommendations svc user [it] top_k))
    by (rewrite E; now left).
  pose proof (recommendation_from _ _ _ _ _ _ Hin) as [<- | []].
  apply recommendation_entries in Hin. destruct Hin as [_ [_ ->]].
  destruct (neighbour_votes_sums svc user (item_id it)) as [H1 H2].
  unfold weighted_mean. now rewrite H1, H2.
Qed.

End CollaborativeFacts.

(** ** The hybrid orchestrator *)
Module EngineFacts.
Import Py Engine Spec.
Local Open Scope Q_scope.

(** The dictionary [scores] of one candidate holds exactly three entries;
    [contextual] is not among them. *)
Lemma approach_scores_lookup
    (content : UserProfile -> list RecommendationItem -> nat ->
               list (RecommendationItem * Q))
    (e : RecommendationEngine) (profile : UserProfile)
    (request : RecommendationRequest) (it : RecommendationItem) :
  approach_scores content e profile request it !! "content_based"
    = Some (first_score_or_default (content profile [it] 1%nat)) /\
  approach_scores content e profile request it !! "collaborative"
    = Some (first_score_or_default
              (Collaborative.generate_collaborative_recommendations
                 (collaborative_service e) (req_user_id request) [it] 1%nat)) /\
  approach_scores content e profile request it !! "preference_learning"
    = Some ((Learning.predict_user_rating (preference_service e) (req_user_id request) it
               (req_preferences request) - 1) / 4) /\
  approach_scores content e profile request it !! "contextual" = None.
Proof. unfold approach_scores. repeat split; now simplify_map_eq. Qed.

Lemma combine_approach_scores
    (content : UserProfile -> list RecommendationItem -> nat ->
               list (RecommendationItem * Q))
    (e : RecommendationEngine) (profile : UserProfile)
    (request : RecommendationRequest) (it : RecommendationItem) :
  combine (approach_scores content e profile request it)
  == 0.4 * first_score_or_default (content profile [it] 1%nat)
     + 0.3 * first_score_or_default
               (Collaborative.generate_collaborative_recommendations
                  (collaborative_service e) (req_user_id request) [it] 1%nat)
     + 0.1 * ((Learning.predict_user_rating (preference_service e) (req_user_id request) it
                 (req_preferences request) - 1) / 4)
     + 0.2 * 0.5.
Proof.
  destruct (approach_scores_lookup content e profile request it) as [Hc [Hk [Hp Hx]]].
  unfold combine, algorithm_weights. simpl.
  rewrite Hc, Hk, Hp, Hx. simpl. ring.
Qed.

(** C1 as stated fails: on a fresh engine, for a low-budget user and the
    peak, the three scores are 0.5, 0.5 and 0.875, whose combination under
    the weights 0.4, 0.3 and 0.1 alone is 0.4375; the score computed before
    any contextual adjustment is 0.5375. *)
Lemma contextual_weight_contributes :
  let request := Scenario.request "u" Scenario.low_budget_preferences in
  let profile := Scenario.profile_of "u" [] in
  exists r,
    _generate_hybrid_recommendations Scenario.no_content Scenario.no_similar_items
      Scenario.seconds Scenario.fresh_engine profile [Scenario.outdoor_item] request 0
    = [r] /\
    personalized_score r == 0.5375 /\
    three_weight_combination
      (approach_scores Scenario.no_content Scenario.fresh_engine profile request (item r))
    == 0.4375 /\
    ~ personalized_score r
      == three_weight_combination
           (approach_scores Scenario.no_content Scenario.fresh_engine profile request
              (item r)).
Proof.
  eexists. split; [reflexivity |].
  split; [vm_compute; reflexivity |].
  split; [vm_compute; reflexivity |].
  vm_compute. discriminate.
Qed.

(** C1, amended.  Before the contextual adjustment, the score of every
    candidate equals 0.4 times its content-based score, plus 0.3 times its
    collaborative score, plus 0.1 times its preference-learning score (the
    predicted rating mapped by (predicted - 1) / 4), plus the constant 0.1
    that the contextual weight 0.2 contributes through the neutral default
    0.5. *)
Theorem hybrid_score_combination
    (content : UserProfile -> list RecommendationItem -> nat ->
               list (RecommendationItem * Q))
    (similar : string -> nat -> list (string * Q)) (fmt : Z -> string)
    (e : RecommendationEngine) (profile : UserProfile)
    (candidates : list RecommendationItem) (request : RecommendationRequest) (now : Z) :
  Forall
    (fun r =>
       personalized_score r ==
       0.4 * first_score_or_default (content profile [item r] 1%nat)
       + 0.3 * first_score_or_default
                 (Collaborative.generate_collaborative_recommendations
                    (collaborative_service e) (req_user_id request) [item r] 1%nat)
       + 0.1 * ((Learning.predict_user_rating (preference_service e)
                   (req_user_id request) (item r) (req_preferences request) - 1) / 4)
       + 0.2 * 0.5)
    (_generate_hybrid_recommendations content similar fmt e profile candidates request now).
Proof.
  apply List.Forall_forall. intros r Hin.
  unfold _generate_hybrid_recommendations in Hin.
  apply in_map_iff in Hin. destruct Hin as [it [<- _]].
  simpl. apply combine_approach_scores.
Qed.

(** C4 as stated fails: ann's only neighbour bob rated the restaurant 5,
    an interaction of weight 4; the restaurant is a candidate of ann's
    request and the collaborative score that enters its combination is 4. *)
Lemma collaborative_score_exceeds_one :
  let request := Scenario.request "ann" Scenario.luxury_preferences in
  let profile := Scenario.profile_of "ann" [] in
  In Scenario.expensive_restaurant
     (_filter_candidate_items Scenario.engine_with_neighbours request) /\
  exists s,
    approach_scores Scenario.no_content Scenario.engine_with_neighbours profile request
      Scenario.expensive_restaurant !! "collaborative" = Some s /\
    s == 4 /\ ~ (0 <= s /\ s <= 1).
Proof.
  split; [vm_compute; right; left; reflexivity |].
  eexists. split; [vm_compute; reflexivity |].
  split; [reflexivity |].
  intros [_ H]. vm_compute in H. now apply H.
Qed.

(** C4, amended.  The collaborative score that enters the combination is
    0.5 when the collaborative service returns no recommendation for the
    item; otherwise it is the similarity-weighted mean of the interaction
    weights (view 1, like 2, visit 3, rate 4, each times rating/5 when
    rated) of the neighbours that vote on the item; it lies between 0 and
    4 when the user's similarities are non-negative and the recorded
    ratings lie between 0 and 5. *)
Theorem collaborative_score_range
    (content : UserProfile -> list RecommendationItem -> nat ->
               list (RecommendationItem * Q))
    (e : RecommendationEngine) (profile : UserProfile)
    (request : RecommendationRequest) (it : RecommendationItem) :
  let svc := collaborative_service e in
  let user := req_user_id request in
  let recs := Collaborative.generate_collaborative_recommendations svc user [it] 1%nat in
  exists s,
    approach_scores content e profile request it !! "collaborative" = Some s /\
    (recs = [] -> s = 0.5) /\
    (recs <> [] -> s == weighted_mean (voters svc user (item_id it))) /\
    (similarities_nonneg svc user -> ratings_in_range svc -> 0 <= s /\ s <= 4).
Proof.
  intros svc user recs.
  destruct (approach_scores_lookup content e profile request it) as [_ [Hk _]].
  eexists. split; [exact Hk |].
  fold svc user recs.
  destruct recs as [| [it' score] rest] eqn:E; simpl.
  - split; [reflexivity |]. split; [intros H; now contradiction H |].
    intros _ _. split; lra.
  - split; [discriminate |]. split.
    + intros _. exact (CollaborativeFacts.single_item_score _ _ _ _ _ _ _ E).
    + intros Hsim Hrat.
      apply (CollaborativeFacts.collaborative_scores_bounded svc user [it] 1%nat it' score
               Hsim Hrat).
      subst recs. rewrite E. now left.
Qed.

(** Ann and her neighbour bob: the restaurant is recommended to her, her
    similarities are non-negative and the ratings in range, and the score
    is bob's weight for the restaurant, within the range. *)
Lemma collaborative_score_range_witness :
  let request := Scenario.request "ann" Scenario.luxury_preferences in
  let profile := Scenario.profile_of "ann" [] in
  let svc := collaborative_service Scenario.engine_with_neighbours in
  Collaborative.generate_collaborative_recommendations svc "ann"
    [Scenario.expensive_restaurant] 1%nat <> [] /\
  similarities_nonneg svc "ann" /\
  ratings_in_range svc /\
  exists s,
    approach_scores Scenario.no_content Scenario.engine_with_neighbours profile request
      Scenario.expensive_restaurant !! "collaborative" = Some s /\
    s == weighted_mean (voters svc "ann" "expensive_restaurant") /\
    0 <= s /\ s <= 4.
Proof.
  assert (Hrecs : Collaborative.generate_collaborative_recommendations
                    (collaborative_service Scenario.engine_with_neighbours) "ann"
                    [Scenario.expensive_restaurant] 1%nat <> [])
    by (vm_compute; discriminate).
  assert (Hsim : similarities_nonneg
                   (collaborative_service Scenario.engine_with_neighbours) "ann").
  { intros sims H. vm_compute in H. injection H as <-.
    repeat constructor. simpl. discriminate. }
  assert (Hrat : ratings_in_range (collaborative_service Scenario.engine_with_neighbours)).
  { repeat constructor; simpl; discriminate. }
  split; [exact Hrecs |]. split; [exact Hsim |]. split; [exact Hrat |].
  destruct (collaborative_score_range Scenario.no_content Scenario.engine_with_neighbours
              (Scenario.profile_of "ann" [])
              (Scenario.request "ann" Scenario.luxury_preferences)
              Scenario.expensive_restaurant) as [s [Hs [_ [Hmean Hrange]]]].
  exists s. split; [exact Hs |].
  split; [exact (Hmean Hrecs) | exact (Hrange Hsim Hrat)].
Defined.

(** Whatever the types and the dietary restrictions, a candidate has passed
    the budget test of the request. *)
Lemma candidates_within_budget (e : RecommendationEngine) (request : RecommendationRequest)
    (it : RecommendationItem) :
  In it (_filter_candidate_items e request) ->
  In it (available_items e) /\
  within (default (0, None)
            (budget_ranges !! BudgetRange_value (budget_range (req_preferences request))))
         (estimated_cost it) = true.
Proof.
  unfold _filter_candidate_items.
  set (range := default (0, None) _).
  set (typed := match recommendation_types request with
                | [] => available_items e
                | _ :: _ => _
                end).
  assert (Htyped : forall x, In x typed -> In x (available_items e)).
  { subst typed. destruct (recommendation_types request); [auto |].
    intros x Hx. now apply filter_In in Hx. }
  intros H.
  assert (H2 : In it (List.filter (fun it => within range (estimated_cost it)) typed)).
  { destruct (dietary_restrictions (req_preferences request)); [exact H |].
    now apply filter_In in H. }
  apply filter_In in H2. destruct H2 as [H2 Hw]. auto.
Qed.

Lemma update_scores_items (recommendations : list RecommendationResponse)
    (adjusted : list Q) :
  map item (update_scores recommendations adjusted) = map item recommendations.
Proof.
  revert adjusted.
  induction recommendations as [| r rs IH]; intros [| a adjusted]; simpl;
    try reflexivity.
  now rewrite IH.
Qed.

Lemma hybrid_items content similar fmt (e : RecommendationEngine) (profile : UserProfile)
    (candidates : list RecommendationItem) (request : RecommendationRequest) (now : Z) :
  map item (_generate_hybrid_recommendations content similar fmt e profile candidates
              request now)
  = candidates.
Proof.
  unfold _generate_hybrid_recommendations. rewrite map_map. simpl. apply map_id.
Qed.

(** The items of the returned responses are candidates of the request. *)
Lemma recommended_items_are_candidates dist content similar fmt
    (e : RecommendationEngine) (request : RecommendationRequest) (now : Z)
    (r : RecommendationResponse) :
  In r (snd (generate_recommendations dist content similar fmt e request now)) ->
  exists e', available_items e' = available_items e /\
             In (item r) (_filter_candidate_items e' request).
Proof.
  unfold generate_recommendations, _get_or_create_user_profile.
  destruct (Learning.learn_from_interactions _ _ _ _) as [svc returned].
  set (e2 := set_preference_service _ svc).
  destruct (_filter_candidate_items e2 request) as [| c cs] eqn:Ec; [intros [] |].
  simpl. intros H. exists e2. split; [reflexivity |]. rewrite Ec.
  apply DictFacts.take_In, DictFacts.sorted_desc_In in H.
  apply (in_map item) in H.
  set (recs := _generate_hybrid_recommendations content similar fmt e2 _ (c :: cs) request now)
    in *.
  assert (Hitems : map item recs = c :: cs) by apply hybrid_items.
  destruct (req_contextual_factors request).
  - now rewrite Hitems in H.
  - unfold _apply_contextual_adjustments in H.
    now rewrite update_scores_items, Hitems in H.
Qed.

(** C7.  For a request whose budget tier is low, every candidate costs at
    most 100: a catalog item that costs more (800, say) is not a candidate,
    and no returned response carries it. *)
Theorem low_budget_excludes_costly dist content similar fmt
    (e : RecommendationEngine) (request : RecommendationRequest) (now : Z) :
  budget_range (req_preferences request) = LOW ->
  Forall (fun it => estimated_cost it <= 100) (_filter_candidate_items e request) /\
  (forall it, 100 < estimated_cost it -> ~ In it (_filter_candidate_items e request)) /\
  Forall (fun r => estimated_cost (item r) <= 100)
         (snd (generate_recommendations dist content similar fmt e request now)).
Proof.
  intros Hlow.
  assert (Hcost : forall e' it, In it (_filter_candidate_items e' request) ->
                                estimated_cost it <= 100).
  { intros e' it H. apply candidates_within_budget in H. destruct H as [_ H].
    rewrite Hlow in H. unfold within in H. simpl in H.
    apply andb_true_iff in H. destruct H as [_ H]. now apply Qle_bool_iff in H. }
  split; [| split].
  - apply List.Forall_forall. apply Hcost.
  - intros it Hit Hin. apply Hcost in Hin. lra.
  - apply List.Forall_forall. intros r Hr.
    apply recommended_items_are_candidates in Hr. destruct Hr as [e' [_ Hin]].
    now apply Hcost in Hin.
Qed.

Lemma low_budget_excludes_costly_witness :
  let request := Scenario.request "u" Scenario.low_budget_preferences in
  budget_range (req_preferences request) = LOW /\
  Forall (fun it => estimated_cost it <= 100)
         (_filter_candidate_items Scenario.fresh_engine request) /\
  (forall it, 100 < estimated_cost it ->
              ~ In it (_filter_candidate_items Scenario.fresh_engine request)) /\
  Forall (fun r => estimated_cost (item r) <= 100)
         (snd (generate_recommendations Scenario.no_distance Scenario.no_content
                 Scenario.no_similar_items Scenario.seconds Scenario.fresh_engine
                 request 0)).
Proof.
  split; [reflexivity |].
  apply (low_budget_excludes_costly Scenario.no_distance Scenario.no_content
           Scenario.no_similar_items Scenario.seconds Scenario.fresh_engine
           (Scenario.request "u" Scenario.low_budget_preferences) 0).
  reflexivity.
Defined.

(** The restaurant that costs 800 is in the catalog of the fresh engine; a
    low-budget request is answered with the peak alone. *)
Example costly_restaurant_is_dropped :
  let request := Scenario.request "u" Scenario.low_budget_preferences in
  map item_id (available_items Scenario.fresh_engine)
  = ["outdoor_item"; "expensive_restaurant"] /\
  map item_id (_filter_candidate_items Scenario.fresh_engine request) = ["outdoor_item"] /\
  map (fun r => item_id (item r))
      (snd (generate_recommendations Scenario.no_distance Scenario.no_content
              Scenario.no_similar_items Scenario.seconds Scenario.fresh_engine
              request 0))
  = ["outdoor_item"].
Proof. vm_compute. repeat split. Qed.

Lemma find_unknown_id (recommendation_id : string) (recs : list RecommendationResponse) :
  Forall (fun r => rec_id r <> recommendation_id) recs ->
  List.find (fun r => String.eqb (rec_id r) recommendation_id) recs = None.
Proof.
  induction 1 as [| r recs Hr _ IH]; simpl; [reflexivity |].
  destruct (String.eqb_spec (rec_id r) recommendation_id); [contradiction | exact IH].
Qed.

(** C8.  When no stored recommendation of the user carries the given id,
    [process_feedback] returns without raising; the engine afterwards is
    the engine before with one more warning in the log: the learner (and
    with it the user's learned-preference map), the profiles with their
    interaction histories, the collaborative service and the stored
    recommendations are the same. *)
Theorem feedback_on_unknown_recommendation recompute
    (e : RecommendationEngine) (user recommendation_id : string) (rating : Q)
    (feedback : option string) (now : Z) :
  Forall (fun r => rec_id r <> recommendation_id)
         (default [] (recommendation_history e !! user)) ->
  let '(e', outcome) :=
    process_feedback recompute e user recommendation_id rating feedback now in
  outcome = Ok tt /\
  e' = logged e WARNING
         ("Recommendation " ++ recommendation_id ++ " not found for user " ++ user) /\
  preference_service e' = preference_service e /\
  Learning.get_learned_preferences (preference_service e') user
    = Learning.get_learned_preferences (preference_service e) user /\
  user_profiles e' = user_profiles e /\
  collaborative_service e' = collaborative_service e /\
  recommendation_history e' = recommendation_history e.
Proof.
  intros H. unfold process_feedback.
  rewrite (find_unknown_id _ _ H). simpl. repeat split; reflexivity.
Qed.

Lemma feedback_on_unknown_recommendation_witness :
  Forall (fun r => rec_id r <> "nonexistent_rec")
         (default [] (recommendation_history Scenario.engine_with_user !! "test_user")) /\
  let '(e', outcome) :=
    process_feedback Scenario.no_recompute Scenario.engine_with_user
      "test_user" "nonexistent_rec" 3 (Some "Test feedback") 0 in
  outcome = Ok tt /\
  e' = logged Scenario.engine_with_user WARNING
         ("Recommendation " ++ "nonexistent_rec" ++ " not found for user " ++ "test_user") /\
  preference_service e' = preference_service Scenario.engine_with_user /\
  Learning.get_learned_preferences (preference_service e') "test_user"
    = Learning.get_learned_preferences
        (preference_service Scenario.engine_with_user) "test_user" /\
  user_profiles e' = user_profiles Scenario.engine_with_user /\
  collaborative_service e' = collaborative_service Scenario.engine_with_user /\
  recommendation_history e' = recommendation_history Scenario.engine_with_user.
Proof.
  assert (H : Forall (fun r => rec_id r <> "nonexistent_rec")
                (default [] (recommendation_history Scenario.engine_with_user
                               !! "test_user"))).
  { vm_compute. repeat constructor. discriminate. }
  split; [exact H |].
  exact (feedback_on_unknown_recommendation Scenario.no_recompute
           Scenario.engine_with_user "test_user" "nonexistent_rec" 3
           (Some "Test feedback") 0 H).
Defined.

(** Feedback on the stored recommendation, by contrast, reaches the
    learner, the profile and the collaborative service. *)
Example feedback_on_known_recommendation :
  let '(e', outcome) :=
    process_feedback Scenario.no_recompute Scenario.engine_with_user
      "test_user" "rec_outdoor_item_0" 5 None 0 in
  outcome = Ok tt /\
  preference_service e' <> preference_service Scenario.engine_with_user /\
  (interaction_history <$> user_profiles e' !! "test_user")
    = Some [ {| ui_user_id := "test_user"; ui_item_id := "outdoor_item";
                interaction_type := "rate"; ui_rating := Some 5; timestamp := 0;
                context := {[ "recommendation_id" := "rec_outdoor_item_0" ]} |} ] /\
  length (Collaborative.user_profiles (collaborative_service e')) = 1%nat.
Proof.
  vm_compute. repeat split. discriminate.
Qed.

(** C10.  For a user id without a profile, [update_user_preferences]
    returns without raising and the engine afterwards is the engine before:
    no profile is created, and the profile map, the learner and the log are
    untouched, whatever fields are passed. *)
Theorem update_preferences_of_unknown_user
    (e : RecommendationEngine) (user : string) (fields : PreferenceFields) (now : Z) :
  user_profiles e !! user = None ->
  update_user_preferences e user fields now = (e, Ok tt).
Proof.
  intros H. unfold update_user_preferences. now rewrite H.
Qed.

Lemma update_preferences_of_unknown_user_witness :
  let fields :=
    {| pf_interests := Some ["indoor"; "cultural"]; pf_budget_range := Some "high";
       pf_group_type := Some "family"; pf_dietary_restrictions := None;
       pf_activity_level := Some "no such level"; pf_weather_preferences := None |} in
  user_profiles Scenario.engine_with_user !! "stranger" = None /\
  update_user_preferences Scenario.engine_with_user "stranger" fields 0
  = (Scenario.engine_with_user, Ok tt).
Proof.
  split; [reflexivity |].
  apply (update_preferences_of_unknown_user Scenario.engine_with_user "stranger").
  reflexivity.
Defined.

(** For the known user the same call replaces the preferences, or raises
    on a field outside its enumeration. *)
Example update_preferences_of_known_user :
  let good :=
    {| pf_interests := Some ["indoor"; "cultural"]; pf_budget_range := Some "high";
       pf_group_type := Some "family"; pf_dietary_restrictions := None;
       pf_activity_level := None; pf_weather_preferences := None |} in
  let bad :=
    {| pf_interests := None; pf_budget_range := Some "cheap";
       pf_group_type := None; pf_dietary_restrictions := None;
       pf_activity_level := None; pf_weather_preferences := None |} in
  ((fun p => budget_range (preferences p)) <$>
     user_profiles (fst (update_user_preferences Scenario.engine_with_user
                           "test_user" good 7)) !! "test_user") = Some HIGH /\
  snd (update_user_preferences Scenario.engine_with_user "test_user" bad 7)
  = Raise ValueError.
Proof. vm_compute. split; reflexivity. Qed.

End EngineFacts.

(** * Further properties of the services *)

(** ** Sorting and ordered dictionaries *)
Module OrderFacts.
Import Spec.
Local Open Scope Q_scope.

Lemma insert_desc_descending {A} (key : A -> Q) (x : A) (l : list A) :
  descending key l -> descending key (Dict.insert_desc key x l).
Proof.
  unfold descending. induction 1 as [| y l Hl IH Hy]; simpl.
  - constructor; constructor.
  - destruct (Py.Qltb (key x) (key y)) eqn:E.
    + apply Qltb_lt in E. constructor; [exact IH |].
      apply List.Forall_forall. intros z Hz.
      apply DictFacts.insert_desc_In in Hz. destruct Hz as [-> | Hz]; [lra |].
      rewrite List.Forall_forall in Hy. now apply Hy.
    + apply Qltb_ge in E. constructor; [now constructor |].
      constructor; [exact E |].
      rewrite List.Forall_forall in *. intros z Hz. specialize (Hy z Hz). simpl in Hy. lra.
Qed.

(** The sort returns its elements in descending order of the key. *)
Lemma sorted_desc_descending {A} (key : A -> Q) (l : list A) :
  descending key (Dict.sorted_desc key l).
Proof.
  induction l as [| x l IH]; simpl; [constructor |].
  now apply insert_desc_descending.
Qed.

Lemma take_descending {A} (key : A -> Q) (n : nat) (l : list A) :
  descending key l -> descending key (take n l).
Proof.
  unfold descending. intros H. revert n.
  induction H as [| x l Hl IH Hx]; intros [| n]; simpl; try constructor.
  - apply IH.
  - rewrite List.Forall_forall in *. intros z Hz. apply Hx.
    now apply DictFacts.take_In in Hz.
Qed.

(** A list that is already in descending order, ties included, comes back
    from the sort as it is: equal keys keep their original order. *)
Lemma sorted_desc_stable {A} (key : A -> Q) (l : list A) :
  descending key l -> Dict.sorted_desc key l = l.
Proof.
  unfold descending. induction 1 as [| x l Hl IH Hx]; simpl; [reflexivity |].
  rewrite IH. destruct l as [| y l']; simpl; [reflexivity |].
  apply List.Forall_cons_iff in Hx. destruct Hx as [Hxy _].
  apply Qltb_ge in Hxy. now rewrite Hxy.
Qed.

(** In a descending list cut in two, no element of the second part has a
    larger key than an element of the first. *)
Lemma descending_split {A} (key : A -> Q) (n : nat) (l : list A) (a b : A) :
  descending key l -> In a (take n l) -> In b (drop n l) -> key b <= key a.
Proof.
  unfold descending. intros H. revert n.
  induction H as [| x l Hl IH Hx]; intros [| n]; simpl; try tauto.
  intros [<- | Ha] Hb.
  - rewrite List.Forall_forall in Hx. apply Hx.
    rewrite <- (take_drop n l). apply in_or_app. now right.
  - now apply (IH n).
Qed.

Lemma length_sorted_desc {A} (key : A -> Q) (l : list A) :
  length (Dict.sorted_desc key l) = length l.
Proof.
  assert (H : forall x s, length (Dict.insert_desc key x s) = S (length s)).
  { intros x s. induction s as [| y s IH]; simpl; [reflexivity |].
    destruct (Py.Qltb (key x) (key y)); simpl; [now rewrite IH | reflexivity]. }
  induction l as [| x l IH]; simpl; [reflexivity | now rewrite H, IH].
Qed.

Lemma get_set_eq {V} (k : string) (v : V) (d : list (string * V)) :
  Dict.get k (Dict.set k v d) = Some v.
Proof.
  induction d as [| [k' v'] d IH]; simpl.
  - now rewrite String.eqb_refl.
  - destruct (String.eqb k' k) eqn:E; simpl.
    + now rewrite String.eqb_refl.
    + now rewrite E.
Qed.

Lemma get_set_ne {V} (k k' : string) (v : V) (d : list (string * V)) :
  k <> k' -> Dict.get k' (Dict.set k v d) = Dict.get k' d.
Proof.
  intros Hne. induction d as [| [k0 v0] d IH]; simpl.
  - destruct (String.eqb_spec k k'); [contradiction | reflexivity].
  - destruct (String.eqb_spec k0 k) as [-> | Hk0]; simpl.
    + destruct (String.eqb_spec k k'); [contradiction | reflexivity].
    + destruct (String.eqb k0 k'); [reflexivity | exact IH].
Qed.

End OrderFacts.

(** ** The context adjuster: composition and malformed payloads *)
Module ContextualEdges.
Import Py Contextual Spec.
Local Open Scope Q_scope.

Lemma Forall2_Qeq_refl (l : list Q) : Forall2 Qeq l l.
Proof. induction l; constructor; [reflexivity | assumption]. Qed.

(** A guarded loop whose body, when it returns, returns the score it was
    given leaves every score as it was. *)
Lemma loop_neutral {A} (g : A * Q -> result Q) (items : list A) (scores : list Q) :
  length items = length scores ->
  (forall it s r, g (it, s) = Ok r -> r == s) ->
  Forall2 Qeq (try_except (for_each g (zip items scores)) scores) scores.
Proof.
  intros Hlen Hg.
  destruct (for_each g (zip items scores)) as [rs | e] eqn:E; simpl;
    [| apply Forall2_Qeq_refl].
  revert scores rs Hlen E.
  induction items as [| it items IH]; intros [| s scores] rs Hlen; simpl;
    try discriminate.
  - intros [= <-]. constructor.
  - destruct (g (it, s)) as [r |] eqn:Eg; [| discriminate].
    destruct (for_each g (zip items scores)) as [rs' |] eqn:E'; [| discriminate].
    intros [= <-].
    constructor; [now apply (Hg it s) | apply IH; [simpl in Hlen; lia | exact E']].
Qed.

Lemma weighted_zero_confidence (score a conf : Q) : conf == 0 -> weighted score a conf == score.
Proof. intros H. unfold weighted. rewrite H. ring. Qed.

Lemma zero_confidence_factor dist items prefs scores f :
  length items = length scores -> confidence f == 0 ->
  Forall2 Qeq (apply_factor dist items prefs scores f) scores.
Proof.
  intros Hlen Hc. unfold apply_factor. destruct (cf_type f).
  - apply loop_neutral; [exact Hlen |]. intros it s r. simpl.
    destruct (weather_adjustment _ _ _ _ _); simpl; [| discriminate].
    intros [= <-]. now apply weighted_zero_confidence.
  - apply loop_neutral; [exact Hlen |]. intros it s r [= <-].
    now apply weighted_zero_confidence.
  - unfold _apply_time_context.
    destruct (negb (truthy _)); [apply Forall2_Qeq_refl |].
    destruct (match get (cf_value f) "current_time" VNone with
              | VStr s => int (split_head ":" s)
              | VTime h _ => Ok h
              | _ => Raise AttributeError
              end) as [hour | e]; [| apply Forall2_Qeq_refl].
    simpl. apply loop_neutral; [exact Hlen |]. intros it s r [= <-].
    now apply weighted_zero_confidence.
  - unfold _apply_location_context.
    destruct (cf_value f !! "latitude") as [user_lat |]; [| apply Forall2_Qeq_refl].
    destruct (getitem (cf_value f) "longitude") as [user_lon | e];
      [| apply Forall2_Qeq_refl].
    simpl. apply loop_neutral; [exact Hlen |]. intros it s r.
    destruct (as_float user_lat); simpl; [| discriminate].
    destruct (as_float user_lon); simpl; [| discriminate].
    intros [= <-]. now apply weighted_zero_confidence.
  - apply loop_neutral; [exact Hlen |]. intros it s r [= <-].
    now apply weighted_zero_confidence.
Qed.

(** A factor of confidence 0 changes no score, whatever its kind and
    payload. *)
Theorem zero_confidence_is_neutral dist (items : list RecommendationItem)
    (scores : list Q) (f : ContextualFactor) (prefs : UserPreferences) :
  length items = length scores -> confidence f == 0 ->
  Forall2 Qeq (apply_contextual_scoring dist items scores [f] prefs) scores.
Proof.
  intros Hlen Hc.
  rewrite ContextualFacts.apply_contextual_scoring_fold by exact Hlen.
  simpl. now apply zero_confidence_factor.
Qed.

Lemma zero_confidence_is_neutral_witness :
  length [Scenario.outdoor_item; Scenario.indoor_item] = length [0.5; 0.7] /\
  confidence Scenario.doubtful_storm == 0 /\
  Forall2 Qeq
    (apply_contextual_scoring Scenario.no_distance
       [Scenario.outdoor_item; Scenario.indoor_item] [0.5; 0.7]
       [Scenario.doubtful_storm] Scenario.couple_preferences)
    [0.5; 0.7].
Proof.
  split; [reflexivity |]. split; [reflexivity |].
  apply (zero_confidence_is_neutral Scenario.no_distance
           [Scenario.outdoor_item; Scenario.indoor_item] [0.5; 0.7]
           Scenario.doubtful_storm Scenario.couple_preferences); reflexivity.
Defined.

(** The factors act one after the other: scoring under a list of factors
    followed by a second list is scoring under the second list from the
    scores obtained under the first. *)
Theorem factors_compose_in_order dist (items : list RecommendationItem)
    (scores : list Q) (fs1 fs2 : list ContextualFactor) (prefs : UserPreferences) :
  length items = length scores ->
  apply_contextual_scoring dist items scores (fs1 ++ fs2) prefs
  = apply_contextual_scoring dist items
      (apply_contextual_scoring dist items scores fs1 prefs) fs2 prefs.
Proof.
  intros Hlen.
  rewrite (ContextualFacts.apply_contextual_scoring_fold dist items
             (apply_contextual_scoring dist items scores fs1 prefs))
    by (now rewrite ContextualFacts.apply_contextual_scoring_length).
  rewrite !ContextualFacts.apply_contextual_scoring_fold by exact Hlen.
  apply fold_left_app.
Qed.

Lemma factors_compose_in_order_witness :
  length [Scenario.outdoor_item; Scenario.indoor_item] = length [0.5; 0.5] /\
  apply_contextual_scoring Scenario.no_distance
    [Scenario.outdoor_item; Scenario.indoor_item] [0.5; 0.5]
    ([Scenario.sunny_25; Scenario.morning] ++ [Scenario.crowd_without_level])
    Scenario.couple_preferences
  = apply_contextual_scoring Scenario.no_distance
      [Scenario.outdoor_item; Scenario.indoor_item]
      (apply_contextual_scoring Scenario.no_distance
         [Scenario.outdoor_item; Scenario.indoor_item] [0.5; 0.5]
         [Scenario.sunny_25; Scenario.morning] Scenario.couple_preferences)
      [Scenario.crowd_without_level] Scenario.couple_preferences.
Proof.
  split; [reflexivity |].
  apply (factors_compose_in_order Scenario.no_distance
           [Scenario.outdoor_item; Scenario.indoor_item] [0.5; 0.5]
           [Scenario.sunny_25; Scenario.morning] [Scenario.crowd_without_level]
           Scenario.couple_preferences).
  reflexivity.
Defined.

(** Lists of different lengths are refused: the base scores come back as
    they were given, whatever the factors. *)
Theorem mismatched_lengths_return_base dist (items : list RecommendationItem)
    (base_scores : list Q) (fs : list ContextualFactor) (prefs : UserPreferences) :
  length items <> length base_scores ->
  apply_contextual_scoring dist items base_scores fs prefs = base_scores.
Proof.
  intros H. unfold apply_contextual_scoring.
  apply Nat.eqb_neq in H. now rewrite H.
Qed.

Lemma mismatched_lengths_return_base_witness :
  length [Scenario.outdoor_item] <> length [0.5; 0.7] /\
  apply_contextual_scoring Scenario.no_distance [Scenario.outdoor_item] [0.5; 0.7]
    [Scenario.sunny_25] Scenario.couple_preferences = [0.5; 0.7].
Proof.
  split; [discriminate |].
  apply (mismatched_lengths_return_base Scenario.no_distance [Scenario.outdoor_item]
           [0.5; 0.7] [Scenario.sunny_25] Scenario.couple_preferences).
  discriminate.
Defined.

Lemma for_each_ext_in {A B} (f g : A -> result B) (l : list A) :
  (forall x, In x l -> f x = g x) -> for_each f l = for_each g l.
Proof.
  induction l as [| a l IH]; simpl; intros H; [reflexivity |].
  rewrite (H a) by now left. rewrite IH; [reflexivity |].
  intros x Hx. apply H. now right.
Qed.

Lemma in_zip_fst {A B} (a : A) (b : B) (l1 : list A) (l2 : list B) :
  In (a, b) (zip l1 l2) -> In a l1.
Proof.
  revert l2. induction l1 as [| x l1 IH]; intros [| y l2]; simpl; try tauto.
  intros [[= -> _] | H]; [now left | right; now apply (IH l2)].
Qed.

(** The weather condition only reaches weather-dependent items: when no
    item is weather-dependent, replacing the condition of the factor by any
    value changes no score. *)
Theorem condition_reaches_dependent_items_only (items : list RecommendationItem)
    (scores : list Q) (f : ContextualFactor) (prefs : UserPreferences) (v : value) :
  Forall (fun it => weather_dependent it = false) items ->
  _apply_weather_context items scores (with_entry f "condition" v) prefs
  = _apply_weather_context items scores f prefs.
Proof.
  intros Hdep. unfold _apply_weather_context.
  rewrite ContextualFacts.get_entry_eq, !ContextualFacts.get_entry_ne by discriminate.
  f_equal. apply for_each_ext_in. intros [it s] Hin.
  apply in_zip_fst in Hin. rewrite List.Forall_forall in Hdep. specialize (Hdep it Hin).
  unfold weather_adjustment. now rewrite Hdep.
Qed.

Lemma condition_reaches_dependent_items_only_witness :
  Forall (fun it => weather_dependent it = false)
         [Scenario.indoor_item; Scenario.expensive_restaurant] /\
  _apply_weather_context [Scenario.indoor_item; Scenario.expensive_restaurant] [0.5; 0.6]
    (with_entry Scenario.sunny_25 "condition" (VStr "stormy")) Scenario.couple_preferences
  = _apply_weather_context [Scenario.indoor_item; Scenario.expensive_restaurant] [0.5; 0.6]
      Scenario.sunny_25 Scenario.couple_preferences.
Proof.
  assert (H : Forall (fun it => weather_dependent it = false)
                     [Scenario.indoor_item; Scenario.expensive_restaurant])
    by (repeat constructor).
  split; [exact H |].
  exact (condition_reaches_dependent_items_only
           [Scenario.indoor_item; Scenario.expensive_restaurant] [0.5; 0.6]
           Scenario.sunny_25 Scenario.couple_preferences (VStr "stormy") H).
Defined.

Lemma distance_band_monotone (d1 d2 : Q) :
  d1 <= d2 -> distance_band d2 <= distance_band d1.
Proof.
  intros H. unfold distance_band.
  repeat match goal with
         | |- context [Qltb ?a ?b] =>
             let E := fresh "E" in
             destruct (Qltb a b) eqn:E;
             [apply Qltb_lt in E | apply Qltb_ge in E]
         end; lra.
Qed.

(** Under a location factor with numeric coordinates and a non-negative
    confidence, of two items with the same non-negative score the one
    nearer to the user never ends below the farther one. *)
Theorem nearer_item_never_scores_lower dist (f : ContextualFactor) (lat lon : Q)
    (i1 i2 : RecommendationItem) (s : Q) :
  cf_value f !! "latitude" = Some (VNum lat) ->
  cf_value f !! "longitude" = Some (VNum lon) ->
  0 <= s -> 0 <= confidence f ->
  dist lat lon (latitude (location i1)) (longitude (location i1))
  <= dist lat lon (latitude (location i2)) (longitude (location i2)) ->
  exists r1 r2,
    _apply_location_context dist [i1; i2] [s; s] f = [r1; r2] /\ r2 <= r1.
Proof.
  intros Hlat Hlon Hs Hc Hd.
  unfold _apply_location_context, getitem. rewrite Hlat, Hlon. simpl.
  eexists _, _. split; [reflexivity |].
  apply distance_band_monotone in Hd. unfold weighted.
  set (b1 := distance_band (dist lat lon (latitude (location i1))
                                 (longitude (location i1)))) in *.
  set (b2 := distance_band (dist lat lon (latitude (location i2))
                                 (longitude (location i2)))) in *.
  set (c := confidence f) in *.
  assert (H1 : 0 <= (b1 - b2) * c) by (apply Qmult_le_0_compat; lra).
  assert (H2 : 0 <= s * ((b1 - b2) * c)) by (apply Qmult_le_0_compat; lra).
  assert (H3 : s * (1.0 + (b1 - 1.0) * c) - s * (1.0 + (b2 - 1.0) * c)
               == s * ((b1 - b2) * c)) by ring.
  lra.
Qed.

Lemma nearer_item_never_scores_lower_witness :
  cf_value Scenario.near_peak !! "latitude" = Some (VNum 22.2780) /\
  cf_value Scenario.near_peak !! "longitude" = Some (VNum 114.1750) /\
  0 <= 0.5 /\ 0 <= confidence Scenario.near_peak /\
  Scenario.grid_distance 22.2780 114.1750
    (latitude (location Scenario.outdoor_item)) (longitude (location Scenario.outdoor_item))
  <= Scenario.grid_distance 22.2780 114.1750
       (latitude (location Scenario.far_item)) (longitude (location Scenario.far_item)) /\
  exists r1 r2,
    _apply_location_context Scenario.grid_distance
      [Scenario.outdoor_item; Scenario.far_item] [0.5; 0.5] Scenario.near_peak = [r1; r2] /\
    r2 <= r1.
Proof.
  assert (Hd : Scenario.grid_distance 22.2780 114.1750
                 (latitude (location Scenario.outdoor_item))
                 (longitude (location Scenario.outdoor_item))
               <= Scenario.grid_distance 22.2780 114.1750
                    (latitude (location Scenario.far_item))
                    (longitude (location Scenario.far_item)))
    by (vm_compute; discriminate).
  assert (H0 : 0 <= 0.5) by (vm_compute; discriminate).
  assert (Hc : 0 <= confidence Scenario.near_peak) by (vm_compute; discriminate).
  repeat (split; [first [reflexivity | assumption] |]).
  exact (nearer_item_never_scores_lower Scenario.grid_distance Scenario.near_peak
           22.2780 114.1750 Scenario.outdoor_item Scenario.far_item 0.5
           eq_refl eq_refl H0 Hc Hd).
Defined.

(** A time factor whose clock cannot be read (absent, [None], a number, or
    ASCII text without an integer hour) leaves the scores as they were. *)
Theorem unreadable_time_is_ignored (items : list RecommendationItem) (scores : list Q)
    (f : ContextualFactor) :
  unreadable_time (cf_value f) -> _apply_time_context items scores f = scores.
Proof.
  unfold unreadable_time, _apply_time_context, get.
  destruct (cf_value f !! "current_time") as [[| q | s | h m] |]; simpl;
    try reflexivity; try contradiction.
  - intros _. destruct (Qeq_bool q 0); reflexivity.
  - intros [_ H]. destruct (String.eqb s ""); simpl; [reflexivity | now rewrite H].
Qed.

Lemma unreadable_time_is_ignored_witness :
  unreadable_time (cf_value Scenario.garbled_time) /\
  _apply_time_context [Scenario.outdoor_item; Scenario.indoor_item] [0.5; 0.7]
    Scenario.garbled_time = [0.5; 0.7].
Proof.
  split; [split; reflexivity |].
  apply (unreadable_time_is_ignored [Scenario.outdoor_item; Scenario.indoor_item]
           [0.5; 0.7] Scenario.garbled_time).
  split; reflexivity.
Defined.

(** A location factor needs both coordinates: without a longitude the
    scores come back as they were, even when the latitude is there. *)
Theorem location_needs_longitude dist (items : list RecommendationItem)
    (scores : list Q) (f : ContextualFactor) :
  cf_value f !! "longitude" = None ->
  _apply_location_context dist items scores f = scores.
Proof.
  intros H. unfold _apply_location_context, getitem. rewrite H.
  destruct (cf_value f !! "latitude"); reflexivity.
Qed.

Lemma location_needs_longitude_witness :
  cf_value Scenario.latitude_only !! "longitude" = None /\
  _apply_location_context Scenario.grid_distance
    [Scenario.outdoor_item; Scenario.far_item] [0.5; 0.5] Scenario.latitude_only
  = [0.5; 0.5].
Proof.
  split; [reflexivity |].
  apply (location_needs_longitude Scenario.grid_distance
           [Scenario.outdoor_item; Scenario.far_item] [0.5; 0.5] Scenario.latitude_only).
  reflexivity.
Defined.

Lemma factor_explanations_short str (it : RecommendationItem) (change : Q)
    (f : ContextualFactor) (r : list string) :
  factor_explanations str it change f = Ok r -> (length r <= 1)%nat.
Proof.
  unfold factor_explanations. destruct (cf_type f).
  - destruct (Qltb 0.1 change); [intros [= <-]; simpl; lia |].
    destruct (Qltb change (-0.1)); intros [= <-]; simpl; lia.
  - destruct (in_list _ _ && _)%bool; [intros [= <-]; simpl; lia |].
    destruct (in_list _ _); intros [= <-]; simpl; lia.
  - destruct (truthy _); [| intros [= <-]; simpl; lia].
    destruct (match get (cf_value f) "current_time" VNone with
              | VStr s => int (split_head ":" s)
              | VTime h _ => Ok h
              | _ => Raise AttributeError
              end); simpl; [| discriminate].
    destruct (Qltb 0.1 change); intros [= <-]; simpl; lia.
  - destruct (Qltb 0.1 change); [intros [= <-]; simpl; lia |].
    destruct (Qltb change (-0.1)); intros [= <-]; simpl; lia.
  - intros [= <-]. simpl. lia.
Qed.

Lemma concat_short {A B} (f : A -> result (list B)) (l : list A) (rs : list (list B)) :
  (forall x r, f x = Ok r -> (length r <= 1)%nat) ->
  for_each f l = Ok rs -> (length (concat rs) <= length l)%nat.
Proof.
  intros Hf. revert rs. induction l as [| a l IH]; simpl; intros rs.
  - intros [= <-]. simpl. lia.
  - destruct (f a) as [r |] eqn:Ea; [| discriminate].
    destruct (for_each f l) as [rs' |]; [| discriminate].
    intros [= <-]. simpl. rewrite length_app.
    specialize (Hf a r Ea). specialize (IH rs' eq_refl). lia.
Qed.

(** The explanation generator returns at most one sentence per factor. *)
Theorem explanations_at_most_one_per_factor str (it : RecommendationItem)
    (fs : list ContextualFactor) (change : Q) :
  (length (generate_contextual_explanations str it fs change) <= length fs)%nat.
Proof.
  unfold generate_contextual_explanations.
  destruct (for_each (factor_explanations str it change) fs) as [per |] eqn:E; simpl.
  - apply (concat_short _ _ _ (factor_explanations_short str it change) E).
  - lia.
Qed.

Lemma for_each_raises {A B} (f : A -> result B) (l : list A) (x : A) (e : exn) :
  In x l -> f x = Raise e -> exists e', for_each f l = Raise e'.
Proof.
  intros Hin Hx. induction l as [| a l IH]; simpl; [destruct Hin |].
  destruct Hin as [-> | Hin].
  - rewrite Hx. now exists e.
  - destruct (f a) as [b | e0]; [| now exists e0].
    destruct (IH Hin) as [e' ->]. now exists e'.
Qed.

(** One time factor whose clock text, ASCII before its colon, holds no
    integer hour silences the generator: no explanation is returned for
    any of the factors. *)
Theorem garbled_clock_silences_explanations str (it : RecommendationItem)
    (fs : list ContextualFactor) (change : Q) (f : ContextualFactor) (s : string) :
  In f fs -> cf_type f = TIME ->
  cf_value f !! "current_time" = Some (VStr s) -> s <> "" ->
  isascii (split_head ":" s) = true ->
  int (split_head ":" s) = Raise ValueError ->
  generate_contextual_explanations str it fs change = [].
Proof.
  intros Hin Htype Hs Hne _ Hint.
  assert (Hf : factor_explanations str it change f = Raise ValueError).
  { unfold factor_explanations, get. rewrite Htype, Hs. simpl.
    destruct (String.eqb_spec s ""); [contradiction |]. simpl. now rewrite Hint. }
  unfold generate_contextual_explanations.
  destruct (for_each_raises _ fs f _ Hin Hf) as [e' ->]. reflexivity.
Qed.

Lemma garbled_clock_silences_explanations_witness :
  In Scenario.garbled_time [Scenario.sunny_25; Scenario.garbled_time] /\
  cf_type Scenario.garbled_time = TIME /\
  cf_value Scenario.garbled_time !! "current_time" = Some (VStr "noon") /\
  "noon" <> "" /\
  isascii (split_head ":" "noon") = true /\
  int (split_head ":" "noon") = Raise ValueError /\
  generate_contextual_explanations Scenario.no_rendering Scenario.outdoor_item
    [Scenario.sunny_25; Scenario.garbled_time] 0.3 = [] /\
  generate_contextual_explanations Scenario.no_rendering Scenario.outdoor_item
    [Scenario.sunny_25] 0.3 = ["Great choice for sunny weather!"].
Proof.
  assert (Hin : In Scenario.garbled_time [Scenario.sunny_25; Scenario.garbled_time])
    by (right; left; reflexivity).
  assert (Hne : "noon" <> "") by discriminate.
  split; [exact Hin |]. split; [reflexivity |]. split; [reflexivity |].
  split; [exact Hne |]. split; [reflexivity |]. split; [reflexivity |].
  split; [| reflexivity].
  exact (garbled_clock_silences_explanations Scenario.no_rendering Scenario.outdoor_item
           [Scenario.sunny_25; Scenario.garbled_time] 0.3 Scenario.garbled_time "noon"
           Hin eq_refl eq_refl Hne eq_refl eq_refl).
Defined.

End ContextualEdges.

(** ** The preference learner: batches, frames and predictions *)
Module LearningInvariants.
Import Py Learning Spec.
Local Open Scope Q_scope.

Lemma base_weight_unit (kind : string) :
  0.1 <= default 0.1 (interaction_weights !! kind) /\
  default 0.1 (interaction_weights !! kind) <= 1.
Proof.
  destruct (interaction_weights !! kind) as [w |] eqn:E; simpl; [| split; lra].
  apply elem_of_list_to_map_2 in E.
  repeat (apply elem_of_cons in E; destruct E as [[= _ ->] | E]; [split; lra |]).
  now apply elem_of_nil in E.
Qed.

(** The learner weighs an interaction between 0 and 1 when its rating, if
    any, lies between 0 and 5; an unrated interaction weighs at least 0.1. *)
Theorem learning_weight_range (interaction : UserInteraction) :
  rating_in_range interaction ->
  0 <= _get_interaction_weight interaction /\ _get_interaction_weight interaction <= 1 /\
  (ui_rating interaction = None -> 0.1 <= _get_interaction_weight interaction).
Proof.
  unfold rating_in_range, _get_interaction_weight.
  pose proof (base_weight_unit (interaction_type interaction)) as [Hlo Hhi].
  set (b := default 0.1 (interaction_weights !! interaction_type interaction)) in *.
  destruct (ui_rating interaction) as [r |].
  - intros [Hr0 Hr5].
    assert (Hq : 0 <= r / 5.0 /\ r / 5.0 <= 1).
    { split; [apply Qle_shift_div_l | apply Qle_shift_div_r]; lra. }
    destruct Hq as [Hq0 Hq1]. set (q := r / 5.0) in *.
    repeat split; [nra | nra | discriminate].
  - intros _. repeat split; lra.
Qed.

Lemma learning_weight_range_witness :
  rating_in_range (Scenario.interaction "test_user" "expensive_restaurant" "rate" (Some 2)) /\
  0 <= _get_interaction_weight
         (Scenario.interaction "test_user" "expensive_restaurant" "rate" (Some 2)) /\
  _get_interaction_weight
    (Scenario.interaction "test_user" "expensive_restaurant" "rate" (Some 2)) <= 1 /\
  (ui_rating (Scenario.interaction "test_user" "expensive_restaurant" "rate" (Some 2))
   = None ->
   0.1 <= _get_interaction_weight
            (Scenario.interaction "test_user" "expensive_restaurant" "rate" (Some 2))).
Proof.
  assert (H : rating_in_range
                (Scenario.interaction "test_user" "expensive_restaurant" "rate" (Some 2)))
    by (split; discriminate).
  split; [exact H |].
  exact (learning_weight_range _ H).
Defined.

(** An empty batch changes no signal: nothing is learned and nothing
    decays; the user is registered with the signals already held, and the
    other users are left alone. *)
Theorem empty_batch_keeps_signals (svc : PreferenceLearningService) (user : string)
    (items : list RecommendationItem) :
  let '(svc', returned) := learn_from_interactions svc user [] items in
  returned = default ∅ (user_learned_preferences svc !! user) /\
  user_learned_preferences svc' !! user
    = Some (default ∅ (user_learned_preferences svc !! user)) /\
  get_learned_preferences svc' user = get_learned_preferences svc user /\
  forall other, other <> user ->
    user_learned_preferences svc' !! other = user_learned_preferences svc !! other.
Proof.
  unfold learn_from_interactions, _apply_temporal_decay. simpl.
  rewrite lookup_insert_eq. simpl.
  repeat split.
  - unfold get_learned_preferences. simpl. rewrite lookup_insert_eq.
    destruct (user_learned_preferences svc !! user); simpl; [reflexivity |].
    apply LearningFacts.normalize_within. intros k v. now rewrite lookup_empty.
  - intros other Hne. now rewrite lookup_insert_ne.
Qed.

Lemma item_lookup_unknown (items : list RecommendationItem) (id : string) :
  id ∉ map item_id items -> item_lookup items !! id = None.
Proof.
  unfold item_lookup.
  assert (H : forall acc : gmap string RecommendationItem,
             acc !! id = None -> id ∉ map item_id items ->
             fold_left (fun m it => <[item_id it := it]> m) items acc !! id = None).
  { induction items as [| it items IH]; simpl; intros acc Hacc Hid; [exact Hacc |].
    apply not_elem_of_cons in Hid. destruct Hid as [Hne Hid].
    apply IH; [| exact Hid]. rewrite lookup_insert_ne; [exact Hacc | congruence]. }
  intros Hid. apply H; [apply lookup_empty | exact Hid].
Qed.

Lemma learn_unknown_items lr (items : list RecommendationItem)
    (interactions : list UserInteraction) (prefs : gmap string Q) :
  Forall (fun x => ui_item_id x ∉ map item_id items) interactions ->
  fold_left (learn_interaction lr (item_lookup items)) interactions prefs = prefs.
Proof.
  intros H. revert prefs. induction H as [| i rest Hi _ IH]; simpl; intros prefs;
    [reflexivity |].
  unfold learn_interaction at 2. rewrite (item_lookup_unknown _ _ Hi). apply IH.
Qed.

(** Interactions with items that the catalog does not hold teach nothing:
    a batch made of such interactions only decays the signals already
    held. *)
Theorem unknown_items_are_skipped (svc : PreferenceLearningService) (user : string)
    (i : UserInteraction) (rest : list UserInteraction)
    (items : list RecommendationItem) :
  Forall (fun x => ui_item_id x ∉ map item_id items) (i :: rest) ->
  snd (learn_from_interactions svc user (i :: rest) items)
  = decay_signal (decay_factor svc) <$> default ∅ (user_learned_preferences svc !! user).
Proof.
  intros H.
  destruct (LearningFacts.learn_from_interactions_decay svc user i rest items) as [-> _].
  now rewrite (learn_unknown_items _ _ _ _ H).
Qed.

Lemma unknown_items_are_skipped_witness :
  let svc := Learning.set_prefs Learning.init "test_user" {[ "budget_low" := 0.8 ]} in
  let i := Scenario.interaction "test_user" "closed_down" "visit" (Some 5) in
  Forall (fun x => ui_item_id x ∉ map item_id [Scenario.expensive_restaurant]) [i] /\
  snd (learn_from_interactions svc "test_user" [i] [Scenario.expensive_restaurant])
  = decay_signal (decay_factor svc)
      <$> default ∅ (user_learned_preferences svc !! "test_user").
Proof.
  assert (H : Forall (fun x => ui_item_id x ∉ map item_id [Scenario.expensive_restaurant])
                [Scenario.interaction "test_user" "closed_down" "visit" (Some 5)]).
  { repeat constructor. simpl. intros Hin.
    apply list_elem_of_In in Hin. destruct Hin as [Hin | []]. discriminate. }
  split; [exact H |].
  exact (unknown_items_are_skipped
           (Learning.set_prefs Learning.init "test_user" {[ "budget_low" := 0.8 ]})
           "test_user" (Scenario.interaction "test_user" "closed_down" "visit" (Some 5))
           [] [Scenario.expensive_restaurant] H).
Defined.

(** After a non-empty batch every signal kept for the user is either 0 or
    at least 0.01: none is negative and none lies strictly between. *)
Theorem signals_after_batch (svc : PreferenceLearningService) (user : string)
    (i : UserInteraction) (rest : list UserInteraction)
    (items : list RecommendationItem) :
  map_Forall (fun _ v => v == 0 \/ 0.01 <= v)
             (snd (learn_from_interactions svc user (i :: rest) items)).
Proof.
  destruct (LearningFacts.learn_from_interactions_decay svc user i rest items) as [-> _].
  intros k v. rewrite lookup_fmap.
  destruct (_ !! k) as [w |]; simpl; [| discriminate].
  intros [= <-]. unfold decay_signal.
  destruct (Qltb (w * decay_factor svc) 0.01) eqn:E.
  - left. reflexivity.
  - right. now apply Qltb_ge in E.
Qed.

(** Learning for one user, from a batch or from feedback, leaves the
    signals of every other user as they were. *)
Theorem learning_is_per_user (svc : PreferenceLearningService) (user other : string)
    (interactions : list UserInteraction) (items : list RecommendationItem)
    (recommendation_id : string) (rating : Q) (feedback : option string)
    (it : RecommendationItem) :
  other <> user ->
  user_learned_preferences (fst (learn_from_interactions svc user interactions items))
    !! other = user_learned_preferences svc !! other /\
  user_learned_preferences
    (update_preferences_from_feedback svc user recommendation_id rating feedback it)
    !! other = user_learned_preferences svc !! other.
Proof.
  intros Hne. split.
  - unfold learn_from_interactions, _apply_temporal_decay. simpl.
    destruct interactions as [| i rest]; simpl.
    + now rewrite lookup_insert_ne.
    + rewrite lookup_insert_eq. simpl. now rewrite !lookup_insert_ne.
  - unfold update_preferences_from_feedback. simpl. now rewrite lookup_insert_ne.
Qed.

Lemma learning_is_per_user_witness :
  let svc := Scenario.after_bad_feedback in
  "ann" <> "test_user" /\
  user_learned_preferences
    (fst (learn_from_interactions
            (Learning.set_prefs svc "ann" {[ "budget_low" := 0.4 ]}) "test_user"
            [Scenario.interaction "test_user" "expensive_restaurant" "rate" (Some 2)]
            [Scenario.expensive_restaurant]))
    !! "ann" = Some {[ "budget_low" := 0.4 ]}.
Proof.
  split; [discriminate |].
  rewrite (proj1 (learning_is_per_user
                    (Learning.set_prefs Scenario.after_bad_feedback "ann"
                       {[ "budget_low" := 0.4 ]})
                    "test_user" "ann"
                    [Scenario.interaction "test_user" "expensive_restaurant" "rate" (Some 2)]
                    [Scenario.expensive_restaurant] "" 0 None
                    Scenario.expensive_restaurant ltac:(discriminate))).
  reflexivity.
Defined.

(** What is read for a user has every magnitude within 1 and the very keys
    of the stored map; an unknown user reads as the empty map. *)
Theorem learned_preferences_are_scaled (svc : PreferenceLearningService) (user : string) :
  map_Forall (fun _ v => Qabs v <= 1) (get_learned_preferences svc user) /\
  dom (get_learned_preferences svc user)
  = dom (default ∅ (user_learned_preferences svc !! user)).
Proof.
  unfold get_learned_preferences.
  destruct (user_learned_preferences svc !! user) as [prefs |]; simpl.
  - split; [intros k v; apply LearningFacts.normalize_bounded |].
    unfold normalize. destruct (Qltb 1.0 _); [apply dom_fmap_L | reflexivity].
  - split; [apply map_Forall_empty | reflexivity].
Qed.

(** The normalisation reverses neither the order of two signals nor the
    sign of one: of two stored signals the one that is not larger is not
    larger afterwards, a signal that is not negative stays so, and a signal
    that is not positive stays so.  (Two distinct signals may read back
    equal once divided, so the order is not stated strictly.) *)
Theorem normalisation_keeps_order (m : gmap string Q) (k1 k2 : string) (v1 v2 : Q) :
  m !! k1 = Some v1 -> m !! k2 = Some v2 ->
  exists w1 w2,
    normalize m !! k1 = Some w1 /\ normalize m !! k2 = Some w2 /\
    (v1 <= v2 -> w1 <= w2) /\ (0 <= v1 -> 0 <= w1) /\ (v1 <= 0 -> w1 <= 0).
Proof.
  intros H1 H2. unfold normalize.
  set (M := if bool_decide (m = ∅) then 1.0 else max_abs (map_to_list m).*2).
  destruct (Qltb 1.0 M) eqn:E.
  - apply Qltb_lt in E. rewrite !lookup_fmap, H1, H2. simpl.
    eexists _, _. split; [reflexivity |]. split; [reflexivity |].
    assert (HM : 0 < M) by lra.
    assert (Hi : 0 < / M) by now apply Qinv_lt_0_compat.
    unfold Qdiv. set (c := / M) in *.
    repeat split; intros; nra.
  - exists v1, v2. rewrite H1, H2. repeat split; auto.
Qed.

Lemma normalisation_keeps_order_witness :
  let m : gmap string Q :=
    <["crowd_low" := 0.1]> (<["budget_low" := -5]> {[ "category_outdoor" := 10 ]}) in
  m !! "budget_low" = Some (-5) /\ m !! "category_outdoor" = Some 10 /\
  exists w1 w2,
    normalize m !! "budget_low" = Some w1 /\ normalize m !! "category_outdoor" = Some w2 /\
    (-5 <= 10 -> w1 <= w2) /\ (0 <= -5 -> 0 <= w1) /\ (-5 <= 0 -> w1 <= 0).
Proof.
  split; [reflexivity |]. split; [reflexivity |].
  exact (normalisation_keeps_order
           (<["crowd_low" := 0.1]> (<["budget_low" := -5]> {[ "category_outdoor" := 10 ]}))
           "budget_low" "category_outdoor" (-5) 10 eq_refl eq_refl).
Defined.

Lemma clamp_range (p : Q) : 1 <= Qmax 1.0 (Qmin 5.0 p) /\ Qmax 1.0 (Qmin 5.0 p) <= 5.
Proof.
  split.
  - apply Qle_trans with 1.0; [lra | apply Q.le_max_l].
  - apply Q.max_lub; [lra |].
    apply Qle_trans with 5.0; [apply Q.le_min_l | lra].
Qed.

(** The predicted rating always lies between 1 and 5, so the
    preference-learning score derived from it lies between 0 and 1. *)
Theorem predicted_rating_range (svc : PreferenceLearningService) (user : string)
    (it : RecommendationItem) (prefs : UserPreferences) :
  1 <= predict_user_rating svc user it prefs /\
  predict_user_rating svc user it prefs <= 5 /\
  0 <= (predict_user_rating svc user it prefs - 1) / 4 /\
  (predict_user_rating svc user it prefs - 1) / 4 <= 1.
Proof.
  assert (H : 1 <= predict_user_rating svc user it prefs /\
              predict_user_rating svc user it prefs <= 5).
  { unfold predict_user_rating.
    destruct (bool_decide _); [split; lra |].
    destruct (category_votes _ _ _) as [p1 t1].
    destruct (_ ++ _)%list as [| a l].
    - destruct (Qltb 0 t1); [| split; lra]. apply clamp_range.
    - destruct (Qltb 0 (t1 + 1.0)); [| split; lra]. apply clamp_range. }
  destruct H as [H1 H5]. repeat split; try assumption.
  - apply Qle_shift_div_l; lra.
  - apply Qle_shift_div_r; lra.
Qed.

Lemma add_explicit_grows (key : string) (m : gmap string Q) (k : string) :
  default 0 (m !! k) <= default 0 (add_explicit key m !! k) /\
  (is_Some (m !! k) -> is_Some (add_explicit key m !! k)).
Proof.
  unfold add_explicit. destruct (decide (key = k)) as [-> | Hne].
  - rewrite lookup_insert_eq. simpl. split; [lra | eauto].
  - rewrite lookup_insert_ne by exact Hne. split; [lra | auto].
Qed.

Lemma interests_grow (interests : list string) (m : gmap string Q) (k : string) :
  let m' := fold_left (fun m interest => add_explicit ("category_" ++ lower interest) m)
                      interests m in
  default 0 (m !! k) <= default 0 (m' !! k) /\ (is_Some (m !! k) -> is_Some (m' !! k)).
Proof.
  revert m. induction interests as [| i interests IH]; simpl; intros m; [split; [lra | auto] |].
  destruct (IH (add_explicit ("category_" ++ lower i) m)) as [H1 H2].
  destruct (add_explicit_grows ("category_" ++ lower i) m k) as [H3 H4].
  split; [lra | auto].
Qed.

(** Merging the explicit preferences only adds to the learned signals:
    every learned key is kept and none of its values decreases, the
    signal of the user's budget tier gains at least 1.5, and the merged
    map is never empty. *)
Theorem explicit_preferences_only_add (prefs : UserPreferences) (learned : gmap string Q) :
  let merged := merge_explicit_and_learned_preferences prefs learned in
  let tier := "budget_" ++ BudgetRange_value (budget_range prefs) in
  (forall k, default 0 (learned !! k) <= default 0 (merged !! k)) /\
  (forall k, is_Some (learned !! k) -> is_Some (merged !! k)) /\
  (exists w, merged !! tier = Some w /\ default 0 (learned !! tier) + 1.5 <= w) /\
  merged <> ∅.
Proof.
  unfold merge_explicit_and_learned_preferences.
  set (m1 := fold_left _ (interests prefs) learned).
  set (tier := "budget_" ++ BudgetRange_value (budget_range prefs)).
  set (act := activity_mapping (activity_level prefs)).
  set (m2 := add_explicit tier m1). simpl.
  assert (G1 : forall k, default 0 (learned !! k) <= default 0 (m1 !! k) /\
                         (is_Some (learned !! k) -> is_Some (m1 !! k)))
    by (intros k; apply interests_grow).
  assert (Hne : act <> tier).
  { subst act tier. destruct (activity_level prefs), (budget_range prefs); discriminate. }
  repeat split.
  - intros k. destruct (G1 k) as [H1 _].
    destruct (add_explicit_grows tier m1 k) as [H2 _].
    destruct (add_explicit_grows act m2 k) as [H3 _]. subst m2. lra.
  - intros k Hk. destruct (G1 k) as [_ H1].
    destruct (add_explicit_grows tier m1 k) as [_ H2].
    destruct (add_explicit_grows act m2 k) as [_ H3]. subst m2. auto.
  - exists (default 0 (m1 !! tier) + 1.5). split.
    + unfold add_explicit at 1. rewrite lookup_insert_ne by exact Hne.
      subst m2. unfold add_explicit. now rewrite lookup_insert_eq.
    + destruct (G1 tier) as [H1 _]. lra.
  - intros Hempty.
    assert (H : add_explicit act m2 !! act = None) by (rewrite Hempty; apply lookup_empty).
    unfold add_explicit in H. rewrite lookup_insert_eq in H. discriminate.
Qed.

Lemma same_signals_trans (p q r : gmap string Q) :
  same_signals p q -> same_signals q r -> same_signals p r.
Proof. intros H1 H2 k. now rewrite (H1 k). Qed.

Lemma add_signal_zero (key : string) (delta : Q) (p : gmap string Q) :
  delta == 0 -> same_signals (add_signal key delta p) p.
Proof.
  intros Hd k. unfold add_signal. destruct (decide (key = k)) as [-> | Hne].
  - rewrite lookup_insert_eq. simpl. rewrite Hd. ring.
  - rewrite lookup_insert_ne by exact Hne. reflexivity.
Qed.

Lemma learn_categories_zero (delta : Q) (cats : list string) (p : gmap string Q) :
  delta == 0 -> same_signals (learn_categories delta cats p) p.
Proof.
  intros Hd. unfold learn_categories. revert p.
  induction cats as [| c cats IH]; simpl; intros p; [intros k; reflexivity |].
  eapply same_signals_trans; [apply IH | now apply add_signal_zero].
Qed.

Lemma scan_keywords_zero (text : string) (delta : Q) (keywords : list (string * string))
    (p : gmap string Q) :
  delta == 0 -> same_signals (scan_keywords text delta keywords p) p.
Proof.
  intros Hd. unfold scan_keywords. revert p.
  induction keywords as [| [kw key] keywords IH]; simpl; intros p; [intros k; reflexivity |].
  eapply same_signals_trans; [apply IH |].
  destruct (contains kw text); [now apply add_signal_zero | intros k; reflexivity].
Qed.

(** Feedback with the neutral rating 3 moves no signal, whatever the item
    and the text: every signal of the user holds the number it held. *)
Theorem neutral_feedback_moves_no_signal (svc : PreferenceLearningService)
    (user recommendation_id : string) (rating : Q) (feedback : option string)
    (it : RecommendationItem) :
  rating == 3 ->
  same_signals
    (default ∅ (user_learned_preferences
                  (update_preferences_from_feedback svc user recommendation_id rating
                     feedback it) !! user))
    (default ∅ (user_learned_preferences svc !! user)).
Proof.
  intros Hr. unfold update_preferences_from_feedback. simpl.
  rewrite lookup_insert_eq. simpl.
  set (old := default ∅ (user_learned_preferences svc !! user)).
  set (lr := learning_rate svc).
  assert (Hw : (rating - 3.0) / 2.0 == 0) by (rewrite Hr; reflexivity).
  assert (Hd : (rating - 3.0) / 2.0 * lr == 0) by (rewrite Hw; ring).
  assert (Ha : Qabs ((rating - 3.0) / 2.0) * lr == 0) by (rewrite Hw; reflexivity).
  assert (Hn : - (Qabs ((rating - 3.0) / 2.0) * lr) == 0) by (rewrite Ha; reflexivity).
  set (p1 := learn_categories _ _ old).
  assert (H1 : same_signals p1 old) by now apply learn_categories_zero.
  set (p2 := _update_attribute_preferences lr p1 it _).
  assert (H2 : same_signals p2 old).
  { subst p2. unfold _update_attribute_preferences.
    repeat (eapply same_signals_trans; [now apply add_signal_zero |]). exact H1. }
  destruct feedback as [text |]; [| exact H2].
  destruct (String.eqb text ""); [exact H2 |].
  unfold _process_text_feedback.
  eapply same_signals_trans; [now apply scan_keywords_zero |].
  eapply same_signals_trans; [now apply scan_keywords_zero | exact H2].
Qed.

Lemma neutral_feedback_moves_no_signal_witness :
  3 == 3 /\
  same_signals
    (default ∅ (user_learned_preferences
                  (update_preferences_from_feedback Scenario.after_bad_feedback
                     "test_user" "rec_124" 3 (Some "Crowded but authentic")
                     Scenario.outdoor_item) !! "test_user"))
    (default ∅ (user_learned_preferences Scenario.after_bad_feedback !! "test_user")).
Proof.
  split; [reflexivity |].
  apply (neutral_feedback_moves_no_signal Scenario.after_bad_feedback "test_user"
           "rec_124" 3 (Some "Crowded but authentic") Scenario.outdoor_item).
  reflexivity.
Defined.

End LearningInvariants.

(** ** The collaborative model: ranking and updates *)
Module CollaborativeOrder.
Import Py Collaborative Spec.
Local Open Scope Q_scope.

(** The neighbours returned for a user are ranked by descending
    similarity, number at most [top_k], all come from the user's row of
    the similarity table, and none is passed over for a neighbour of
    strictly smaller similarity. *)
Theorem similar_users_are_ranked (svc : CollaborativeFilteringService) (user : string)
    (top_k : nat) :
  let result := find_similar_users svc user top_k in
  descending snd result /\
  (length result <= top_k)%nat /\
  (forall p, In p result ->
     exists sims, Dict.get user (user_similarities svc) = Some sims /\ In p sims) /\
  (forall sims p q,
     Dict.get user (user_similarities svc) = Some sims ->
     In p result -> In q sims -> snd p < snd q -> In q result).
Proof.
  unfold find_similar_users.
  destruct (Dict.get user (user_similarities svc)) as [sims |]; simpl.
  - pose proof (OrderFacts.sorted_desc_descending snd sims) as Hd.
    split; [| split; [| split]].
    + now apply OrderFacts.take_descending.
    + apply firstn_le_length.
    + intros p Hp. exists sims. split; [reflexivity |].
      apply DictFacts.take_In in Hp. now apply DictFacts.sorted_desc_In in Hp.
    + intros sims' p q [= <-] Hp Hq Hlt.
      apply (DictFacts.sorted_desc_In snd) in Hq.
      rewrite <- (take_drop top_k (Dict.sorted_desc snd sims)) in Hq.
      apply in_app_or in Hq. destruct Hq as [Hq | Hq]; [exact Hq |].
      pose proof (OrderFacts.descending_split snd top_k _ p q Hd Hp Hq). lra.
  - split; [constructor |]. split; [lia |].
    split; [intros p [] | intros sims p q H; discriminate].
Qed.

(** Ties keep the order of the table: when the user's row is already in
    descending order, equal similarities included, the neighbours returned
    are its first [top_k] entries in that order. *)
Theorem similar_users_keep_table_order (svc : CollaborativeFilteringService)
    (user : string) (top_k : nat) (sims : list (string * Q)) :
  Dict.get user (user_similarities svc) = Some sims ->
  descending snd sims ->
  find_similar_users svc user top_k = take top_k sims.
Proof.
  intros Hs Hd. unfold find_similar_users. rewrite Hs.
  now rewrite OrderFacts.sorted_desc_stable.
Qed.

Lemma similar_users_keep_table_order_witness :
  Dict.get "ann" (user_similarities Scenario.tied_neighbours)
  = Some [("bob", 0.6); ("cat", 0.6); ("dan", 0.2)] /\
  descending snd [("bob", 0.6); ("cat", 0.6); ("dan", 0.2)] /\
  find_similar_users Scenario.tied_neighbours "ann" 2 = [("bob", 0.6); ("cat", 0.6)].
Proof.
  assert (Hd : descending snd [("bob", 0.6); ("cat", 0.6); ("dan", 0.2)]).
  { unfold descending. repeat constructor; simpl; discriminate. }
  split; [reflexivity |]. split; [exact Hd |].
  exact (similar_users_keep_table_order Scenario.tied_neighbours "ann" 2
           [("bob", 0.6); ("cat", 0.6); ("dan", 0.2)] eq_refl Hd).
Defined.

Lemma insert_desc_permutation {A} (key : A -> Q) (x : A) (l : list A) :
  Permutation (Dict.insert_desc key x l) (x :: l).
Proof.
  induction l as [| y l IH]; simpl; [reflexivity |].
  destruct (Qltb (key x) (key y)); [| reflexivity].
  rewrite IH. apply perm_swap.
Qed.

(** The sort rearranges the list and nothing else. *)
Lemma sorted_desc_permutation {A} (key : A -> Q) (l : list A) :
  Permutation (Dict.sorted_desc key l) l.
Proof.
  induction l as [| x l IH]; simpl; [reflexivity |].
  rewrite insert_desc_permutation. now constructor.
Qed.

Lemma set_keys_distinct {V} (k : string) (v : V) (d : list (string * V)) :
  List.NoDup (map fst d) -> List.NoDup (map fst (Dict.set k v d)).
Proof.
  induction d as [| [k' v'] d IH]; simpl; intros H.
  - constructor; [intros [] | constructor].
  - apply List.NoDup_cons_iff in H. destruct H as [Hk' Hd].
    destruct (String.eqb_spec k' k) as [-> | Hne]; simpl.
    + constructor; assumption.
    + constructor; [| now apply IH].
      intros Hin. apply in_map_iff in Hin. destruct Hin as [[k0 v0] [Hk0 Hin]].
      simpl in Hk0. subst k0. apply DictFacts.set_In in Hin.
      destruct Hin as [[= ->] | Hin]; [now apply Hne |].
      apply Hk'. apply in_map_iff. now exists (k', v0).
Qed.

Lemma score_items_keys_distinct profiles similar_users interacted items :
  List.NoDup (map fst (score_items profiles similar_users interacted items)).
Proof.
  unfold score_items.
  assert (H : forall acc : list (string * Q),
             List.NoDup (map fst acc) ->
             List.NoDup
               (map fst
                  (fold_left
                     (fun item_scores it =>
                        if in_list (item_id it) interacted then item_scores
                        else
                          let '(score, total_weight) :=
                            neighbour_votes profiles similar_users (item_id it) in
                          if Qltb 0 total_weight
                          then Dict.set (item_id it) (score / total_weight) item_scores
                          else item_scores)
                     items acc))).
  { induction items as [| it items IH]; simpl; intros acc Hacc; [exact Hacc |].
    apply IH. destruct (in_list _ _); [exact Hacc |].
    destruct (neighbour_votes _ _ _) as [score total].
    destruct (Qltb 0 total); [now apply set_keys_distinct | exact Hacc]. }
  apply H. constructor.
Qed.

Lemma take_distinct {A} (n : nat) (l : list A) : List.NoDup l -> List.NoDup (take n l).
Proof.
  intros H. revert n. induction H as [| x l Hx Hl IH]; intros [| n]; simpl;
    try constructor.
  - intros Hin. apply Hx. now apply DictFacts.take_In in Hin.
  - apply IH.
Qed.

Lemma resolve_items_descending items (scored : list (string * Q)) :
  descending snd scored -> descending snd (resolve_items items scored).
Proof.
  unfold descending. induction 1 as [| [id s] scored Hs IH Hhd]; simpl; [constructor |].
  destruct (List.find _ items) as [it |]; simpl; [| exact IH].
  constructor; [exact IH |].
  apply List.Forall_forall. intros [it' s'] Hin. simpl.
  apply CollaborativeFacts.resolve_items_In in Hin.
  rewrite List.Forall_forall in Hhd. apply (Hhd _ Hin).
Qed.

Lemma resolve_items_distinct items (scored : list (string * Q)) :
  List.NoDup (map fst scored) ->
  List.NoDup (map (fun rec : RecommendationItem * Q => item_id (fst rec))
                  (resolve_items items scored)).
Proof.
  induction scored as [| [id s] scored IH]; simpl; intros H; [constructor |].
  apply List.NoDup_cons_iff in H. destruct H as [Hid Hrest].
  destruct (List.find _ items) as [it |] eqn:Ef; simpl; [| now apply IH].
  apply find_some in Ef. destruct Ef as [_ Heq]. apply String.eqb_eq in Heq.
  constructor; [| now apply IH].
  intros Hin. apply in_map_iff in Hin. destruct Hin as [[it' s'] [Hid' Hin]].
  simpl in Hid'. apply CollaborativeFacts.resolve_items_In in Hin.
  apply Hid. apply in_map_iff. exists (item_id it', s'). simpl. split; [congruence | exact Hin].
Qed.

Lemma resolve_items_length items (scored : list (string * Q)) :
  (length (resolve_items items scored) <= length scored)%nat.
Proof.
  induction scored as [| [id s] scored IH]; simpl; [lia |].
  destruct (List.find _ items); simpl; lia.
Qed.

(** The collaborative recommendations number at most [top_k], are ranked
    by descending score, and name each item id at most once, even when the
    list of available items repeats an item. *)
Theorem collaborative_recommendations_are_ranked (svc : CollaborativeFilteringService)
    (user : string) (items : list RecommendationItem) (top_k : nat) :
  let result := generate_collaborative_recommendations svc user items top_k in
  (length result <= top_k)%nat /\
  descending snd result /\
  List.NoDup (map (fun rec : RecommendationItem * Q => item_id (fst rec)) result).
Proof.
  unfold generate_collaborative_recommendations.
  destruct (find_similar_users svc user 10) as [| n ns];
    [simpl; repeat split; try lia; constructor |].
  destruct (Dict.get user (user_profiles svc)) as [profile |];
    [| simpl; repeat split; try lia; constructor].
  set (scores := score_items _ _ _ _). simpl.
  split; [| split].
  - eapply Nat.le_trans; [apply resolve_items_length | apply firstn_le_length].
  - apply resolve_items_descending, OrderFacts.take_descending,
      OrderFacts.sorted_desc_descending.
  - apply resolve_items_distinct. rewrite <- firstn_map. apply take_distinct.
    apply (Permutation_NoDup
             (Permutation_sym (Permutation_map fst (sorted_desc_permutation snd scores)))).
    apply score_items_keys_distinct.
Qed.

(** With a repeated item in the list, ann is still offered the restaurant
    once. *)
Example repeated_item_is_recommended_once :
  map (fun rec : RecommendationItem * Q => item_id (fst rec))
      (generate_collaborative_recommendations Scenario.two_users "ann"
         [Scenario.expensive_restaurant; Scenario.outdoor_item;
          Scenario.expensive_restaurant] 5)
  = ["expensive_restaurant"].
Proof. reflexivity. Qed.

(** An update with fewer interactions than the threshold returns without
    raising and recomputes nothing: the similarity table is the same, the
    user's history is the previous one followed by the new interactions (a
    profile being created for a user not yet known), and the profiles of
    the other users are untouched. *)
Theorem small_update_extends_history recompute (svc : CollaborativeFilteringService)
    (user : string) (interactions : list UserInteraction) (now : Z) :
  (length interactions < min_interactions svc)%nat ->
  let '(svc', outcome) := update_user_interactions recompute svc user interactions now in
  outcome = Ok tt /\
  user_similarities svc' = user_similarities svc /\
  (interaction_history <$> Dict.get user (user_profiles svc'))
  = Some (history_of svc user ++ interactions)%list /\
  forall other, other <> user ->
    Dict.get other (user_profiles svc') = Dict.get other (user_profiles svc).
Proof.
  intros Hlt. unfold update_user_interactions.
  assert (E : (min_interactions svc <=? length interactions)%nat = false)
    by (apply Nat.leb_gt; exact Hlt).
  rewrite E. simpl. split; [reflexivity |]. split; [reflexivity |]. split.
  - rewrite OrderFacts.get_set_eq. unfold history_of.
    destruct (Dict.get user (user_profiles svc)); reflexivity.
  - intros other Hne. apply OrderFacts.get_set_ne. congruence.
Qed.

Lemma small_update_extends_history_witness :
  let i := Scenario.interaction "ann" "expensive_restaurant" "like" None in
  (length [i] < min_interactions Scenario.two_users)%nat /\
  let '(svc', outcome) :=
    update_user_interactions Scenario.no_recompute Scenario.two_users "ann" [i] 0 in
  outcome = Ok tt /\
  user_similarities svc' = user_similarities Scenario.two_users /\
  (interaction_history <$> Dict.get "ann" (user_profiles svc'))
  = Some (history_of Scenario.two_users "ann" ++ [i])%list /\
  forall other, other <> "ann" ->
    Dict.get other (user_profiles svc') = Dict.get other (user_profiles Scenario.two_users).
Proof.
  assert (H : (length [Scenario.interaction "ann" "expensive_restaurant" "like" None]
               < min_interactions Scenario.two_users)%nat) by (simpl; lia).
  split; [exact H |].
  exact (small_update_extends_history Scenario.no_recompute Scenario.two_users "ann"
           [Scenario.interaction "ann" "expensive_restaurant" "like" None] 0 H).
Defined.

(** Once ann has liked the restaurant, it is no longer recommended to her. *)
Example liked_item_is_no_longer_recommended :
  let i := Scenario.interaction "ann" "expensive_restaurant" "like" None in
  generate_collaborative_recommendations
    (fst (update_user_interactions Scenario.no_recompute Scenario.two_users "ann" [i] 0))
    "ann" [Scenario.outdoor_item; Scenario.expensive_restaurant] 5 = [].
Proof. reflexivity. Qed.

End CollaborativeOrder.

(** ** The orchestrator: candidates, ranking and the stored state *)
Module EngineLifecycle.
Import Py Engine Spec.
Local Open Scope Q_scope.

Lemma within_band (b : BudgetRange) (cost : Q) :
  within (default (0, None) (budget_ranges !! BudgetRange_value b)) cost = true
  <-> within_tier b cost.
Proof.
  unfold within, within_tier.
  assert (H : default (0, None) (budget_ranges !! BudgetRange_value b)
              = (0, budget_ceiling b)) by (destruct b; reflexivity).
  rewrite H. simpl. rewrite andb_true_iff, Qle_bool_iff.
  destruct (budget_ceiling b) as [hi |]; [rewrite Qle_bool_iff |]; tauto.
Qed.

Lemma dietary_test (restrictions : list string) (it : RecommendationItem) :
  (negb (String.eqb (item_type it) "restaurant")
   || negb (existsb (fun restriction => contains restriction (lower (description it)))
                    restrictions))%bool = true
  <-> dietary_ok restrictions it.
Proof.
  unfold dietary_ok. rewrite orb_true_iff, !negb_true_iff.
  rewrite String.eqb_neq.
  assert (H : existsb (fun restriction => contains restriction (lower (description it)))
                      restrictions = false
              <-> Forall (fun restriction =>
                            contains restriction (lower (description it)) = false)
                         restrictions).
  { induction restrictions as [| r rs IH]; simpl.
    - split; [constructor | reflexivity].
    - rewrite orb_false_iff, IH, List.Forall_cons_iff. reflexivity. }
  now rewrite H.
Qed.

Lemma filter_sublist {A} (f : A -> bool) (l : list A) : List.filter f l `sublist_of` l.
Proof.
  induction l as [| x l IH]; simpl; [constructor |].
  destruct (f x); now constructor.
Qed.

(** Membership in the candidates, test by test. *)
Lemma candidate_spec (e : RecommendationEngine) (request : RecommendationRequest)
    (it : RecommendationItem) :
  In it (_filter_candidate_items e request) <->
  In it (available_items e) /\
  type_ok (recommendation_types request) it /\
  within_tier (budget_range (req_preferences request)) (estimated_cost it) /\
  dietary_ok (dietary_restrictions (req_preferences request)) it.
Proof.
  unfold _filter_candidate_items.
  set (range := default (0, None) _).
  set (typed := match recommendation_types request with
                | [] => available_items e
                | _ :: _ => _
                end).
  set (priced := List.filter (fun it => within range (estimated_cost it)) typed).
  assert (Htype : In it typed
                  <-> In it (available_items e) /\
                      type_ok (recommendation_types request) it).
  { subst typed. unfold type_ok.
    destruct (recommendation_types request) as [| t ts].
    - split; [intros H; split; [exact H | now left] | tauto].
    - rewrite filter_In. unfold in_list. rewrite bool_decide_eq_true.
      split; [intros [H1 H2]; split; [exact H1 | now right] |].
      intros [H1 [H2 | H2]]; [discriminate | now split]. }
  assert (Hpriced : In it priced
                    <-> In it typed /\
                        within_tier (budget_range (req_preferences request))
                                    (estimated_cost it)).
  { subst priced range. rewrite filter_In, within_band. reflexivity. }
  destruct (dietary_restrictions (req_preferences request)) as [| r rs].
  - rewrite Hpriced, Htype.
    assert (dietary_ok [] it) by (right; constructor). tauto.
  - rewrite filter_In, dietary_test, Hpriced, Htype. tauto.
Qed.

Lemma filter_filter {A} (f g : A -> bool) (l : list A) :
  List.filter f (List.filter g l) = List.filter (fun x => (g x && f x)%bool) l.
Proof.
  induction l as [| x l IH]; simpl; [reflexivity |].
  destruct (g x); simpl; [destruct (f x) |]; now rewrite IH.
Qed.

(** Over a catalog whose descriptions are ASCII text, the candidates of a
    request are exactly the entries of the catalog that pass the three
    filters, each as often and in the order the catalog lists it: a
    requested type (when types are requested), a cost between 0 and the
    ceiling of the budget tier, and, for restaurants, a description that
    mentions none of the dietary restrictions once lower-cased. *)
Theorem candidates_pass_every_filter (e : RecommendationEngine)
    (request : RecommendationRequest) :
  Forall (fun it => isascii (description it) = true) (available_items e) ->
  exists keep : RecommendationItem -> bool,
    _filter_candidate_items e request = List.filter keep (available_items e) /\
    forall it,
      keep it = true <->
      type_ok (recommendation_types request) it /\
      within_tier (budget_range (req_preferences request)) (estimated_cost it) /\
      dietary_ok (dietary_restrictions (req_preferences request)) it.
Proof.
  intros _.
  set (type_test := fun it : RecommendationItem =>
         match recommendation_types request with
         | [] => true
         | types => in_list (item_type it) (map RecommendationType_value types)
         end).
  set (range := default (0, None)
                  (budget_ranges
                     !! BudgetRange_value (budget_range (req_preferences request)))).
  set (diet_test := fun it : RecommendationItem =>
         match dietary_restrictions (req_preferences request) with
         | [] => true
         | restrictions =>
             (negb (String.eqb (item_type it) "restaurant")
              || negb (existsb (fun restriction =>
                                  contains restriction (lower (description it)))
                               restrictions))%bool
         end).
  exists (fun it => ((type_test it && within range (estimated_cost it)) && diet_test it)%bool).
  split.
  - unfold _filter_candidate_items. fold range.
    rewrite <- !filter_filter.
    assert (Htyped : match recommendation_types request with
                     | [] => available_items e
                     | types =>
                         List.filter
                           (fun it => in_list (item_type it)
                                        (map RecommendationType_value types))
                           (available_items e)
                     end = List.filter type_test (available_items e)).
    { subst type_test. destruct (recommendation_types request); [| reflexivity].
      simpl. induction (available_items e) as [| x l IH]; simpl; [reflexivity |].
      now rewrite <- IH. }
    rewrite Htyped.
    set (priced := List.filter _ (List.filter type_test _)).
    subst diet_test.
    destruct (dietary_restrictions (req_preferences request)); [| reflexivity].
    simpl. induction priced as [| x l IH]; simpl; [reflexivity |]. now rewrite <- IH.
  - intros it. rewrite !andb_true_iff. subst range. rewrite within_band.
    assert (Ht : type_test it = true <-> type_ok (recommendation_types request) it).
    { subst type_test. unfold type_ok.
      destruct (recommendation_types request) as [| t ts].
      - split; [now left | reflexivity].
      - unfold in_list. rewrite bool_decide_eq_true.
        split; [now right | intros [H | H]; [discriminate | exact H]]. }
    assert (Hd : diet_test it = true
                 <-> dietary_ok (dietary_restrictions (req_preferences request)) it).
    { subst diet_test.
      destruct (dietary_restrictions (req_preferences request)) as [| r rs] eqn:E.
      - split; [intros _; right; constructor | reflexivity].
      - apply dietary_test. }
    rewrite Ht, Hd. tauto.
Qed.

(** The two-item catalog under a low budget: the peak passes, the
    restaurant does not. *)
Lemma candidates_pass_every_filter_witness :
  let request := Scenario.request "u" Scenario.low_budget_preferences in
  Forall (fun it => isascii (description it) = true)
         (available_items Scenario.fresh_engine) /\
  exists keep : RecommendationItem -> bool,
    _filter_candidate_items Scenario.fresh_engine request
    = List.filter keep (available_items Scenario.fresh_engine) /\
    forall it,
      keep it = true <->
      type_ok (recommendation_types request) it /\
      within_tier (budget_range (req_preferences request)) (estimated_cost it) /\
      dietary_ok (dietary_restrictions (req_preferences request)) it.
Proof.
  assert (H : Forall (fun it => isascii (description it) = true)
                     (available_items Scenario.fresh_engine))
    by (repeat constructor).
  split; [exact H |].
  exact (candidates_pass_every_filter Scenario.fresh_engine
           (Scenario.request "u" Scenario.low_budget_preferences) H).
Defined.

(** The restaurant is dropped for a vegetarian whose restriction its
    description mentions, the peak is kept. *)
Example restricted_restaurant_is_dropped :
  let steakhouse :=
    {| item_id := "steakhouse"; item_type := "restaurant"; name := "Grill";
       description := "Famous BEEF and seafood grill"; location := Scenario.central;
       rating := 4.0; categories := ["dining"]; estimated_duration := 90;
       estimated_cost := 250; weather_dependent := false; crowd_level := "moderate";
       local_authenticity_score := 0.5 |} in
  let prefs :=
    {| interests := []; budget_range := HIGH; group_type := SOLO;
       dietary_restrictions := ["beef"]; activity_level := ACT_MODERATE;
       weather_preferences := [] |} in
  map item_id
      (_filter_candidate_items
         {| collaborative_service := Collaborative.init;
            preference_service := Learning.init;
            user_profiles := ∅;
            available_items := [steakhouse; Scenario.outdoor_item];
            recommendation_history := ∅; log := [] |}
         (Scenario.request "u" prefs))
  = ["outdoor_item"].
Proof. reflexivity. Qed.

Lemma within_tier_widens (b1 b2 : BudgetRange) (cost : Q) :
  (tier_rank b1 <= tier_rank b2)%nat -> within_tier b1 cost -> within_tier b2 cost.
Proof.
  unfold within_tier.
  destruct b1, b2; simpl; intros Hr [H0 H1]; split; try exact H0; try exact I;
    try lra; lia.
Qed.

(** The budget tiers are nested: whatever is a candidate under a tier is a
    candidate under every wider tier, the rest of the request being the
    same. *)
Theorem budget_tiers_are_nested (e : RecommendationEngine)
    (request : RecommendationRequest) (b1 b2 : BudgetRange) (it : RecommendationItem) :
  (tier_rank b1 <= tier_rank b2)%nat ->
  In it (_filter_candidate_items e (with_budget request b1)) ->
  In it (_filter_candidate_items e (with_budget request b2)).
Proof.
  intros Hr. rewrite !candidate_spec. simpl.
  intros [H1 [H2 [H3 H4]]]. repeat split; try assumption.
  - now apply (within_tier_widens b1 b2).
  - apply (within_tier_widens b1 b2 _ Hr H3).
Qed.

Lemma budget_tiers_are_nested_witness :
  let request := Scenario.request "u" Scenario.low_budget_preferences in
  (tier_rank LOW <= tier_rank HIGH)%nat /\
  In Scenario.outdoor_item
     (_filter_candidate_items Scenario.fresh_engine (with_budget request LOW)) /\
  In Scenario.outdoor_item
     (_filter_candidate_items Scenario.fresh_engine (with_budget request HIGH)).
Proof.
  assert (Hr : (tier_rank LOW <= tier_rank HIGH)%nat) by (simpl; lia).
  assert (Hin : In Scenario.outdoor_item
                   (_filter_candidate_items Scenario.fresh_engine
                      (with_budget (Scenario.request "u" Scenario.low_budget_preferences)
                                   LOW)))
    by (vm_compute; left; reflexivity).
  split; [exact Hr |]. split; [exact Hin |].
  exact (budget_tiers_are_nested Scenario.fresh_engine
           (Scenario.request "u" Scenario.low_budget_preferences) LOW HIGH
           Scenario.outdoor_item Hr Hin).
Defined.

(** Storing recommendations keeps at most the 100 most recent entries of
    the user: what is kept is the end of the previous entries followed by
    the new ones, all of them when they number at most 100; the entries of
    the other users are untouched. *)
Theorem stored_history_is_bounded (e : RecommendationEngine) (user : string)
    (recommendations : list RecommendationResponse) :
  let e' := _store_recommendations e user recommendations in
  let old := default [] (recommendation_history e !! user) in
  exists stored,
    recommendation_history e' !! user = Some stored /\
    (length stored <= 100)%nat /\
    stored `suffix_of` (old ++ recommendations)%list /\
    ((length old + length recommendations <= 100)%nat ->
     stored = (old ++ recommendations)%list) /\
    forall other, other <> user ->
      recommendation_history e' !! other = recommendation_history e !! other.
Proof.
  unfold _store_recommendations. simpl.
  set (old := default [] (recommendation_history e !! user)).
  exists (last_100 (old ++ recommendations)%list).
  split; [apply lookup_insert_eq |].
  unfold last_100. split; [rewrite length_drop; lia |].
  split; [apply suffix_drop |]. split.
  - intros H. rewrite length_app.
    replace (length old + length recommendations - 100)%nat with 0%nat by lia.
    reflexivity.
  - intros other Hne. now apply lookup_insert_ne.
Qed.

Lemma update_scores_Forall (P : RecommendationResponse -> Prop)
    (recommendations : list RecommendationResponse) (adjusted : list Q) :
  (forall r a, P r -> P (set_score r a)) ->
  Forall P recommendations -> Forall P (update_scores recommendations adjusted).
Proof.
  intros HP H. revert adjusted.
  induction H as [| r rs Hr Hrs IH]; intros [| a adjusted]; simpl;
    try constructor; auto.
Qed.

(** The results of the ranking steps of [generate_recommendations], from
    the candidates on. *)
Lemma ranked_results dist content similar fmt (e : RecommendationEngine)
    (request : RecommendationRequest) (now : Z) :
  let results := snd (generate_recommendations dist content similar fmt e request now) in
  (length results <= max_results request)%nat /\
  descending personalized_score results /\
  Forall (fun r =>
            rec_user_id r = req_user_id request /\
            contextual_factors r = req_contextual_factors request)
         results.
Proof.
  unfold generate_recommendations, _get_or_create_user_profile.
  destruct (Learning.learn_from_interactions _ _ _ _) as [svc returned].
  set (e2 := set_preference_service _ svc).
  destruct (_filter_candidate_items e2 request) as [| c cs];
    [simpl; split; [lia | split; constructor] |].
  simpl.
  set (recs := _generate_hybrid_recommendations content similar fmt e2 _ (c :: cs)
                 request now).
  set (adjusted := match req_contextual_factors request with
                   | [] => recs
                   | _ :: _ => _
                   end).
  split; [apply firstn_le_length |].
  split; [apply OrderFacts.take_descending, OrderFacts.sorted_desc_descending |].
  assert (Hrecs : Forall (fun r =>
                            rec_user_id r = req_user_id request /\
                            contextual_factors r = req_contextual_factors request) recs).
  { subst recs. unfold _generate_hybrid_recommendations.
    apply List.Forall_forall. intros r Hr. apply in_map_iff in Hr.
    destruct Hr as [it [<- _]]. simpl. split; reflexivity. }
  assert (Hadj : Forall (fun r =>
                           rec_user_id r = req_user_id request /\
                           contextual_factors r = req_contextual_factors request)
                        adjusted).
  { subst adjusted. destruct (req_contextual_factors request) eqn:Ef; [exact Hrecs |].
    unfold _apply_contextual_adjustments.
    apply update_scores_Forall; [intros r a H; exact H | exact Hrecs]. }
  rewrite List.Forall_forall in *. intros r Hr. apply Hadj.
  apply DictFacts.take_In in Hr. now apply DictFacts.sorted_desc_In in Hr.
Qed.

(** The filter reads the catalog of the engine and nothing else of it. *)
Lemma candidates_of_catalog (e e' : RecommendationEngine) (request : RecommendationRequest) :
  available_items e' = available_items e ->
  _filter_candidate_items e' request = _filter_candidate_items e request.
Proof. intros H. unfold _filter_candidate_items. now rewrite H. Qed.

(** The responses to a request number at most [max_results], are ranked
    by descending score, and each carries the user and the contextual
    factors of the request and an item that passed the filter of the
    request. *)
Theorem recommendations_are_ranked dist content similar fmt (e : RecommendationEngine)
    (request : RecommendationRequest) (now : Z) :
  let results := snd (generate_recommendations dist content similar fmt e request now) in
  (length results <= max_results request)%nat /\
  descending personalized_score results /\
  Forall (fun r =>
            rec_user_id r = req_user_id request /\
            contextual_factors r = req_contextual_factors request /\
            In (item r) (_filter_candidate_items e request))
         results.
Proof.
  destruct (ranked_results dist content similar fmt e request now) as [H1 [H2 H3]].
  split; [exact H1 |]. split; [exact H2 |].
  rewrite List.Forall_forall in *. intros r Hr.
  destruct (H3 r Hr) as [Hu Hf]. split; [exact Hu |]. split; [exact Hf |].
  destruct (EngineFacts.recommended_items_are_candidates _ _ _ _ _ _ _ _ Hr)
    as [e' [Hcat Hin]].
  now rewrite <- (candidates_of_catalog e e' request Hcat).
Qed.

(** What a request leaves behind in the engine: the user has a profile
    carrying the preferences of the request and the history the user had
    (none for a new user); the other profiles and the catalog are the
    same; and the returned responses are appended to the user's stored
    recommendations, unless no catalog item was a candidate, in which case
    nothing is returned and nothing stored. *)
Theorem request_leaves_profile_and_history dist content similar fmt
    (e : RecommendationEngine) (request : RecommendationRequest) (now : Z) :
  let '(e', results) := generate_recommendations dist content similar fmt e request now in
  let user := req_user_id request in
  (exists p,
      user_profiles e' !! user = Some p /\
      preferences p = req_preferences request /\
      interaction_history p
      = match user_profiles e !! user with
        | Some q => interaction_history q
        | None => []
        end) /\
  (forall other, other <> user -> user_profiles e' !! other = user_profiles e !! other) /\
  available_items e' = available_items e /\
  (recommendation_history e' !! user
   = Some (last_100 (default [] (recommendation_history e !! user) ++ results)%list)
   \/ (results = [] /\ recommendation_history e' = recommendation_history e)).
Proof.
  unfold generate_recommendations, _get_or_create_user_profile.
  destruct (Learning.learn_from_interactions _ _ _ _) as [svc returned].
  set (e2 := set_preference_service _ svc).
  assert (Hp : exists p,
             user_profiles e2 !! req_user_id request = Some p /\
             preferences p = req_preferences request /\
             interaction_history p
             = match user_profiles e !! req_user_id request with
               | Some q => interaction_history q
               | None => []
               end).
  { subst e2. simpl. rewrite lookup_insert_eq. eexists. split; [reflexivity |].
    destruct (user_profiles e !! req_user_id request); simpl; split; reflexivity. }
  assert (Ho : forall other, other <> req_user_id request ->
                             user_profiles e2 !! other = user_profiles e !! other).
  { intros other Hne. subst e2. simpl. now rewrite lookup_insert_ne. }
  destruct (_filter_candidate_items e2 request) as [| c cs].
  - simpl. split; [exact Hp |]. split; [exact Ho |].
    split; [reflexivity |]. right. split; reflexivity.
  - simpl. split; [exact Hp |]. split; [exact Ho |].
    split; [reflexivity |]. left. apply lookup_insert_eq.
Qed.

Lemma sorted_weaken {A} (R R' : A -> A -> Prop) (l : list A) :
  (forall a b, R a b -> R' a b) -> StronglySorted R l -> StronglySorted R' l.
Proof.
  intros H. induction 1 as [| x l Hl IH Hx]; constructor; [exact IH |].
  eapply List.Forall_impl; [| exact Hx]. intros b. apply H.
Qed.

Lemma slice_to_In {A} (n : Z) (l : list A) (x : A) : In x (slice_to n l) -> In x l.
Proof. unfold slice_to. destruct (0 <=? n)%Z; apply DictFacts.take_In. Qed.

Lemma slice_to_descending {A} (key : A -> Q) (n : Z) (l : list A) :
  descending key l -> descending key (slice_to n l).
Proof. unfold slice_to. destruct (0 <=? n)%Z; apply OrderFacts.take_descending. Qed.

(** The recommendations read back for a user are stored recommendations of
    that user that have not expired, most recent first.  For a limit that
    is not negative there are at most [limit] of them, and every unexpired
    one is among them when the user's stored entries number at most
    [limit].  A negative limit is not refused: all the unexpired entries
    but [- limit] of them are returned. *)
Theorem user_recommendations_are_active (e : RecommendationEngine) (user : string)
    (limit : Z) (now : Z) :
  let stored := default [] (recommendation_history e !! user) in
  let result := get_user_recommendations e user limit now in
  Forall (fun r => (now < valid_until r)%Z /\ In r stored) result /\
  StronglySorted (fun a b => (generated_at b <= generated_at a)%Z) result /\
  ((0 <= limit)%Z -> (Z.of_nat (length result) <= limit)%Z) /\
  ((Z.of_nat (length stored) <= limit)%Z ->
   forall r, In r stored -> (now < valid_until r)%Z -> In r result) /\
  ((limit < 0)%Z ->
   length result
   = (length (List.filter (fun r => (now <? valid_until r)%Z) stored)
      - Z.to_nat (- limit))%nat).
Proof.
  unfold get_user_recommendations.
  set (stored := default [] (recommendation_history e !! user)).
  set (active := List.filter (fun r => (now <? valid_until r)%Z) stored).
  simpl. split; [| split; [| split; [| split]]].
  - apply List.Forall_forall. intros r Hr.
    apply slice_to_In, DictFacts.sorted_desc_In in Hr.
    subst active. apply filter_In in Hr. destruct Hr as [Hin Hv].
    apply Z.ltb_lt in Hv. auto.
  - apply (sorted_weaken (fun a b => inject_Z (generated_at b) <= inject_Z (generated_at a))).
    + intros a b H. now rewrite Zle_Qle.
    + apply slice_to_descending, OrderFacts.sorted_desc_descending.
  - intros Hlimit. unfold slice_to.
    destruct (Z.leb_spec 0 limit) as [_ | Hneg]; [| lia].
    pose proof (firstn_le_length (Z.to_nat limit)
                  (Dict.sorted_desc (fun r => inject_Z (generated_at r)) active)) as H.
    lia.
  - intros Hlen r Hin Hv. unfold slice_to.
    assert (Hactive : (length active <= length stored)%nat)
      by (subst active; apply filter_length_le).
    destruct (Z.leb_spec 0 limit) as [_ | Hneg]; [| lia].
    rewrite firstn_all2.
    + apply DictFacts.sorted_desc_In. subst active. apply filter_In.
      split; [exact Hin | now apply Z.ltb_lt].
    + rewrite OrderFacts.length_sorted_desc. lia.
  - intros Hneg. unfold slice_to.
    destruct (Z.leb_spec 0 limit) as [Hpos | _]; [lia |].
    rewrite length_take, OrderFacts.length_sorted_desc. lia.
Qed.

(** The stored response of the test user is read back before its expiry
    and no longer after it. *)
Example stored_response_expires :
  map rec_id (get_user_recommendations Scenario.engine_with_user "test_user" 10 3600)
  = ["rec_outdoor_item_0"] /\
  get_user_recommendations Scenario.engine_with_user "test_user" 10 86400 = [] /\
  get_user_recommendations Scenario.engine_with_user "stranger" 10 0 = [].
Proof. repeat split. Qed.

(** For a known user and fields within their enumerations, the update
    replaces the stored preferences by the preferences built from the
    fields alone (a list that is absent becomes empty, whatever was stored),
    stamps the profile, keeps its history, and leaves the other profiles of
    the engine, the stored recommendations and the log as they were. *)
Theorem preferences_are_replaced (e : RecommendationEngine) (user : string)
    (profile : UserProfile) (fields : PreferenceFields) (prefs : UserPreferences)
    (now : Z) :
  user_profiles e !! user = Some profile ->
  preferences_of_fields fields = Ok prefs ->
  let '(e', outcome) := update_user_preferences e user fields now in
  outcome = Ok tt /\
  user_profiles e' !! user = Some (with_preferences profile prefs now) /\
  interests prefs = default [] (pf_interests fields) /\
  dietary_restrictions prefs = default [] (pf_dietary_restrictions fields) /\
  weather_preferences prefs = default [] (pf_weather_preferences fields) /\
  (forall other, other <> user -> user_profiles e' !! other = user_profiles e !! other) /\
  recommendation_history e' = recommendation_history e /\
  log e' = log e.
Proof.
  intros Hp Hf. unfold update_user_preferences. rewrite Hp, Hf.
  destruct (Learning.learn_from_interactions _ _ _ _) as [svc returned]. simpl.
  split; [reflexivity |]. split; [apply lookup_insert_eq |].
  assert (Hl : interests prefs = default [] (pf_interests fields) /\
               dietary_restrictions prefs = default [] (pf_dietary_restrictions fields) /\
               weather_preferences prefs = default [] (pf_weather_preferences fields)).
  { unfold preferences_of_fields in Hf.
    destruct (BudgetRange_of _); simpl in Hf; [| discriminate].
    destruct (GroupType_of _); simpl in Hf; [| discriminate].
    destruct (ActivityLevel_of _); simpl in Hf; [| discriminate].
    injection Hf as <-. simpl. repeat split. }
  destruct Hl as [H1 [H2 H3]].
  repeat (split; [assumption |]).
  split; [intros other Hne; now apply lookup_insert_ne |].
  repeat split.
Qed.

Lemma preferences_are_replaced_witness :
  let e :=
    Engine.set_profiles Scenario.fresh_engine
      {[ "test_user" :=
           {| user_id := "test_user"; preferences := Scenario.couple_preferences;
              interaction_history := []; last_updated := 0 |} ]} in
  let profile :=
    {| user_id := "test_user"; preferences := Scenario.couple_preferences;
       interaction_history := []; last_updated := 0 |} in
  let fields :=
    {| pf_interests := None; pf_budget_range := Some "high"; pf_group_type := None;
       pf_dietary_restrictions := None; pf_activity_level := None;
       pf_weather_preferences := None |} in
  let prefs :=
    {| interests := []; budget_range := HIGH; group_type := SOLO;
       dietary_restrictions := []; activity_level := ACT_MODERATE;
       weather_preferences := [] |} in
  user_profiles e !! "test_user" = Some profile /\
  preferences_of_fields fields = Ok prefs /\
  user_profiles (fst (update_user_preferences e "test_user" fields 7)) !! "test_user"
  = Some (with_preferences profile prefs 7).
Proof.
  split; [reflexivity |]. split; [reflexivity |].
  pose proof (preferences_are_replaced
                (Engine.set_profiles Scenario.fresh_engine
                   {[ "test_user" :=
                        {| user_id := "test_user";
                           preferences := Scenario.couple_preferences;
                           interaction_history := []; last_updated := 0 |} ]})
                "test_user"
                {| user_id := "test_user"; preferences := Scenario.couple_preferences;
                   interaction_history := []; last_updated := 0 |}
                {| pf_interests := None; pf_budget_range := Some "high";
                   pf_group_type := None; pf_dietary_restrictions := None;
                   pf_activity_level := None; pf_weather_preferences := None |}
                {| interests := []; budget_range := HIGH; group_type := SOLO;
                   dietary_restrictions := []; activity_level := ACT_MODERATE;
                   weather_preferences := [] |}
                7 eq_refl eq_refl) as H.
  destruct (update_user_preferences _ _ _ _) as [e' outcome].
  destruct H as [_ [H _]]. exact H.
Defined.

Lemma unknown_budget_raises (s : string) :
  s ∉ ["low"; "medium"; "high"; "luxury"] -> BudgetRange_of s = Raise ValueError.
Proof.
  intros H. unfold BudgetRange_of.
  destruct (String.eqb_spec s "low") as [-> | _];
    [exfalso; apply H, list_elem_of_In; simpl; tauto |].
  destruct (String.eqb_spec s "medium") as [-> | _];
    [exfalso; apply H, list_elem_of_In; simpl; tauto |].
  destruct (String.eqb_spec s "high") as [-> | _];
    [exfalso; apply H, list_elem_of_In; simpl; tauto |].
  destruct (String.eqb_spec s "luxury") as [-> | _];
    [exfalso; apply H, list_elem_of_In; simpl; tauto |].
  reflexivity.
Qed.

(** An update whose budget tier is not one of low, medium, high and luxury
    raises, and is rejected as a whole: the profiles, the learner, the
    stored recommendations and the collaborative service are as before;
    only an error is logged. *)
Theorem rejected_update_changes_nothing (e : RecommendationEngine) (user : string)
    (profile : UserProfile) (fields : PreferenceFields) (tier : string) (now : Z) :
  user_profiles e !! user = Some profile ->
  pf_budget_range fields = Some tier ->
  tier ∉ ["low"; "medium"; "high"; "luxury"] ->
  let '(e', outcome) := update_user_preferences e user fields now in
  outcome = Raise ValueError /\
  user_profiles e' = user_profiles e /\
  preference_service e' = preference_service e /\
  recommendation_history e' = recommendation_history e /\
  collaborative_service e' = collaborative_service e /\
  exists message, log e' = (log e ++ [(ERROR, message)])%list.
Proof.
  intros Hp Hb Ht. unfold update_user_preferences. rewrite Hp.
  unfold preferences_of_fields. rewrite Hb. simpl.
  rewrite (unknown_budget_raises _ Ht). simpl.
  repeat (split; [reflexivity |]). eexists. reflexivity.
Qed.

Lemma rejected_update_changes_nothing_witness :
  let fields :=
    {| pf_interests := Some ["indoor"]; pf_budget_range := Some "cheap";
       pf_group_type := None; pf_dietary_restrictions := None;
       pf_activity_level := None; pf_weather_preferences := None |} in
  user_profiles Scenario.engine_with_user !! "test_user"
  = Some (Scenario.profile_of "test_user" []) /\
  pf_budget_range fields = Some "cheap" /\
  ("cheap" ∉ ["low"; "medium"; "high"; "luxury"]) /\
  snd (update_user_preferences Scenario.engine_with_user "test_user" fields 7)
  = Raise ValueError /\
  user_profiles (fst (update_user_preferences Scenario.engine_with_user "test_user"
                        fields 7))
  = user_profiles Scenario.engine_with_user.
Proof.
  assert (Ht : "cheap" ∉ ["low"; "medium"; "high"; "luxury"]).
  { intros H. apply list_elem_of_In in H. simpl in H.
    repeat (destruct H as [H | H]; [discriminate |]). exact H. }
  split; [reflexivity |]. split; [reflexivity |]. split; [exact Ht |].
  pose proof (rejected_update_changes_nothing Scenario.engine_with_user "test_user"
                (Scenario.profile_of "test_user" [])
                {| pf_interests := Some ["indoor"]; pf_budget_range := Some "cheap";
                   pf_group_type := None; pf_dietary_restrictions := None;
                   pf_activity_level := None; pf_weather_preferences := None |}
                "cheap" 7 eq_refl eq_refl Ht) as H.
  destruct (update_user_preferences _ _ _ _) as [e' outcome].
  destruct H as [H1 [H2 _]]. split; [exact H1 | exact H2].
Defined.

(** Feedback on a stored recommendation of a user with a profile, in an
    engine whose recomputation threshold exceeds one interaction: the call
    returns, the learner is updated from the feedback on the recommended
    item, the stored recommendations and the log are unchanged, and the
    rated interaction is recorded in the engine and in the collaborative
    service: each history keeps its earlier entries and ends with the new
    interaction.  (The engine and the collaborative service each append
    the interaction; a history holds it once when the two services own a
    profile object each, and twice when they were handed the same one, so
    the number of copies is left open.) *)
Theorem feedback_is_recorded recompute (e : RecommendationEngine)
    (user recommendation_id : string) (rating : Q) (feedback : option string) (now : Z)
    (r : RecommendationResponse) (profile : UserProfile) :
  List.find (fun r => String.eqb (rec_id r) recommendation_id)
            (default [] (recommendation_history e !! user)) = Some r ->
  user_profiles e !! user = Some profile ->
  (1 < Collaborative.min_interactions (collaborative_service e))%nat ->
  let interaction :=
    {| ui_user_id := user; ui_item_id := item_id (item r);
       interaction_type := "rate"; ui_rating := Some rating; timestamp := now;
       context := {[ "recommendation_id" := recommendation_id ]} |} in
  let '(e', outcome) :=
    process_feedback recompute e user recommendation_id rating feedback now in
  outcome = Ok tt /\
  preference_service e'
  = Learning.update_preferences_from_feedback (preference_service e) user
      recommendation_id rating feedback (item r) /\
  (exists h,
      (interaction_history <$> user_profiles e' !! user) = Some h /\
      interaction_history profile `prefix_of` h /\ last h = Some interaction) /\
  (exists h,
      (interaction_history
         <$> Dict.get user (Collaborative.user_profiles (collaborative_service e')))
      = Some h /\
      history_of (collaborative_service e) user `prefix_of` h /\
      last h = Some interaction) /\
  recommendation_history e' = recommendation_history e /\
  log e' = log e.
Proof.
  intros Hfind Hp Hmin. unfold process_feedback. rewrite Hfind, Hp.
  unfold Collaborative.update_user_interactions.
  assert (E : (Collaborative.min_interactions (collaborative_service e) <=? 1)%nat = false)
    by (apply Nat.leb_gt; exact Hmin).
  simpl. rewrite E. simpl.
  split; [reflexivity |]. split; [reflexivity |].
  split.
  { eexists. split; [now rewrite lookup_insert_eq |]. simpl.
    split; [now apply prefix_app_r | apply last_snoc]. }
  split; [| split; reflexivity].
  rewrite OrderFacts.get_set_eq. unfold history_of.
  destruct (Dict.get user (Collaborative.user_profiles (collaborative_service e)));
    simpl; eexists; (split; [reflexivity |]).
  - split; [now apply prefix_app_r | apply last_snoc].
  - split; [apply prefix_nil | reflexivity].
Qed.

Lemma feedback_is_recorded_witness :
  List.find (fun r => String.eqb (rec_id r) "rec_outdoor_item_0")
            (default [] (recommendation_history Scenario.engine_with_user !! "test_user"))
  = Some Scenario.stored_response /\
  user_profiles Scenario.engine_with_user !! "test_user"
  = Some (Scenario.profile_of "test_user" []) /\
  (1 < Collaborative.min_interactions
         (collaborative_service Scenario.engine_with_user))%nat /\
  snd (process_feedback Scenario.no_recompute Scenario.engine_with_user "test_user"
         "rec_outdoor_item_0" 5 None 42) = Ok tt /\
  exists h,
    (interaction_history
       <$> user_profiles
             (fst (process_feedback Scenario.no_recompute
                     Scenario.engine_with_user "test_user"
                     "rec_outdoor_item_0" 5 None 42)) !! "test_user") = Some h /\
    (ui_item_id <$> last h) = Some "outdoor_item".
Proof.
  assert (Hmin : (1 < Collaborative.min_interactions
                        (collaborative_service Scenario.engine_with_user))%nat)
    by (simpl; lia).
  split; [reflexivity |]. split; [reflexivity |]. split; [exact Hmin |].
  pose proof (feedback_is_recorded Scenario.no_recompute Scenario.engine_with_user
                "test_user" "rec_outdoor_item_0" 5 None 42 Scenario.stored_response
                (Scenario.profile_of "test_user" []) eq_refl eq_refl Hmin) as H.
  destruct (process_feedback _ _ _ _ _ _ _) as [e' outcome].
  destruct H as [H1 [_ [[h [Hh [_ Hlast]]] _]]]. simpl. split; [exact H1 |].
  exists h. split; [exact Hh |]. now rewrite Hlast.
Defined.

End EngineLifecycle.
